(** * The chatbot's conversation memory, domain classifier and profile store

    A shallow embedding of [chatbot_env/memory.py] and of
    [save_user_profile] from [chatbot_env/profiles.py], followed by the
    properties of the retrieval, classification and persistence code.

    Conventions of the embedding:
    - Python [str] values are [string]s whose characters are read as the code
      points U+0000..U+00FF; [lower], [isspace] and the regular-expression
      classes [\w] and [\s] are Python's tables restricted to that range.
    - Python [float]s are IEEE binary64 numbers, here the primitive [float]s.
      The relevance score [matches / len(query_words)] is kept as the exact
      rational: for two scores of one query the order of the correctly rounded
      quotients is the order of the rationals.
    - A parsed JSON document is a value of [json]; Python [dict]s are
      association lists in insertion order.
    - The two files of the working directory and the clock are explicit inputs;
      console and UI diagnostics ([print], [st.error]) are not modelled.
    - How a write goes is part of the state of a file: it goes through, it
      fails at [open] with the file as it was, or it breaks off after [open]
      has truncated the file. *)

From Stdlib Require Import List String Ascii NArith ZArith QArith Bool Lia.
From Stdlib Require Import Floats.
From Stdlib Require Import Sorting.Sorted Sorting.Permutation.
Import ListNotations.

Set Warnings "-register-all,-inexact-float".

Local Open Scope string_scope.
Local Open Scope list_scope.
Local Open Scope Z_scope.

(** ** Python strings *)

Module PyStr.

Definition code (c : ascii) : nat := nat_of_ascii c.

Definition between (lo hi : nat) (c : ascii) : bool :=
  (Nat.leb lo (code c) && Nat.leb (code c) hi)%bool.

(** [str.isspace] on one character, which is also the class [\s]. *)
Definition isspace (c : ascii) : bool :=
  (between 9 13 c || between 28 32 c || between 133 133 c
   || between 160 160 c)%bool.

(** The class [\w] of [re] on [str] patterns: alphanumerics and [_]. *)
Definition isword (c : ascii) : bool :=
  (between 48 57 c || between 65 90 c || between 95 95 c
   || between 97 122 c || between 170 170 c || between 178 179 c
   || between 181 181 c || between 185 186 c || between 188 190 c
   || between 192 214 c || between 216 246 c || between 248 255 c)%bool.

Definition lower_char (c : ascii) : ascii :=
  if (between 65 90 c || between 192 214 c || between 216 222 c)%bool
  then ascii_of_nat (code c + 32) else c.

(** [s.lower()] *)
Fixpoint lower (s : string) : string :=
  match s with
  | EmptyString => EmptyString
  | String c t => String (lower_char c) (lower t)
  end.

(** [re.sub(r'[^\w\s]', '', s)] *)
Fixpoint re_sub_nonword (s : string) : string :=
  match s with
  | EmptyString => EmptyString
  | String c t =>
      if (isword c || isspace c)%bool then String c (re_sub_nonword t)
      else re_sub_nonword t
  end.

Definition is_empty (s : string) : bool :=
  match s with EmptyString => true | _ => false end.

(** [s.split()]: the maximal runs of non-whitespace characters. [cur] is
    the run being read. *)
Fixpoint split_from (cur s : string) : list string :=
  match s with
  | EmptyString => if is_empty cur then [] else [cur]
  | String c t =>
      if isspace c
      then (if is_empty cur then split_from "" t else cur :: split_from "" t)
      else split_from (cur ++ String c "") t
  end.

Definition split (s : string) : list string := split_from "" s.

Fixpoint lstrip (s : string) : string :=
  match s with
  | EmptyString => EmptyString
  | String c t => if isspace c then lstrip t else s
  end.

Fixpoint rstrip (s : string) : string :=
  match s with
  | EmptyString => EmptyString
  | String c t =>
      match rstrip t with
      | EmptyString => if isspace c then EmptyString else String c EmptyString
      | r => String c r
      end
  end.

(** [s.strip()] *)
Definition strip (s : string) : string := rstrip (lstrip s).

(** [sub in s] *)
Fixpoint contains (sub s : string) : bool :=
  if prefix sub s then true
  else match s with
       | EmptyString => false
       | String _ t => contains sub t
       end.

(** [len(s)] *)
Definition len (s : string) : Z := Z.of_nat (String.length s).

End PyStr.

(** ** Parsed JSON documents and Python dicts *)

Module Json.

Inductive json : Type :=
| JNull
| JBool (b : bool)
| JInt (z : Z)
| JStr (s : string)
| JArr (l : list json)
| JObj (d : list (string * json)).

(** A [dict] with [str] keys, in insertion order. *)
Definition dict : Type := list (string * json).

(** [d.get(k)], [None] of Python being [None] here. *)
Fixpoint dict_get (k : string) (d : dict) : option json :=
  match d with
  | [] => None
  | (k', v) :: t => if String.eqb k k' then Some v else dict_get k t
  end.

(** [k in d] *)
Definition dict_has (k : string) (d : dict) : bool :=
  match dict_get k d with Some _ => true | None => false end.

(** [d.get(k, default)] *)
Definition dict_get_default (k : string) (default : json) (d : dict) : json :=
  match dict_get k d with Some v => v | None => default end.

(** [d[k] = v] *)
Fixpoint dict_set (k : string) (v : json) (d : dict) : dict :=
  match d with
  | [] => [(k, v)]
  | (k', v') :: t =>
      if String.eqb k k' then (k', v) :: t else (k', v') :: dict_set k v t
  end.

(** Truth value of a Python object, as tested by [not x]. *)
Definition truthy (v : json) : bool :=
  match v with
  | JNull => false
  | JBool b => b
  | JInt z => negb (z =? 0)
  | JStr s => negb (PyStr.is_empty s)
  | JArr l => match l with [] => false | _ => true end
  | JObj d => match d with [] => false | _ => true end
  end.

End Json.

Import Json.

(** ** The working directory and the clock *)

Module Store.

(** What reading a file of the working directory gives. *)
Inductive file_state : Type :=
| Absent                (* [os.path.exists] is false *)
| Unreadable            (* [open] or [read] raises *)
| Corrupt               (* [json.load] raises [JSONDecodeError] *)
| Doc (d : json).       (* [json.load] returns [d] *)

(** How a write to a file of the working directory goes. The source writes
    with [with open(name, 'w') as f: json.dump(value, f)]: when [open]
    raises, the file is as it was; once [open] has returned, the file has
    been truncated, and an exception of [json.dump] or of the closing flush
    (a full disk, a text that cannot be encoded) leaves it with a part of the
    text only, which [json.load] refuses. *)
Inductive write_access : Type :=
| Writable              (* the whole text is written *)
| PermissionDenied      (* [open] raises [PermissionError] *)
| WriteFails            (* [open] raises another exception *)
| DumpFails.            (* [open] truncates, then the write raises *)

Record fs : Type := mkFs {
  history_file : file_state;          (* conversation_history.json *)
  history_access : write_access;
  profile_file : file_state;          (* user_profile.json *)
  profile_access : write_access
}.

(** One reading of [datetime.now()], already formatted. A call is given one
    reading: the source reads the clock again for each formatted value, and
    the readings within a call are taken to agree. *)
Record clock : Type := mkClock {
  isoformat : string;                 (* [.isoformat()] *)
  ymd : string                        (* [.strftime("%Y-%m-%d")] *)
}.

(** How a call ends. *)
Inductive outcome (A : Type) : Type :=
| Returned (a : A)
| Raised (exc : string).

Arguments Returned {A} a.
Arguments Raised {A} exc.

End Store.

Import Store.

(** ** memory.py *)

Module Memory.

(** [l[-n:]] for [n >= 1] *)
Definition last_n {A : Type} (n : Z) (l : list A) : list A :=
  skipn (List.length l - Z.to_nat n)%nat l.

(** [l[:n]] for [n >= 0] *)
Definition first_n {A : Type} (n : Z) (l : list A) : list A :=
  firstn (Z.to_nat n) l.

(** The guard of the loading loop:
    [isinstance(conv, dict) and 'user' in conv and 'assistant' in conv]. *)
Definition valid_entry (conv : json) : option dict :=
  match conv with
  | JObj d => if (dict_has "user" d && dict_has "assistant" d)%bool
              then Some d else None
  | _ => None
  end.

(** The three [if k not in conv: conv[k] = ...] statements. *)
Definition backfill (now : clock) (conv : dict) : dict :=
  let conv :=
    if dict_has "timestamp" conv then conv
    else dict_set "timestamp" (JStr (isoformat now)) conv in
  let conv :=
    if dict_has "date" conv then conv
    else dict_set "date" (JStr (ymd now)) conv in
  if dict_has "domain" conv then conv
  else dict_set "domain" (JStr "general") conv.

(** One iteration of [for conv in data]. *)
Definition load_step (now : clock) (valid_conversations : list dict)
           (conv : json) : list dict :=
  match valid_entry conv with
  | Some d => valid_conversations ++ [backfill now d]
  | None => valid_conversations
  end.

Definition load_conversation_history (st : fs) (now : clock) : list dict :=
  match history_file st with
  | Absent => []
  | Unreadable => []
  | Corrupt => []
  | Doc (JArr data) => fold_left (load_step now) data []
  | Doc _ => []
  end.

(** The record built by [save_conversation]; the two messages are [str]s, on
    which [str(...)] is the identity. *)
Definition new_conversation (now : clock)
           (user_message bot_response domain : string) : dict :=
  [ ("user", JStr (PyStr.strip user_message));
    ("assistant", JStr (PyStr.strip bot_response));
    ("domain", JStr domain);
    ("timestamp", JStr (isoformat now));
    ("date", JStr (ymd now));
    ("user_word_count",
      JInt (Z.of_nat (List.length (PyStr.split user_message))));
    ("assistant_word_count",
      JInt (Z.of_nat (List.length (PyStr.split bot_response)))) ].

Definition save_conversation (st : fs) (now : clock)
           (user_message bot_response domain : string) : bool * fs :=
  if (PyStr.is_empty user_message || PyStr.is_empty bot_response)%bool
  then (false, st)
  else
    let conversation :=
      new_conversation now user_message bot_response domain in
    let history := load_conversation_history st now in
    let history := history ++ [conversation] in
    let history :=
      if (100 <? Z.of_nat (List.length history))
      then last_n 100 history else history in
    match history_access st with
    | Writable =>
        (true, mkFs (Doc (JArr (map JObj history))) (history_access st)
                    (profile_file st) (profile_access st))
    | PermissionDenied => (false, st)
    | WriteFails => (false, st)
    | DumpFails =>
        (false, mkFs Corrupt (history_access st)
                     (profile_file st) (profile_access st))
    end.

Definition get_recent_conversations (st : fs) (now : clock) (count : Z)
  : list dict :=
  let history := load_conversation_history st now in
  match history with
  | [] => []
  | _ =>
      let count := Z.max 1 (Z.min count (Z.of_nat (List.length history))) in
      last_n count history
  end.

Section Relevance.

(** [str(v)] of a value that is not a [str], as an f-string formats it;
    a built-in of Python, taken as given. *)
Variable py_str : json -> string.

Definition format_value (v : json) : string :=
  match v with
  | JStr s => s
  | _ => py_str v
  end.

(** [query_cleaned.split()] filtered by [len(word) > 2] *)
Definition query_words (query : string) : list string :=
  filter (fun word => 2 <? PyStr.len word)
         (PyStr.split (PyStr.re_sub_nonword (PyStr.lower query))).

(** [conv_cleaned] of one record *)
Definition conv_cleaned (conv : dict) : string :=
  let conv_text :=
    PyStr.lower
      (format_value (dict_get_default "user" (JStr "") conv)
       ++ " " ++
       format_value (dict_get_default "assistant" (JStr "") conv)) in
  PyStr.re_sub_nonword conv_text.

(** The inner loop: [matches] after [for word in query_words]. *)
Definition count_matches (words : list string) (cleaned : string) : Z :=
  fold_left
    (fun matches word =>
       if PyStr.contains word cleaned then matches + 1 else matches)
    words 0.

Definition relevance_score (matches : Z) (words : list string) : Q :=
  (inject_Z matches / inject_Z (Z.of_nat (List.length words)))%Q.

(** One iteration of [for conv in history]. *)
Definition relevant_step (words : list string)
           (relevant : list (dict * Q)) (conv : dict) : list (dict * Q) :=
  let matches := count_matches words (conv_cleaned conv) in
  if 0 <? matches
  then relevant ++ [(conv, relevance_score matches words)]
  else relevant.

Definition relevant_loop (words : list string) (history : list dict)
  : list (dict * Q) :=
  fold_left (relevant_step words) history [].

(** [list.sort(key=..., reverse=True)]: the stable sort by decreasing
    key. An element is inserted in front of the sorted rest and moves
    past the elements whose key is strictly greater. *)
Fixpoint insert_desc {A : Type} (key : A -> Q) (x : A) (l : list A)
  : list A :=
  match l with
  | [] => [x]
  | y :: t =>
      if Qle_bool (key y) (key x) then x :: y :: t
      else y :: insert_desc key x t
  end.

Definition sort_desc {A : Type} (key : A -> Q) (l : list A) : list A :=
  fold_right (insert_desc key) [] l.

Definition find_relevant_conversations (st : fs) (now : clock)
           (query : string) (max_results : Z) : list dict :=
  let history := load_conversation_history st now in
  match history with
  | [] => []
  | _ =>
      if PyStr.is_empty query then []
      else
        let words := query_words query in
        match words with
        | [] => []
        | _ =>
            let relevant := relevant_loop words history in
            let relevant := sort_desc snd relevant in
            let max_results :=
              Z.max 1 (Z.min max_results (Z.of_nat (List.length relevant))) in
            map fst (first_n max_results relevant)
        end
  end.

End Relevance.

(** [domain_keywords], in the order the dict literal lists it. *)
Definition domain_keywords : list (string * (list string * float)) :=
  [ ("work",
      (["work"; "job"; "meeting"; "deadline"; "project"; "career"; "office";
        "task"; "productivity"; "business"; "colleague"; "boss"; "employee";
        "salary"; "promotion"], 1.0%float));
    ("family",
      (["family"; "kids"; "children"; "spouse"; "parent"; "home"; "dinner";
        "birthday"; "vacation"; "husband"; "wife"; "mother"; "father"; "son";
        "daughter"], 1.0%float));
    ("entertainment",
      (["movie"; "music"; "game"; "book"; "netflix"; "fun"; "hobby"; "watch";
        "read"; "play"; "entertainment"; "show"; "series"; "film"],
       1.0%float));
    ("health",
      (["health"; "exercise"; "fitness"; "doctor"; "medical"; "diet";
        "workout"; "medicine"; "hospital"; "symptoms"; "sick"; "wellness"],
       1.0%float));
    ("learning",
      (["learn"; "study"; "education"; "course"; "skill"; "tutorial";
        "how to"; "teach"; "school"; "university"; "training"; "knowledge"],
       1.0%float));
    ("finance",
      (["money"; "budget"; "finance"; "investment"; "savings"; "bank";
        "loan"; "credit"; "debt"; "financial"; "income"; "expense"],
       1.0%float)) ].

(** The literal [0.7] of the source: the binary64 number nearest to 7/10,
    which is [0x1.6666666666666p-1]. *)
Definition partial_factor : float := 0.7%float.

(** [f" {keyword} " in f" {message_lower} "] *)
Definition whole_word (keyword message_lower : string) : bool :=
  PyStr.contains (" " ++ keyword ++ " ") (" " ++ message_lower ++ " ").

(** One iteration of [for keyword in data['keywords']]. *)
Definition keyword_step (message_lower : string) (weight : float)
           (score : float) (keyword : string) : float :=
  if PyStr.contains keyword message_lower then
    if whole_word keyword message_lower
    then (score + weight)%float
    else (score + weight * partial_factor)%float
  else score.

(** [score] after the loop over one domain's keywords; the [int] 0 it starts
    from is the float 0 in every sum and comparison. *)
Definition domain_score (message_lower : string)
           (data : list string * float) : float :=
  fold_left (keyword_step message_lower (snd data)) (fst data) 0%float.

Definition domain_scores (message_lower : string) : list (string * float) :=
  map (fun entry => (fst entry, domain_score message_lower (snd entry)))
      domain_keywords.

(** [max(items, key=lambda x: x[1])]: the running maximum is replaced only
    by an item whose key is strictly greater. *)
Fixpoint max_by_score (best : string * float) (items : list (string * float))
  : string * float :=
  match items with
  | [] => best
  | item :: rest =>
      if (snd best <? snd item)%float then max_by_score item rest
      else max_by_score best rest
  end.

Definition classify_message_domain (message : string) : string :=
  if PyStr.is_empty message then "general"
  else
    let message_lower := PyStr.lower message in
    match domain_scores message_lower with
    | [] => "general"
    | first :: rest =>
        let max_domain := max_by_score first rest in
        if (0 <? snd max_domain)%float then fst max_domain else "general"
    end.

(** Keys of the tally dicts: [==] on hashable JSON values, where [True] is
    1 and [False] is 0. *)
Definition key_eqb (a b : json) : bool :=
  match a, b with
  | JNull, JNull => true
  | JStr s, JStr t => String.eqb s t
  | JInt x, JInt y => x =? y
  | JBool x, JBool y => Bool.eqb x y
  | JBool x, JInt y => (if x then 1 else 0) =? y
  | JInt x, JBool y => x =? (if y then 1 else 0)
  | _, _ => false
  end.

Definition hashable (v : json) : bool :=
  match v with
  | JArr _ | JObj _ => false
  | _ => true
  end.

(** [tally[key] = tally.get(key, 0) + 1] *)
Fixpoint tally_incr (key : json) (tally : list (json * Z))
  : list (json * Z) :=
  match tally with
  | [] => [(key, 0 + 1)]
  | (k, n) :: t =>
      if key_eqb key k then (k, n + 1) :: t else (k, n) :: tally_incr key t
  end.

(** The number a JSON value is in an [int] sum, if it is one. *)
Definition as_int (v : json) : option Z :=
  match v with
  | JInt z => Some z
  | JBool b => Some (if b then 1 else 0)
  | _ => None
  end.

(** [len(conv.get(field, '').split())], raising on a value without
    [split]. *)
Definition default_word_count (field : string) (conv : dict) : option json :=
  match dict_get_default field (JStr "") conv with
  | JStr s => Some (JInt (Z.of_nat (List.length (PyStr.split s))))
  | _ => None
  end.

Record stats : Type := mkStats {
  total_conversations : Z;
  total_words : Z;
  domains : list (json * Z);
  dates : list (json * Z)
}.

(** One iteration of [for conv in history]; [Raised] when the body raises.
    [stats['total_words'] += user_words + assistant_words] succeeds exactly
    when both counts are numbers. *)
Definition stats_step (acc : outcome stats) (conv : dict) : outcome stats :=
  match acc with
  | Raised e => Raised e
  | Returned s =>
      match default_word_count "user" conv with
      | None => Raised "AttributeError"
      | Some user_default =>
          match default_word_count "assistant" conv with
          | None => Raised "AttributeError"
          | Some assistant_default =>
              let user_words :=
                dict_get_default "user_word_count" user_default conv in
              let assistant_words :=
                dict_get_default "assistant_word_count" assistant_default
                                 conv in
              match as_int user_words, as_int assistant_words with
              | Some u, Some a =>
                  let domain :=
                    dict_get_default "domain" (JStr "general") conv in
                  let date :=
                    dict_get_default "date" (JStr "unknown") conv in
                  if negb (hashable domain) then Raised "TypeError"
                  else if negb (hashable date) then Raised "TypeError"
                  else Returned
                         (mkStats (total_conversations s)
                                  (total_words s + (u + a))
                                  (tally_incr domain (domains s))
                                  (tally_incr date (dates s)))
              | _, _ => Raised "TypeError"
              end
          end
      end
  end.

Definition get_conversation_stats (st : fs) (now : clock) : outcome stats :=
  let history := load_conversation_history st now in
  match history with
  | [] => Returned (mkStats 0 0 [] [])
  | _ =>
      fold_left stats_step history
                (Returned (mkStats (Z.of_nat (List.length history)) 0 [] []))
  end.

End Memory.

(** ** profiles.py *)

Module Profiles.

Definition required_fields : list string :=
  ["name"; "role"; "communication_style"].

(** The loop [for field in required_fields]: [true] when some field fails
    [profile_data.get(field)]. *)
Fixpoint missing_field (fields : list string) (profile_data : dict) : bool :=
  match fields with
  | [] => false
  | field :: rest =>
      match dict_get field profile_data with
      | None => true
      | Some v =>
          if truthy v then missing_field rest profile_data else true
      end
  end.

(** [save_user_profile]. An exception other than [PermissionError] reaches
    the clause [except json.JSONEncodeError], a name the [json] module does
    not have, and leaves the function as an [AttributeError]; when it comes
    from the write itself, the file has been truncated by then. *)
Definition save_user_profile (st : fs) (profile_data : json)
  : outcome bool * fs :=
  if negb (truthy profile_data) then (Returned false, st)
  else
    match profile_data with
    | JObj d =>
        if missing_field required_fields d then (Returned false, st)
        else
          match profile_access st with
          | Writable =>
              (Returned true,
               mkFs (history_file st) (history_access st)
                    (Doc profile_data) (profile_access st))
          | PermissionDenied => (Returned false, st)
          | WriteFails => (Raised "AttributeError", st)
          | DumpFails =>
              (Raised "AttributeError",
               mkFs (history_file st) (history_access st)
                    Corrupt (profile_access st))
          end
    | _ => (Raised "AttributeError", st)
    end.

(** [load_user_profile]: the stored dict, or [None] when the file is absent,
    unreadable, corrupt or holds something that is not a dict. *)
Definition load_user_profile (st : fs) : option dict :=
  match profile_file st with
  | Absent => None
  | Unreadable => None
  | Corrupt => None
  | Doc (JObj profile) => Some profile
  | Doc _ => None
  end.

End Profiles.

(** ** The values a domain score can take

    A domain has at most fifteen keywords and each adds 1.0, adds
    [1.0 * 0.7] or leaves the score alone, so the binary64 sums that can
    arise form a finite set. [score_table] lists them, each with the least
    number of additions that reaches it and with its position in increasing
    order. *)

Module ScoreRange.

Definition known (x : float) (vals : list (float * nat)) : bool :=
  existsb (fun p => Leibniz.eqb (fst p) x) vals.

Definition add_value (depth : nat) (vals : list (float * nat)) (x : float)
  : list (float * nat) :=
  if known x vals then vals else vals ++ [(x, depth)].

Definition grow_layer (depth : nat) (vals : list (float * nat))
  : list (float * nat) :=
  fold_left
    (fun acc p =>
       add_value (S depth)
                 (add_value (S depth) acc (fst p + 1.0)%float)
                 (fst p + 1.0 * Memory.partial_factor)%float)
    vals vals.

Fixpoint grow (layers depth : nat) (vals : list (float * nat))
  : list (float * nat) :=
  match layers with
  | O => vals
  | S layers => grow layers (S depth) (grow_layer depth vals)
  end.

Definition rank_in (vals : list (float * nat)) (x : float) : nat :=
  List.length (filter (fun p => (fst p <? x)%float) vals).

Definition build (layers : nat) : list (float * (nat * nat)) :=
  let vals := grow layers 0 [(0%float, 0%nat)] in
  map (fun p => (fst p, (snd p, rank_in vals (fst p)))) vals.

Definition max_keywords : nat := 15.

Definition score_table : list (float * (nat * nat)) :=
  Eval vm_compute in build max_keywords.

Definition value (e : float * (nat * nat)) : float := fst e.
Definition depth (e : float * (nat * nat)) : nat := fst (snd e).
Definition rank (e : float * (nat * nat)) : nat := snd (snd e).

(** [x] is listed with a depth of at most [k]. *)
Definition listed (k : nat) (x : float) : bool :=
  existsb (fun e => (Leibniz.eqb (value e) x && Nat.leb (depth e) k)%bool)
          score_table.

(** The table is closed under one more keyword, up to the bound. *)
Definition closed_table : bool :=
  forallb
    (fun e =>
       (Nat.leb max_keywords (depth e)
        || (listed (S (depth e)) (value e + 1.0)%float
            && listed (S (depth e))
                      (value e + 1.0 * Memory.partial_factor)%float))%bool)
    score_table.

(** On the table, [<?] is the order of the ranks, and rank 0 is the score 0. *)
Definition ordered_table : bool :=
  forallb
    (fun e =>
       (forallb
          (fun e' =>
             (Bool.eqb (value e <? value e')%float (Nat.ltb (rank e) (rank e'))
              && Bool.eqb (value e <=? value e')%float
                          (Nat.leb (rank e) (rank e')))%bool)
          score_table
        && Bool.eqb (Leibniz.eqb (value e) 0%float) (Nat.eqb (rank e) 0))%bool)
    score_table.

(** Below the bound, each of the two additions gives a greater score. *)
Definition growing_table : bool :=
  forallb
    (fun e =>
       (Nat.leb max_keywords (depth e)
        || ((value e <? value e + 1.0)%float
            && (value e <? value e + 1.0 * Memory.partial_factor)%float))%bool)
    score_table.

(** [x] has position [r] in the increasing order of the table. *)
Definition ranked (x : float) (r : nat) : Prop :=
  exists e, In e score_table /\ value e = x /\ rank e = r.

(** The score of an item is in the table. *)
Definition has_rank (p : string * float) : Prop :=
  exists r, ranked (snd p) r.

(** The same sums with their exact totals: an entry of [exact_table] is a
    sum, the least number of additions that reaches it, and ten times the
    exact total of the contributions it was computed from, 10 for a whole
    word and 7 for a substring. *)
Definition exact_value (e : float * (nat * N)) : float := fst e.
Definition exact_depth (e : float * (nat * N)) : nat := fst (snd e).
Definition tenths (e : float * (nat * N)) : N := snd (snd e).

Definition add_exact (vals : list (float * (nat * N)))
           (e : float * (nat * N)) : list (float * (nat * N)) :=
  if existsb (fun e' => Leibniz.eqb (exact_value e') (exact_value e)) vals
  then vals else vals ++ [e].

Definition grow_exact_layer (depth : nat) (vals : list (float * (nat * N)))
  : list (float * (nat * N)) :=
  fold_left
    (fun acc e =>
       add_exact
         (add_exact acc ((exact_value e + 1.0)%float,
                         (S depth, (tenths e + 10)%N)))
         ((exact_value e + 1.0 * Memory.partial_factor)%float,
          (S depth, (tenths e + 7)%N)))
    vals vals.

Fixpoint grow_exact (layers depth : nat) (vals : list (float * (nat * N)))
  : list (float * (nat * N)) :=
  match layers with
  | O => vals
  | S layers => grow_exact layers (S depth) (grow_exact_layer depth vals)
  end.

Definition exact_table : list (float * (nat * N)) :=
  Eval vm_compute in grow_exact max_keywords 0 [(0%float, (0%nat, 0%N))].

(** [x] is listed with a depth of at most [k] and the exact total [t / 10]. *)
Definition listed_exact (k : nat) (x : float) (t : N) : bool :=
  existsb
    (fun e =>
       (Leibniz.eqb (exact_value e) x && Nat.leb (exact_depth e) k
        && N.eqb (tenths e) t)%bool)
    exact_table.

(** The table is closed under one more keyword, up to the bound, and the
    exact totals follow. *)
Definition closed_exact : bool :=
  forallb
    (fun e =>
       (Nat.leb max_keywords (exact_depth e)
        || (listed_exact (S (exact_depth e)) (exact_value e + 1.0)%float
                         (tenths e + 10)%N
            && listed_exact (S (exact_depth e))
                            (exact_value e + 1.0 * Memory.partial_factor)%float
                            (tenths e + 7)%N))%bool)
    exact_table.

(** A smaller exact total has a smaller sum; the sum 0 is the total 0. *)
Definition ordered_exact : bool :=
  forallb
    (fun e =>
       (forallb
          (fun e' =>
             (negb (N.ltb (tenths e) (tenths e'))
              || ((exact_value e <? exact_value e')%float
                  && negb (exact_value e' <=? exact_value e)%float
                  && negb (exact_value e' <? exact_value e)%float))%bool)
          exact_table
        && Bool.eqb (N.eqb (tenths e) 0) (Leibniz.eqb (exact_value e) 0))%bool)
    exact_table.

(** Ten times the exact contribution of one keyword, and of a list. *)
Definition keyword_tenths (message_lower keyword : string) : N :=
  if PyStr.contains (" " ++ keyword ++ " ") (" " ++ message_lower ++ " ")
  then 10%N
  else if PyStr.contains keyword message_lower then 7%N else 0%N.

Definition total_tenths (message_lower : string) (keywords : list string)
  : N :=
  fold_left (fun t keyword => (t + keyword_tenths message_lower keyword)%N)
            keywords 0%N.

End ScoreRange.

(** ** Notions the properties are stated with *)

Module Spec.

(** What the loading loop keeps of one entry of the document. *)
Definition kept (now : clock) (entry : json) : list dict :=
  match entry with
  | JObj d =>
      if (dict_has "user" d && dict_has "assistant" d)%bool
      then [Memory.backfill now d] else []
  | _ => []
  end.

(** The value a field gets when the stored record lacks it. *)
Definition default_field (now : clock) (k : string) : option json :=
  if String.eqb k "timestamp" then Some (JStr (isoformat now))
  else if String.eqb k "date" then Some (JStr (ymd now))
  else if String.eqb k "domain" then Some (JStr "general")
  else None.

(** A record whose user and assistant texts are both non-empty strings. *)
Definition nonempty_text (conv : dict) : bool :=
  match dict_get "user" conv, dict_get "assistant" conv with
  | Some (JStr u), Some (JStr a) =>
      (negb (PyStr.is_empty u) && negb (PyStr.is_empty a))%bool
  | _, _ => false
  end.

(** The sum of the counts of a tally. *)
Definition tally_total (tally : list (json * Z)) : Z :=
  fold_right Z.add 0 (map snd tally).

(** [min(max(n, 1), len)] *)
Definition clamp (n : Z) (len : nat) : nat :=
  Z.to_nat (Z.min (Z.max n 1) (Z.of_nat len)).

(** A record with the five fields the loader checks or fills. *)
Definition complete (conv : dict) : Prop :=
  dict_has "user" conv = true /\ dict_has "assistant" conv = true
  /\ dict_has "timestamp" conv = true /\ dict_has "date" conv = true
  /\ dict_has "domain" conv = true.

(** A record on which the body of the statistics loop does not raise: the
    two texts are strings, the word counts, if stored, are numbers, and the
    domain and the date can be dictionary keys. *)
Definition countable (conv : dict) : bool :=
  match Memory.default_word_count "user" conv,
        Memory.default_word_count "assistant" conv with
  | Some user_default, Some assistant_default =>
      match Memory.as_int
              (dict_get_default "user_word_count" user_default conv),
            Memory.as_int
              (dict_get_default "assistant_word_count" assistant_default conv)
      with
      | Some _, Some _ =>
          (Memory.hashable (dict_get_default "domain" (JStr "general") conv)
           && Memory.hashable (dict_get_default "date" (JStr "unknown") conv))%bool
      | _, _ => false
      end
  | _, _ => false
  end.

(** [i] comes before [j] under [key]: a higher key, or the same key and a
    smaller position. *)
Definition before (key : nat -> Q) (i j : nat) : Prop :=
  (key j < key i)%Q \/ (key i == key j)%Q /\ (i < j)%nat.

Section Ranking.

Variable py_str : json -> string.
Variable words : list string.

(** Whether a query token occurs in the cleaned text of a record. *)
Definition occurs (conv : dict) (word : string) : bool :=
  PyStr.contains word (Memory.conv_cleaned py_str conv).

(** The number of query tokens, repeated ones counted as often as the query
    has them, that occur in the record. *)
Definition matched (conv : dict) : nat :=
  List.length (filter (occurs conv) words).

(** The number of distinct query tokens that occur in the record. *)
Definition distinct_matched (conv : dict) : nat :=
  List.length (filter (occurs conv) (nodup string_dec words)).

Definition score (conv : dict) : Q :=
  Memory.relevance_score (Z.of_nat (matched conv)) words.

(** The score of the claim as first written: distinct tokens over all. *)
Definition distinct_score (conv : dict) : Q :=
  Memory.relevance_score (Z.of_nat (distinct_matched conv)) words.

Variable history : list dict.

Definition record (i : nat) : dict := nth i history [].

(** The positions of the log whose record matches the query. *)
Definition matching : list nat :=
  filter (fun i => Nat.ltb 0 (matched (record i)))
         (seq 0 (List.length history)).

(** Position [i] is ranked before position [j]: a higher score, or the same
    score and appended earlier. *)
Definition precedes (i j : nat) : Prop :=
  before (fun k => score (record k)) i j.

End Ranking.

(** [history[-100:]] applied when the log is longer than 100: the cut
    [save_conversation] makes before writing. *)
Definition cap (history : list dict) : list dict :=
  if 100 <? Z.of_nat (List.length history)
  then Memory.last_n 100 history else history.

(** One call of [save_conversation]: the clock reading and the arguments. *)
Record exchange : Type := mkExchange {
  asked_at : clock;
  user_message : string;
  bot_response : string;
  domain : string
}.

Definition saved_record (e : exchange) : dict :=
  Memory.new_conversation (asked_at e) (user_message e) (bot_response e)
                          (domain e).

Definition nonblank (e : exchange) : bool :=
  (negb (PyStr.is_empty (user_message e))
   && negb (PyStr.is_empty (bot_response e)))%bool.

(** The calls made one after the other, the results dropped. *)
Definition save_all (st : fs) (exchanges : list exchange) : fs :=
  fold_left
    (fun st e =>
       snd (Memory.save_conversation st (asked_at e) (user_message e)
                                     (bot_response e) (domain e)))
    exchanges st.

(** Whether every call of the run returned [True]. *)
Fixpoint all_saved (st : fs) (exchanges : list exchange) : bool :=
  match exchanges with
  | [] => true
  | e :: rest =>
      let result :=
        Memory.save_conversation st (asked_at e) (user_message e)
                                 (bot_response e) (domain e) in
      (fst result && all_saved (snd result) rest)%bool
  end.

(** [tally.get(key, 0)] *)
Fixpoint tally_get (key : json) (tally : list (json * Z)) : Z :=
  match tally with
  | [] => 0
  | (k, n) :: t => if Memory.key_eqb key k then n else tally_get key t
  end.

(** [sub] is a part of [s]: what [sub in s] tests. *)
Definition part_of (sub s : string) : Prop :=
  exists pre post : string, s = (pre ++ sub ++ post)%string.

(** The keyword is a whole word of the message: with a blank on each side it
    is a part of the message with a blank added on each side. *)
Definition whole_word_of (keyword message_lower : string) : Prop :=
  part_of (" " ++ keyword ++ " ") (" " ++ message_lower ++ " ").

(** The score as the specification words it, on binary64 numbers: each
    keyword in turn adds 1.0 when it is a whole word, else 0.7 when it is a
    part of the message. *)
Definition computed_step (message_lower : string) (score : float)
           (keyword : string) : float :=
  if PyStr.contains (" " ++ keyword ++ " ") (" " ++ message_lower ++ " ")
  then (score + 1.0)%float
  else if PyStr.contains keyword message_lower then (score + 0.7)%float
       else score.

Definition computed_score (message_lower : string) (keywords : list string)
  : float :=
  fold_left (computed_step message_lower) keywords 0%float.

(** The same score without rounding: the exact total of the contributions
    1 and 7/10. *)
Definition contribution (message_lower keyword : string) : Q :=
  if PyStr.contains (" " ++ keyword ++ " ") (" " ++ message_lower ++ " ")
  then 1%Q
  else if PyStr.contains keyword message_lower then (7 # 10)%Q else 0%Q.

Definition aggregate (message_lower : string) (keywords : list string) : Q :=
  fold_left
    (fun total keyword => (total + contribution message_lower keyword)%Q)
    keywords 0%Q.

Definition aggregates (message_lower : string) : list (string * Q) :=
  map (fun entry => (fst entry, aggregate message_lower (fst (snd entry))))
      Memory.domain_keywords.

(** The first item, in the order of the list, whose total no other item
    exceeds. *)
Fixpoint first_highest_from (best : string * Q) (items : list (string * Q))
  : string * Q :=
  match items with
  | [] => best
  | item :: rest =>
      if Qle_bool (snd item) (snd best) then first_highest_from best rest
      else first_highest_from item rest
  end.

(** The answer when the exact totals decide: the first domain, in the order
    of the enumeration, with the highest total, if that total is above 0. *)
Definition first_highest (message_lower : string) : string :=
  match aggregates message_lower with
  | [] => "general"
  | first :: rest =>
      let best := first_highest_from first rest in
      if Qle_bool (snd best) 0%Q then "general" else fst best
  end.

(** A domain whose exact total is above 0 and is exceeded by no domain's. *)
Definition top (message_lower : string)
           (entry : string * (list string * float)) : Prop :=
  In entry Memory.domain_keywords
  /\ (0 < aggregate message_lower (fst (snd entry)))%Q
  /\ Forall
       (fun other =>
          (aggregate message_lower (fst (snd other))
           <= aggregate message_lower (fst (snd entry)))%Q)
       Memory.domain_keywords.

(** Some keyword of some domain occurs in the lower-cased message. *)
Definition mentions (message_lower : string) : bool :=
  existsb
    (fun entry =>
       existsb (fun keyword => PyStr.contains keyword message_lower)
               (fst (snd entry)))
    Memory.domain_keywords.

(** A record whose user and assistant values are strings. *)
Definition text_record (conv : dict) : bool :=
  match dict_get "user" conv, dict_get "assistant" conv with
  | Some (JStr _), Some (JStr _) => true
  | _, _ => false
  end.

(** The profile fields the system prompt subscripts, in the order the
    f-string reads them first. *)
Definition prompt_fields : list string :=
  ["name"; "role"; "work_area"; "communication_style"; "work_hours";
   "interests"; "help_areas"].

(** The record counts under [key] in the tally of [field]. *)
Definition under (field : string) (default key : json) (conv : dict) : bool :=
  Memory.key_eqb key (dict_get_default field default conv).

(** The normalization of the retrieval: lower-casing, then dropping what is
    neither a word character nor a blank. *)
Definition clean (s : string) : string :=
  PyStr.re_sub_nonword (PyStr.lower s).

(** The words of a text that a stored count or the fallback would count. *)
Definition words_of (e : exchange) : Z :=
  Z.of_nat (List.length (PyStr.split (user_message e)))
  + Z.of_nat (List.length (PyStr.split (bot_response e))).

End Spec.

(** ** api_server.py, and [get_smart_response] of chatbot.py *)

Module Server.

(** The built-in operations that raise in the code below. *)
Inductive fault : Type :=
| NotSubscriptable (v : json)            (* [v[...]] on such a value *)
| KeyMissing (k : string)                (* [d[k]] on a dict without [k] *)
| NoAttribute (v : json) (attr : string) (* [v.attr] on such a value *)
| NotJoinable (v : json).                (* [', '.join(v)] on such a value *)

Definition nl : string := String "010" "".

Definition bind {A B : Type} (x : outcome A) (f : A -> outcome B)
  : outcome B :=
  match x with
  | Returned a => f a
  | Raised e => Raised e
  end.

Notation "x <- e ;; k" := (bind e (fun x => k))
  (at level 61, e at next level, right associativity).

(** [s[:n]] on a [str] *)
Fixpoint take (n : nat) (s : string) : string :=
  match n, s with
  | S n, String c t => String c (take n t)
  | _, _ => EmptyString
  end.

Section Completion.

(** [str(v)] of a value that is not a [str]. *)
Variable py_str : json -> string.
(** [str(e)] of the exception a built-in operation raises. *)
Variable error_text : fault -> string.
(** [openai.OpenAI(api_key=...)]; [Raised] carries [str(e)]. *)
Variable make_client : outcome unit.
(** [client.chat.completions.create(...)] on the system prompt and the
    message, read at [.choices[0].message.content]; [Raised] carries
    [str(e)]. *)
Variable create : string -> string -> outcome (option string).

Definition fmt (v : json) : string := Memory.format_value py_str v.

(** [v[:n]] *)
Definition slice_to (n : nat) (v : json) : outcome json :=
  match v with
  | JStr s => Returned (JStr (take n s))
  | JArr l => Returned (JArr (firstn n l))
  | _ => Raised (error_text (NotSubscriptable v))
  end.

(** [conv[k]] *)
Definition item (k : string) (conv : dict) : outcome json :=
  match dict_get k conv with
  | Some v => Returned v
  | None => Raised (error_text (KeyMissing k))
  end.

(** [f"- You previously discussed: '{conv['user'][:60]}...'\n"] *)
Definition relevant_line (conv : dict) : outcome string :=
  user <- item "user" conv ;;
  shown <- slice_to 60 user ;;
  Returned ("- You previously discussed: '" ++ fmt shown ++ "...'" ++ nl)%string.

(** [f"- Recent: {conv['user'][:40]}... -> {conv['assistant'][:40]}...\n"] *)
Definition recent_line (conv : dict) : outcome string :=
  user <- item "user" conv ;;
  user_shown <- slice_to 40 user ;;
  assistant <- item "assistant" conv ;;
  assistant_shown <- slice_to 40 assistant ;;
  Returned ("- Recent: " ++ fmt user_shown ++ "... -> "
            ++ fmt assistant_shown ++ "..." ++ nl)%string.

(** [for conv in convs: memory_context += line(conv)] *)
Definition add_lines (line : dict -> outcome string) (convs : list dict)
           (memory_context : string) : outcome string :=
  fold_left
    (fun acc conv =>
       memory_context <- acc ;;
       text <- line conv ;;
       Returned (memory_context ++ text)%string)
    convs (Returned memory_context).

(** [memory_context] as [get_smart_response] builds it. *)
Definition memory_context (st : fs) (now : clock) (message : string)
  : outcome string :=
  let relevant_conversations :=
    Memory.find_relevant_conversations py_str st now message 2 in
  let recent_conversations := Memory.get_recent_conversations st now 3 in
  memory_context <-
    match relevant_conversations with
    | [] => Returned ""
    | _ => add_lines relevant_line relevant_conversations
                     ("" ++ "Previous relevant conversations:" ++ nl)%string
    end ;;
  match recent_conversations with
  | [] => Returned memory_context
  | _ => add_lines recent_line (Memory.last_n 2 recent_conversations)
                   (memory_context ++ nl ++ "Recent context:" ++ nl)%string
  end.

(** [profile[k]] *)
Definition subscript (profile : json) (k : string) : outcome json :=
  match profile with
  | JObj d => item k d
  | _ => Raised (error_text (NotSubscriptable profile))
  end.

Definition as_str (v : json) : option string :=
  match v with
  | JStr s => Some s
  | _ => None
  end.

Fixpoint all_str (l : list json) : option (list string) :=
  match l with
  | [] => Some []
  | v :: t =>
      match as_str v, all_str t with
      | Some s, Some rest => Some (s :: rest)
      | _, _ => None
      end
  end.

(** [', '.join(v)]: over the items of a list of [str], the characters of a
    [str] or the keys of a dict. *)
Definition join_help (v : json) : outcome string :=
  match v with
  | JArr l =>
      match all_str l with
      | Some items => Returned (String.concat ", " items)
      | None => Raised (error_text (NotJoinable v))
      end
  | JStr s =>
      Returned (String.concat
                  ", " (map (fun c => String c "") (list_ascii_of_string s)))
  | JObj d => Returned (String.concat ", " (map fst d))
  | _ => Raised (error_text (NotJoinable v))
  end.

(** [v.lower()] *)
Definition lower_of (v : json) : outcome string :=
  match v with
  | JStr s => Returned (PyStr.lower s)
  | _ => Raised (error_text (NoAttribute v "lower"))
  end.

(** [profile.get('family_info', 'Not specified')] *)
Definition family_of (profile : json) : outcome json :=
  match profile with
  | JObj d => Returned (dict_get_default "family_info" (JStr "Not specified") d)
  | _ => Raised (error_text (NoAttribute profile "get"))
  end.

(** [system_prompt]; the fields of the f-string are evaluated in the order
    they are written. *)
Definition system_prompt (profile : json) (memory_context : string)
  : outcome string :=
  if truthy profile then
    name <- subscript profile "name" ;;
    role <- subscript profile "role" ;;
    work_area <- subscript profile "work_area" ;;
    style <- subscript profile "communication_style" ;;
    work_hours <- subscript profile "work_hours" ;;
    interests <- subscript profile "interests" ;;
    family <- family_of profile ;;
    help_areas <- subscript profile "help_areas" ;;
    joined <- join_help help_areas ;;
    style_again <- subscript profile "communication_style" ;;
    lowered <- lower_of style_again ;;
    Returned
      ("You are a personalized assistant for " ++ fmt name ++ "." ++ nl
       ++ "            " ++ nl
       ++ "About them:" ++ nl
       ++ "- Role: " ++ fmt role ++ nl
       ++ "- Work/Study: " ++ fmt work_area ++ nl
       ++ "- Communication style: " ++ fmt style ++ nl
       ++ "- Work schedule: " ++ fmt work_hours ++ nl
       ++ "- Interests: " ++ fmt interests ++ nl
       ++ "- Family: " ++ fmt family ++ nl
       ++ "- Areas they want help with: " ++ joined ++ nl
       ++ nl
       ++ memory_context ++ nl
       ++ nl
       ++ "Respond in a " ++ lowered
       ++ " way, considering their background and previous conversations."
       ++ nl
       ++ "Reference their interests and past discussions when relevant.")%string
  else
    Returned
      ("You are a helpful personal assistant." ++ nl ++ memory_context)%string.

(** [get_smart_response(message, profile)] for a [str] message: the content
    of the completion, which may be [None], or the text of the error. *)
Definition get_smart_response (st : fs) (now : clock) (message : string)
           (profile : json) : option string :=
  let body :=
    _ <- make_client ;;
    memory_context <- memory_context st now message ;;
    system_prompt <- system_prompt profile memory_context ;;
    create system_prompt message in
  match body with
  | Returned content => content
  | Raised e => Some ("Error: " ++ e)%string
  end.

(** [save_conversation(message, response, domain)] with the result dropped;
    a response that is [None] fails the emptiness guard. *)
Definition save_reply (st : fs) (now : clock) (message : string)
           (response : option string) (domain : string) : fs :=
  match response with
  | Some text => snd (Memory.save_conversation st now message text domain)
  | None => st
  end.

Definition reply_json (response : option string) : json :=
  match response with
  | Some text => JStr text
  | None => JNull
  end.

(** The handler of [POST /api/chat] on the parsed body: the status, the JSON
    of the answer and the files afterwards. A message that is not a [str]
    makes [classify_message_domain] raise after the response was obtained. *)
Definition chat (st : fs) (now : clock) (data : json) : (Z * json) * fs :=
  match data with
  | JObj d =>
      let message := dict_get_default "message" (JStr "") d in
      let profile := dict_get_default "profile" JNull d in
      if negb (truthy message)
      then ((400, JObj [("error", JStr "No message provided")]), st)
      else
        match message with
        | JStr text =>
            let response := get_smart_response st now text profile in
            let domain := Memory.classify_message_domain text in
            let st' := save_reply st now text response domain in
            ((200, JObj [("response", reply_json response);
                         ("domain", JStr domain);
                         ("timestamp", JStr (isoformat now))]), st')
        | _ =>
            ((500, JObj [("error",
                          JStr (error_text (NoAttribute message "lower")))]),
             st)
        end
  | _ =>
      ((500, JObj [("error", JStr (error_text (NoAttribute data "get")))]), st)
  end.

End Completion.

(** The handler of [GET /api/profile]. *)
Definition profile_get (st : fs) : Z * json :=
  match Profiles.load_user_profile st with
  | Some profile => (200, JObj profile)
  | None => (200, JNull)
  end.

(** The handler of [POST /api/profile] on the parsed body. The exception
    that leaves [save_user_profile] is the [AttributeError] of its handler
    clause. *)
Definition profile_post (st : fs) (profile_data : json) : (Z * json) * fs :=
  match Profiles.save_user_profile st profile_data with
  | (Returned true, st') => ((200, JObj [("success", JBool true)]), st')
  | (Returned false, st') =>
      ((500, JObj [("error", JStr "Failed to save profile")]), st')
  | (Raised _, st') =>
      ((500,
        JObj [("error",
               JStr "module 'json' has no attribute 'JSONEncodeError'")]),
       st')
  end.

End Server.

(** * Properties *)

(** ** Substring tests *)

Section Contains.

Import PyStr.

Lemma prefix_nil_r (sub : string) :
  prefix sub "" = true -> sub = "".
Proof. destruct sub; simpl; [reflexivity | discriminate]. Qed.

Lemma prefix_cons (c d : ascii) (sub s : string) :
  prefix (String c sub) (String d s) = true -> c = d /\ prefix sub s = true.
Proof.
  simpl. destruct (ascii_dec c d) as [E | N]; [auto | discriminate].
Qed.

Lemma prefix_contains (sub s : string) :
  prefix sub s = true -> contains sub s = true.
Proof.
  intros H. destruct s; unfold contains; fold contains; rewrite H; reflexivity.
Qed.

Lemma contains_tail (sub s : string) (c : ascii) :
  contains sub s = true -> contains sub (String c s) = true.
Proof.
  intros H. unfold contains; fold contains.
  destruct (prefix sub (String c s)); [reflexivity | exact H].
Qed.

Lemma contains_cases (sub s : string) :
  contains sub s = true ->
  prefix sub s = true \/ exists c t, s = String c t /\ contains sub t = true.
Proof.
  destruct s as [| c t].
  - destruct sub; simpl; [auto | discriminate].
  - unfold contains; fold contains.
    destruct (prefix sub (String c t)); [auto |].
    intros H. right. exists c, t. auto.
Qed.

(** An occurrence of [c :: sub] holds an occurrence of [sub]. *)
Lemma contains_drop_head (c : ascii) (sub s : string) :
  contains (String c sub) s = true -> contains sub s = true.
Proof.
  induction s as [| d t IH]; intros H.
  - apply contains_cases in H. destruct H as [H | (c' & t' & E & _)].
    + apply prefix_nil_r in H. discriminate.
    + discriminate.
  - apply contains_cases in H. destruct H as [H | (c' & t' & E & H)].
    + apply prefix_cons in H. destruct H as [_ H].
      apply contains_tail, prefix_contains, H.
    + injection E as <- <-. apply contains_tail, IH, H.
Qed.

Lemma contains_strip_first (c d : ascii) (sub s : string) :
  contains (String c sub) (String d s) = true -> contains sub s = true.
Proof.
  intros H. apply contains_cases in H. destruct H as [H | (c' & t' & E & H)].
  - apply prefix_cons in H. apply prefix_contains, H.
  - injection E as <- <-. apply contains_drop_head in H. exact H.
Qed.

Lemma prefix_snoc (c d : ascii) (sub s : string) :
  prefix (sub ++ String c "") (s ++ String d "") = true ->
  prefix sub s = true.
Proof.
  revert s. induction sub as [| a sub IH]; intros s H.
  - destruct s; reflexivity.
  - destruct s as [| b s].
    + simpl in H. destruct (ascii_dec a d); [| discriminate].
      apply prefix_nil_r in H. destruct sub; discriminate.
    + change (prefix (String a (sub ++ String c ""))
                     (String b (s ++ String d "")) = true) in H.
      apply prefix_cons in H. destruct H as [-> H].
      simpl. destruct (ascii_dec b b) as [_ | N]; [| congruence].
      apply IH, H.
Qed.

Lemma contains_strip_last (c d : ascii) (sub s : string) :
  contains (sub ++ String c "") (s ++ String d "") = true ->
  contains sub s = true.
Proof.
  induction s as [| b s IH]; intros H.
  - apply contains_cases in H. destruct H as [H | (c' & t' & E & H)].
    + apply (prefix_snoc c d sub "") in H. apply prefix_contains, H.
    + simpl in E. injection E as <- <-.
      apply contains_cases in H. destruct H as [H | (c' & t' & E & _)].
      * apply prefix_nil_r in H. destruct sub; discriminate.
      * discriminate.
  - apply contains_cases in H. destruct H as [H | (c' & t' & E & H)].
    + apply (prefix_snoc c d sub (String b s)) in H.
      apply prefix_contains, H.
    + simpl in E. injection E as <- <-. apply contains_tail, IH, H.
Qed.

(** A whole-word occurrence is in particular an occurrence. *)
Lemma whole_word_contains (keyword message_lower : string) :
  Memory.whole_word keyword message_lower = true ->
  contains keyword message_lower = true.
Proof.
  unfold Memory.whole_word. intros H.
  change (" " ++ keyword ++ " ")%string
    with (String " " (keyword ++ " ")) in H.
  change (" " ++ message_lower ++ " ")%string
    with (String " " (message_lower ++ " ")) in H.
  apply contains_strip_first in H.
  apply (contains_strip_last " " " ") in H. exact H.
Qed.

Lemma prefix_part (sub s : string) :
  prefix sub s = true <-> exists post, s = (sub ++ post)%string.
Proof.
  revert s. induction sub as [| c sub IH]; intros s.
  - split; [intros _; exists s; reflexivity |]. intros _. destruct s; reflexivity.
  - destruct s as [| d s].
    + split; [discriminate | intros (post & E); discriminate].
    + split.
      * intros H. apply prefix_cons in H. destruct H as [<- H].
        apply IH in H. destruct H as (post & ->). exists post. reflexivity.
      * intros (post & E). injection E as -> ->. simpl.
        destruct (ascii_dec c c) as [_ | N]; [| congruence].
        apply IH. exists post. reflexivity.
Qed.

(** [contains] is the test of being a part. *)
Lemma contains_part (sub s : string) :
  contains sub s = true <-> Spec.part_of sub s.
Proof.
  unfold Spec.part_of. split.
  - induction s as [| c t IH]; intros H;
      apply contains_cases in H; destruct H as [H | (c' & t' & E & H)].
    + apply prefix_part in H. destruct H as (post & ->).
      exists "", post. reflexivity.
    + discriminate.
    + apply prefix_part in H. destruct H as (post & ->).
      exists "", post. reflexivity.
    + injection E as <- <-. destruct (IH H) as (pre & post & ->).
      exists (String c pre), post. reflexivity.
  - intros (pre & post & ->). induction pre as [| c pre IH].
    + apply prefix_contains, prefix_part. exists post. reflexivity.
    + apply contains_tail, IH.
Qed.

End Contains.

(** ** Domain classification *)

(** *** One keyword *)

(** The step of the source is the step of the specification: the test it
    nests the whole-word test in is implied by that test. *)
Lemma keyword_step_computed (message_lower keyword : string) (score : float) :
  Memory.keyword_step message_lower 1.0%float score keyword
  = Spec.computed_step message_lower score keyword.
Proof.
  unfold Memory.keyword_step, Spec.computed_step.
  fold (Memory.whole_word keyword message_lower).
  destruct (Memory.whole_word keyword message_lower) eqn:W.
  - rewrite (whole_word_contains _ _ W). reflexivity.
  - destruct (PyStr.contains keyword message_lower); reflexivity.
Qed.

Lemma keywords_computed (message_lower : string) (keywords : list string) :
  forall score,
    fold_left (Memory.keyword_step message_lower 1.0%float) keywords score
    = fold_left (Spec.computed_step message_lower) keywords score.
Proof.
  induction keywords as [| keyword rest IH]; intros score; [reflexivity |].
  cbn [fold_left]. rewrite keyword_step_computed. apply IH.
Qed.

Lemma unit_weights :
  Forall (fun entry => snd (snd entry) = 1.0%float
                       /\ (List.length (fst (snd entry))
                           <= ScoreRange.max_keywords)%nat)
         Memory.domain_keywords.
Proof.
  unfold Memory.domain_keywords.
  repeat (apply Forall_cons;
          [split; [reflexivity | apply Nat.leb_le; reflexivity] |]).
  apply Forall_nil.
Qed.

Lemma domain_scores_computed (message_lower : string) :
  Memory.domain_scores message_lower
  = map (fun entry =>
           (fst entry,
            Spec.computed_score message_lower (fst (snd entry))))
        Memory.domain_keywords.
Proof.
  unfold Memory.domain_scores. apply map_ext_in. intros entry Hin.
  pose proof unit_weights as U. rewrite Forall_forall in U.
  destruct (U entry Hin) as [Hw _].
  unfold Memory.domain_score, Spec.computed_score. rewrite Hw.
  rewrite keywords_computed. reflexivity.
Qed.

(** C3. For every message and every keyword of every domain, the keyword
    adds exactly 1.0 to the domain's score when it is a whole word of the
    lower-cased message, that is when the message with a blank added on each
    side holds the keyword with a blank on each side; else it adds exactly
    0.7 when it is a part of the lower-cased message; else it adds nothing.
    The two additions never combine, and the score of a domain is the result
    of these steps over its keywords, from 0. *)
Theorem keyword_contribution (message : string) :
  let message_lower := PyStr.lower message in
  Forall
    (fun entry =>
       Memory.domain_score message_lower (snd entry)
       = fold_left (Memory.keyword_step message_lower 1.0%float)
                   (fst (snd entry)) 0%float
       /\ forall (keyword : string) (score : float),
           let next :=
             Memory.keyword_step message_lower (snd (snd entry)) score keyword
           in
           next
           = (if PyStr.contains (" " ++ keyword ++ " ")
                                (" " ++ message_lower ++ " ")
              then (score + 1.0)%float
              else if PyStr.contains keyword message_lower
                   then (score + 0.7)%float
                   else score)
           /\ (Spec.whole_word_of keyword message_lower ->
               next = (score + 1.0)%float)
           /\ (Spec.part_of keyword message_lower ->
               ~ Spec.whole_word_of keyword message_lower ->
               next = (score + 0.7)%float)
           /\ (~ Spec.part_of keyword message_lower -> next = score))
    Memory.domain_keywords.
Proof.
  intros m.
  assert (step : forall keyword score,
             let next := Memory.keyword_step m 1.0%float score keyword in
             next
             = (if PyStr.contains (" " ++ keyword ++ " ") (" " ++ m ++ " ")
                then (score + 1.0)%float
                else if PyStr.contains keyword m then (score + 0.7)%float
                     else score)
             /\ (Spec.whole_word_of keyword m -> next = (score + 1.0)%float)
             /\ (Spec.part_of keyword m -> ~ Spec.whole_word_of keyword m ->
                 next = (score + 0.7)%float)
             /\ (~ Spec.part_of keyword m -> next = score)).
  { intros keyword score next. subst next. rewrite keyword_step_computed.
    unfold Spec.computed_step, Spec.whole_word_of.
    rewrite <- !contains_part.
    pose proof (whole_word_contains keyword m) as WC.
    unfold Memory.whole_word in WC.
    destruct (PyStr.contains (" " ++ keyword ++ " ") (" " ++ m ++ " "));
      [specialize (WC eq_refl); repeat split; intros; congruence |].
    destruct (PyStr.contains keyword m);
      repeat split; intros; congruence. }
  unfold Memory.domain_keywords.
  repeat (apply Forall_cons; [split; [reflexivity | exact step] |]).
  apply Forall_nil.
Qed.

(** In "i have a meeting about my workout" the keyword meeting is a whole
    word and adds 1.0, work is a part of workout only and adds 0.7, and job
    adds nothing. *)
Lemma keyword_contribution_witness :
  let message_lower := PyStr.lower "I have a Meeting about my workout" in
  Memory.keyword_step message_lower 1.0%float 0%float "meeting" = 1.0%float
  /\ Memory.keyword_step message_lower 1.0%float 0%float "work" = 0.7%float
  /\ Memory.keyword_step message_lower 1.0%float 0%float "job" = 0%float.
Proof.
  intros message_lower.
  pose proof (keyword_contribution "I have a Meeting about my workout") as H.
  cbv zeta in H. apply Forall_inv in H. destruct H as [_ H].
  split; [| split].
  - destruct (H "meeting" 0%float) as (_ & W & _).
    apply W. exists " i have a", "about my workout ". reflexivity.
  - destruct (H "work" 0%float) as (_ & _ & P & _).
    apply P.
    + exists "i have a meeting about my ", "out". reflexivity.
    + intros W. apply contains_part in W. discriminate W.
  - destruct (H "job" 0%float) as (_ & _ & _ & N).
    apply N. intros P. apply contains_part in P. discriminate P.
Defined.

(** *** Scores stay in the table *)

Section ScoreTable.

Import ScoreRange.

Lemma closed_table_ok : closed_table = true.
Proof. vm_compute. reflexivity. Qed.

Lemma ordered_table_ok : ordered_table = true.
Proof. vm_compute. reflexivity. Qed.

Lemma listed_entry (k : nat) (x : float) :
  listed k x = true <->
  exists e, In e score_table /\ value e = x /\ (depth e <= k)%nat.
Proof.
  unfold listed. rewrite existsb_exists. split.
  - intros (e & He & H). apply andb_true_iff in H. destruct H as [Hv Hd].
    exists e. repeat split; [exact He | | ].
    + apply Leibniz.eqb_spec, Hv.
    + apply Nat.leb_le, Hd.
  - intros (e & He & Hv & Hd). exists e. split; [exact He |].
    apply andb_true_iff. split.
    + apply Leibniz.eqb_spec, Hv.
    + apply Nat.leb_le, Hd.
Qed.

Lemma listed_mono (k k' : nat) (x : float) :
  (k <= k')%nat -> listed k x = true -> listed k' x = true.
Proof.
  intros Hk H. apply listed_entry in H. destruct H as (e & He & Hv & Hd).
  apply listed_entry. exists e. repeat split; [exact He | exact Hv | lia].
Qed.

Lemma listed_zero : listed 0 0%float = true.
Proof. vm_compute. reflexivity. Qed.

(** One keyword keeps a listed score listed, one level deeper. *)
Lemma keyword_step_listed (message_lower keyword : string) (k : nat)
      (score : float) :
  (k < max_keywords)%nat -> listed k score = true ->
  listed (S k) (Memory.keyword_step message_lower 1.0%float score keyword)
  = true.
Proof.
  intros Hk H. apply listed_entry in H. destruct H as (e & He & Hv & Hd).
  pose proof closed_table_ok as C. unfold closed_table in C.
  rewrite forallb_forall in C. specialize (C e He).
  apply orb_true_iff in C. destruct C as [C | C].
  - apply Nat.leb_le in C. lia.
  - apply andb_true_iff in C. destruct C as [C1 C2]. rewrite Hv in C1, C2.
    assert (Hle : (S (depth e) <= S k)%nat) by lia.
    unfold Memory.keyword_step.
    destruct (PyStr.contains keyword message_lower).
    + destruct (Memory.whole_word keyword message_lower).
      * apply (listed_mono _ _ _ Hle C1).
      * apply (listed_mono _ _ _ Hle C2).
    + apply (listed_mono (depth e)); [lia |].
      apply listed_entry. exists e. repeat split; [exact He | exact Hv | lia].
Qed.

Lemma keywords_listed (message_lower : string) (keywords : list string) :
  forall (k : nat) (score : float),
    (k + List.length keywords <= max_keywords)%nat ->
    listed k score = true ->
    listed max_keywords
           (fold_left (Memory.keyword_step message_lower 1.0%float)
                      keywords score) = true.
Proof.
  induction keywords as [| keyword rest IH]; intros k score Hk H.
  - simpl. apply (listed_mono k); [simpl in Hk; lia | exact H].
  - simpl. simpl in Hk. apply (IH (S k)); [lia |].
    apply keyword_step_listed; [lia | exact H].
Qed.

Lemma domain_scores_listed (message_lower : string) :
  Forall (fun p => listed max_keywords (snd p) = true)
         (Memory.domain_scores message_lower).
Proof.
  unfold Memory.domain_scores, Memory.domain_keywords.
  cbn [map fst snd].
  repeat (apply Forall_cons;
          [ unfold Memory.domain_score; cbn [fst snd];
            apply (keywords_listed message_lower _ 0);
            [ apply Nat.leb_le; reflexivity | apply listed_zero ] | ]).
  apply Forall_nil.
Qed.

Lemma listed_ranked (k : nat) (x : float) :
  listed k x = true -> exists r, ranked x r.
Proof.
  intros H. apply listed_entry in H. destruct H as (e & He & Hv & _).
  exists (rank e), e. auto.
Qed.

Lemma ranked_order (x y : float) (r r' : nat) :
  ranked x r -> ranked y r' ->
  (x <? y)%float = Nat.ltb r r' /\ (x <=? y)%float = Nat.leb r r'.
Proof.
  intros (e & He & <- & <-) (e' & He' & <- & <-).
  pose proof ordered_table_ok as C. unfold ordered_table in C.
  rewrite forallb_forall in C. specialize (C e He).
  apply andb_true_iff in C. destruct C as [C _].
  rewrite forallb_forall in C. specialize (C e' He').
  apply andb_true_iff in C. destruct C as [C1 C2].
  apply eqb_prop in C1, C2. auto.
Qed.

Lemma ranked_zero (x : float) (r : nat) :
  ranked x r -> (x = 0%float <-> r = 0%nat).
Proof.
  intros (e & He & <- & <-).
  pose proof ordered_table_ok as C. unfold ordered_table in C.
  rewrite forallb_forall in C. specialize (C e He).
  apply andb_true_iff in C. destruct C as [_ C]. apply eqb_prop in C.
  rewrite <- Leibniz.eqb_spec, C. apply Nat.eqb_eq.
Qed.

Lemma ranked_zero_zero : ranked 0%float 0.
Proof.
  pose proof listed_zero as H. apply listed_ranked in H.
  destruct H as (r & H). pose proof (proj1 (ranked_zero _ _ H) eq_refl).
  subst r. exact H.
Qed.

End ScoreTable.

(** *** The maximum that [max] returns *)

Section MaxByScore.

Import ScoreRange.

(** The loop invariant of [max]: the items read so far are [pre], the running
    maximum, and [mid]; [pre] is strictly below the maximum and [mid] is not
    above it. *)
Lemma max_by_score_split (items : list (string * float)) :
  forall (pre : list (string * float)) (best : string * float)
         (mid : list (string * float)),
    Forall has_rank (pre ++ best :: mid ++ items) ->
    Forall (fun p => (snd p <? snd best)%float = true) pre ->
    Forall (fun p => (snd p <=? snd best)%float = true) mid ->
    exists pre' post',
      pre ++ best :: mid ++ items
      = pre' ++ Memory.max_by_score best items :: post'
      /\ Forall (fun p => (snd p <? snd (Memory.max_by_score best items))%float
                          = true) pre'
      /\ Forall (fun p => (snd p <=? snd (Memory.max_by_score best items))%float
                          = true) post'.
Proof.
  induction items as [| item rest IH]; intros pre best mid HR Hpre Hmid.
  - exists pre, mid. rewrite app_nil_r. auto.
  - assert (Rb : has_rank best).
    { rewrite Forall_forall in HR. apply HR, in_elt. }
    assert (Ri : has_rank item).
    { rewrite Forall_forall in HR. apply HR.
      apply in_or_app. right. right. apply in_elt. }
    destruct Rb as (rb & Rb). destruct Ri as (ri & Ri).
    destruct (ranked_order _ _ _ _ Rb Ri) as [Lbi _].
    destruct (ranked_order _ _ _ _ Ri Rb) as [_ Eib].
    simpl. destruct (snd best <? snd item)%float;
      symmetry in Lbi; rename Lbi into E.
    + apply Nat.ltb_lt in E.
      specialize (IH (pre ++ best :: mid) item []).
      simpl in IH. rewrite <- app_assoc in IH. simpl in IH.
      apply IH; [exact HR | | constructor].
      apply Forall_app. split; [| constructor].
      * rewrite Forall_forall in *. intros p Hp.
        assert (Rp : has_rank p) by (apply HR, in_or_app; auto).
        destruct Rp as (rp & Rp). specialize (Hpre p Hp).
        destruct (ranked_order _ _ _ _ Rp Rb) as [Lpb _].
        destruct (ranked_order _ _ _ _ Rp Ri) as [Lpi _].
        rewrite Lpb in Hpre. apply Nat.ltb_lt in Hpre.
        rewrite Lpi. apply Nat.ltb_lt. lia.
      * destruct (ranked_order _ _ _ _ Rb Ri) as [Lbi _].
        rewrite Lbi. apply Nat.ltb_lt, E.
      * rewrite Forall_forall in *. intros p Hp.
        assert (Rp : has_rank p).
        { apply HR, in_or_app. right. right. apply in_or_app. auto. }
        destruct Rp as (rp & Rp). specialize (Hmid p Hp).
        destruct (ranked_order _ _ _ _ Rp Rb) as [_ Epb].
        destruct (ranked_order _ _ _ _ Rp Ri) as [Lpi _].
        rewrite Epb in Hmid. apply Nat.leb_le in Hmid.
        rewrite Lpi. apply Nat.ltb_lt. lia.
    + apply Nat.ltb_ge in E.
      specialize (IH pre best (mid ++ [item])).
      rewrite <- app_assoc in IH. simpl in IH.
      apply IH; [exact HR | exact Hpre |].
      apply Forall_app. split; [exact Hmid |].
      constructor; [| constructor].
      rewrite Eib. apply Nat.leb_le, E.
Qed.

Lemma domain_scores_ranked (message_lower : string) :
  Forall has_rank (Memory.domain_scores message_lower).
Proof.
  eapply Forall_impl; [| apply domain_scores_listed].
  intros p H. exact (listed_ranked _ _ H).
Qed.

Lemma zero_or_positive (l : list (string * float)) :
  Forall has_rank l ->
  Forall (fun p => snd p = 0%float) l
  \/ Exists (fun p => (0 <? snd p)%float = true) l.
Proof.
  induction 1 as [| p l (r & Rp) _ IH].
  - left. constructor.
  - destruct (ranked_order _ _ _ _ ranked_zero_zero Rp) as [L _].
    destruct r as [| r].
    + destruct IH as [IH | IH].
      * left. constructor; [| exact IH]. apply (ranked_zero _ _ Rp).
        reflexivity.
      * right. apply Exists_cons_tl, IH.
    + right. apply Exists_cons_hd. rewrite L. reflexivity.
Qed.

End MaxByScore.

(** *** What the classifier answers *)

Section Labels.

Import ScoreRange.

Lemma growing_table_ok : growing_table = true.
Proof. vm_compute. reflexivity. Qed.

Lemma max_by_score_in (items : list (string * float)) :
  forall best, In (Memory.max_by_score best items) (best :: items).
Proof.
  induction items as [| item rest IH]; intros best; [left; reflexivity |].
  cbn [Memory.max_by_score].
  destruct (snd best <? snd item)%float.
  - right. apply IH.
  - destruct (IH best) as [H | H]; [left; exact H | right; right; exact H].
Qed.

Lemma listed_le_refl (k : nat) (x : float) :
  listed k x = true -> (x <=? x)%float = true.
Proof.
  intros H. destruct (listed_ranked _ _ H) as (r & R).
  destruct (ranked_order _ _ _ _ R R) as [_ E]. rewrite E.
  apply Nat.leb_refl.
Qed.

(** One keyword never lowers a score, and raises it when it occurs. *)
Lemma keyword_step_grows (message_lower keyword : string) (k : nat)
      (score : float) :
  (k < max_keywords)%nat -> listed k score = true ->
  let next := Memory.keyword_step message_lower 1.0%float score keyword in
  (PyStr.contains keyword message_lower = true ->
   (score <? next)%float = true)
  /\ (PyStr.contains keyword message_lower = false -> next = score).
Proof.
  intros Hk H next. subst next. unfold Memory.keyword_step.
  destruct (PyStr.contains keyword message_lower); split;
    try discriminate; try reflexivity.
  intros _. apply listed_entry in H. destruct H as (e & He & Hv & Hd).
  pose proof growing_table_ok as G. unfold growing_table in G.
  rewrite forallb_forall in G. specialize (G e He).
  apply orb_true_iff in G. destruct G as [G | G].
  - apply Nat.leb_le in G. lia.
  - apply andb_true_iff in G. destruct G as [G1 G2]. rewrite Hv in G1, G2.
    destruct (Memory.whole_word keyword message_lower); assumption.
Qed.

Lemma keywords_grow (message_lower : string) (keywords : list string) :
  forall (k : nat) (score : float),
    (k + List.length keywords <= max_keywords)%nat ->
    listed k score = true ->
    let total :=
      fold_left (Memory.keyword_step message_lower 1.0%float) keywords score
    in
    (existsb (fun keyword => PyStr.contains keyword message_lower) keywords
     = true -> (score <? total)%float = true)
    /\ (existsb (fun keyword => PyStr.contains keyword message_lower) keywords
        = false -> total = score).
Proof.
  induction keywords as [| keyword rest IH]; intros k score Hk H total.
  - subst total. simpl. split; [discriminate | reflexivity].
  - subst total. cbn [fold_left existsb List.length] in *.
    assert (Hk' : (k < max_keywords)%nat) by lia.
    pose proof (keyword_step_listed message_lower keyword k score Hk' H) as H1.
    destruct (keyword_step_grows message_lower keyword k score Hk' H)
      as [Gup Gsame].
    assert (Hk1 : (S k + List.length rest <= max_keywords)%nat) by lia.
    destruct (IH (S k) _ Hk1 H1) as [Iup Isame].
    pose proof (keywords_listed message_lower rest (S k) _ Hk1 H1) as H2.
    destruct (listed_ranked _ _ H) as (r0 & R0).
    destruct (listed_ranked _ _ H1) as (r1 & R1).
    destruct (listed_ranked _ _ H2) as (r2 & R2).
    destruct (ranked_order _ _ _ _ R0 R1) as [L01 _].
    destruct (ranked_order _ _ _ _ R1 R2) as [L12 _].
    destruct (ranked_order _ _ _ _ R0 R2) as [L02 _].
    destruct (PyStr.contains keyword message_lower) eqn:C; cbn [orb].
    + specialize (Gup eq_refl). rewrite L01 in Gup. apply Nat.ltb_lt in Gup.
      split; [| discriminate]. intros _.
      destruct (existsb (fun kw => PyStr.contains kw message_lower) rest) eqn:X.
      * specialize (Iup eq_refl). rewrite L12 in Iup.
        apply Nat.ltb_lt in Iup. rewrite L02. apply Nat.ltb_lt. lia.
      * rewrite (Isame eq_refl). rewrite L01. apply Nat.ltb_lt, Gup.
    + rewrite (Gsame eq_refl) in *. split.
      * intros X. apply Iup, X.
      * intros X. apply Isame, X.
Qed.

(** A domain's score is positive exactly when one of its keywords occurs. *)
Lemma domain_score_positive (message_lower : string)
      (entry : string * (list string * float)) :
  In entry Memory.domain_keywords ->
  (0 <? Memory.domain_score message_lower (snd entry))%float
  = existsb (fun keyword => PyStr.contains keyword message_lower)
            (fst (snd entry))
  /\ (existsb (fun keyword => PyStr.contains keyword message_lower)
              (fst (snd entry)) = false ->
      Memory.domain_score message_lower (snd entry) = 0%float).
Proof.
  intros Hin.
  assert (Hshape : snd (snd entry) = 1.0%float
                   /\ (0 + List.length (fst (snd entry)) <= max_keywords)%nat).
  { unfold Memory.domain_keywords in Hin.
    repeat (destruct Hin as [<- | Hin];
            [split; [reflexivity | apply Nat.leb_le; reflexivity] |]).
    contradiction. }
  destruct Hshape as [Hw Hl]. unfold Memory.domain_score. rewrite Hw.
  destruct (keywords_grow message_lower (fst (snd entry)) 0 0%float Hl
                          listed_zero) as [Up Same].
  destruct (existsb _ (fst (snd entry))) eqn:X.
  - split; [apply Up; reflexivity | discriminate].
  - rewrite (Same eq_refl). split; reflexivity.
Qed.

(** The running maximum is positive as soon as some score is. *)
Lemma best_positive (first : string * float) (rest : list (string * float)) :
  Forall has_rank (first :: rest) ->
  Exists (fun p => (0 <? snd p)%float = true) (first :: rest) ->
  (0 <? snd (Memory.max_by_score first rest))%float = true.
Proof.
  intros HR Hpos.
  destruct (max_by_score_split rest [] first [])
    as (pre & post & Hsplit & Hpre & Hpost);
    [exact HR | constructor | constructor |].
  simpl in Hsplit. set (best := Memory.max_by_score first rest) in *.
  apply Exists_exists in Hpos. destruct Hpos as (p & Hp & Hp0).
  rewrite Forall_forall in HR.
  assert (Rb : has_rank best) by (apply HR; rewrite Hsplit; apply in_elt).
  destruct Rb as (rb & Rb). destruct (HR p Hp) as (rp & Rp).
  destruct (ranked_order _ _ _ _ ranked_zero_zero Rb) as [L0b _].
  destruct (ranked_order _ _ _ _ ranked_zero_zero Rp) as [L0p _].
  destruct (ranked_order _ _ _ _ Rp Rb) as [Lpb Epb].
  rewrite L0p in Hp0. apply Nat.ltb_lt in Hp0.
  rewrite L0b. apply Nat.ltb_lt.
  rewrite Hsplit in Hp. apply in_app_or in Hp.
  destruct Hp as [Hp | [Hp | Hp]].
  - rewrite Forall_forall in Hpre. specialize (Hpre p Hp).
    rewrite Lpb in Hpre. apply Nat.ltb_lt in Hpre. lia.
  - subst p. destruct (ranked_order _ _ _ _ Rb Rp) as [_ Ebp].
    rewrite Epb in Ebp. apply Nat.leb_le in Hp0 as Hp0'.
    destruct (Nat.leb rp rb) eqn:A; symmetry in Ebp.
    + apply Nat.leb_le in A, Ebp. lia.
    + apply Nat.leb_gt in A, Ebp. lia.
  - rewrite Forall_forall in Hpost. specialize (Hpost p Hp).
    rewrite Epb in Hpost. apply Nat.leb_le in Hpost. lia.
Qed.

(** The answer in terms of the running maximum. *)
Lemma classify_by_best (message : string) :
  message <> "" ->
  exists first rest,
    Memory.domain_scores (PyStr.lower message) = first :: rest
    /\ Memory.classify_message_domain message
       = if (0 <? snd (Memory.max_by_score first rest))%float
         then fst (Memory.max_by_score first rest) else "general".
Proof.
  intros Hne. unfold Memory.classify_message_domain.
  destruct message; [congruence |]. cbn [PyStr.is_empty].
  unfold Memory.domain_scores, Memory.domain_keywords. cbn [map].
  eexists. eexists. split; reflexivity.
Qed.

Lemma mentions_exists (message_lower : string) :
  Spec.mentions message_lower = true <->
  Exists (fun p => (0 <? snd p)%float = true)
         (Memory.domain_scores message_lower).
Proof.
  unfold Spec.mentions, Memory.domain_scores.
  rewrite existsb_exists, Exists_exists. split.
  - intros (entry & Hin & X).
    exists (fst entry, Memory.domain_score message_lower (snd entry)).
    split; [apply in_map_iff; exists entry; auto |].
    cbn [snd]. destruct (domain_score_positive message_lower entry Hin) as [E _].
    rewrite E. exact X.
  - intros (p & Hin & X). apply in_map_iff in Hin.
    destruct Hin as (entry & <- & Hin). exists entry. split; [exact Hin |].
    cbn [snd] in X.
    destruct (domain_score_positive message_lower entry Hin) as [E _].
    rewrite <- E. exact X.
Qed.

End Labels.

(** *** Computed scores and exact totals *)

Section ExactTotals.

Import ScoreRange.

Lemma closed_exact_ok : closed_exact = true.
Proof. vm_compute. reflexivity. Qed.

Lemma ordered_exact_ok : ordered_exact = true.
Proof. vm_compute. reflexivity. Qed.

Lemma listed_exact_entry (k : nat) (x : float) (t : N) :
  listed_exact k x t = true <->
  exists e, In e exact_table /\ exact_value e = x
            /\ (exact_depth e <= k)%nat /\ tenths e = t.
Proof.
  unfold listed_exact. rewrite existsb_exists. split.
  - intros (e & He & H). apply andb_true_iff in H. destruct H as [H Ht].
    apply andb_true_iff in H. destruct H as [Hv Hd].
    exists e. repeat split; [exact He | | | ].
    + apply Leibniz.eqb_spec, Hv.
    + apply Nat.leb_le, Hd.
    + apply N.eqb_eq, Ht.
  - intros (e & He & Hv & Hd & Ht). exists e. split; [exact He |].
    apply andb_true_iff. split; [apply andb_true_iff; split |].
    + apply Leibniz.eqb_spec, Hv.
    + apply Nat.leb_le, Hd.
    + apply N.eqb_eq, Ht.
Qed.

Lemma listed_exact_mono (k k' : nat) (x : float) (t : N) :
  (k <= k')%nat -> listed_exact k x t = true -> listed_exact k' x t = true.
Proof.
  intros Hk H. apply listed_exact_entry in H.
  destruct H as (e & He & Hv & Hd & Ht).
  apply listed_exact_entry. exists e. repeat split; try assumption. lia.
Qed.

Lemma listed_exact_zero : listed_exact 0 0%float 0%N = true.
Proof. vm_compute. reflexivity. Qed.

(** One keyword keeps a listed sum listed, and adds its exact
    contribution to the total. *)
Lemma keyword_step_exact (message_lower keyword : string) (k : nat)
      (score : float) (t : N) :
  (k < max_keywords)%nat -> listed_exact k score t = true ->
  listed_exact (S k)
               (Memory.keyword_step message_lower 1.0%float score keyword)
               (t + keyword_tenths message_lower keyword)%N
  = true.
Proof.
  intros Hk H. pose proof H as H0. apply listed_exact_entry in H.
  destruct H as (e & He & Hv & Hd & Ht).
  pose proof closed_exact_ok as C. unfold closed_exact in C.
  rewrite forallb_forall in C. specialize (C e He).
  apply orb_true_iff in C. destruct C as [C | C].
  - apply Nat.leb_le in C. lia.
  - apply andb_true_iff in C. destruct C as [C1 C2].
    rewrite Hv, Ht in C1, C2.
    assert (Hle : (S (exact_depth e) <= S k)%nat) by lia.
    rewrite keyword_step_computed.
    unfold Spec.computed_step, keyword_tenths.
    destruct (PyStr.contains (" " ++ keyword ++ " ")
                             (" " ++ message_lower ++ " ")).
    + apply (listed_exact_mono _ _ _ _ Hle C1).
    + destruct (PyStr.contains keyword message_lower).
      * apply (listed_exact_mono _ _ _ _ Hle C2).
      * rewrite N.add_0_r. apply (listed_exact_mono k); [lia | exact H0].
Qed.

Lemma keywords_exact (message_lower : string) (keywords : list string) :
  forall (k : nat) (score : float) (t : N),
    (k + List.length keywords <= max_keywords)%nat ->
    listed_exact k score t = true ->
    listed_exact
      max_keywords
      (fold_left (Memory.keyword_step message_lower 1.0%float) keywords score)
      (fold_left (fun t keyword => (t + keyword_tenths message_lower keyword)%N)
                 keywords t)
    = true.
Proof.
  induction keywords as [| keyword rest IH]; intros k score t Hk H.
  - simpl. apply (listed_exact_mono k); [simpl in Hk; lia | exact H].
  - cbn [fold_left]. cbn [List.length] in Hk. apply (IH (S k)); [lia |].
    apply keyword_step_exact; [lia | exact H].
Qed.

(** The score of a domain is listed with the exact total of the domain. *)
Lemma domain_score_exact (message_lower : string)
      (entry : string * (list string * float)) :
  In entry Memory.domain_keywords ->
  listed_exact max_keywords
               (Memory.domain_score message_lower (snd entry))
               (total_tenths message_lower (fst (snd entry)))
  = true.
Proof.
  intros Hin. pose proof unit_weights as U. rewrite Forall_forall in U.
  destruct (U entry Hin) as [Hw Hl].
  unfold Memory.domain_score, total_tenths. rewrite Hw.
  apply (keywords_exact message_lower _ 0); [exact Hl | apply listed_exact_zero].
Qed.

Lemma contribution_tenths (message_lower keyword : string) :
  (Spec.contribution message_lower keyword
   == Z.of_N (keyword_tenths message_lower keyword) # 10)%Q.
Proof.
  unfold Spec.contribution, keyword_tenths.
  destruct (PyStr.contains (" " ++ keyword ++ " ")
                           (" " ++ message_lower ++ " "));
    [reflexivity |].
  destruct (PyStr.contains keyword message_lower); reflexivity.
Qed.

Lemma aggregate_from (message_lower : string) (keywords : list string) :
  forall (total : Q) (t : N),
    (total == Z.of_N t # 10)%Q ->
    (fold_left
       (fun total keyword =>
          (total + Spec.contribution message_lower keyword)%Q)
       keywords total
     == Z.of_N
          (fold_left
             (fun t keyword => (t + keyword_tenths message_lower keyword)%N)
             keywords t) # 10)%Q.
Proof.
  induction keywords as [| keyword rest IH]; intros total t H; [exact H |].
  cbn [fold_left]. apply IH.
  rewrite H, contribution_tenths. unfold Qeq, Qplus. simpl. lia.
Qed.

(** The exact total of the specification is a number of tenths. *)
Lemma aggregate_tenths (message_lower : string) (keywords : list string) :
  (Spec.aggregate message_lower keywords
   == Z.of_N (total_tenths message_lower keywords) # 10)%Q.
Proof. apply aggregate_from. reflexivity. Qed.

Lemma exact_order (k k' : nat) (x x' : float) (t t' : N) :
  listed_exact k x t = true -> listed_exact k' x' t' = true ->
  (t < t')%N ->
  (x <? x')%float = true /\ (x' <=? x)%float = false
  /\ (x' <? x)%float = false.
Proof.
  intros H H' Ht. apply listed_exact_entry in H, H'.
  destruct H as (e & He & <- & _ & <-). destruct H' as (e' & He' & <- & _ & <-).
  pose proof ordered_exact_ok as C. unfold ordered_exact in C.
  rewrite forallb_forall in C. specialize (C e He).
  apply andb_true_iff in C. destruct C as [C _].
  rewrite forallb_forall in C. specialize (C e' He').
  apply N.ltb_lt in Ht. rewrite Ht in C. cbn [negb orb] in C.
  apply andb_true_iff in C. destruct C as [C C3].
  apply andb_true_iff in C. destruct C as [C1 C2].
  apply negb_true_iff in C2, C3. auto.
Qed.

Lemma exact_zero (k : nat) (x : float) (t : N) :
  listed_exact k x t = true -> (t = 0%N <-> x = 0%float).
Proof.
  intros H. apply listed_exact_entry in H.
  destruct H as (e & He & <- & _ & <-).
  pose proof ordered_exact_ok as C. unfold ordered_exact in C.
  rewrite forallb_forall in C. specialize (C e He).
  apply andb_true_iff in C. destruct C as [_ C]. apply eqb_prop in C.
  rewrite <- Leibniz.eqb_spec, <- C. symmetry. apply N.eqb_eq.
Qed.

(** The order of two exact totals is the order of their tenths. *)
Lemma aggregate_le (message_lower : string) (keywords keywords' : list string) :
  (Spec.aggregate message_lower keywords
   <= Spec.aggregate message_lower keywords')%Q
  <-> (total_tenths message_lower keywords
       <= total_tenths message_lower keywords')%N.
Proof.
  rewrite !aggregate_tenths. unfold Qle. simpl. lia.
Qed.

Lemma aggregate_positive (message_lower : string) (keywords : list string) :
  (0 < Spec.aggregate message_lower keywords)%Q
  <-> (0 < total_tenths message_lower keywords)%N.
Proof.
  rewrite aggregate_tenths. unfold Qlt. simpl. lia.
Qed.

End ExactTotals.

Section Highest.

Import ScoreRange.

Variable message_lower : string.

Lemma domain_score_computed (entry : string * (list string * float)) :
  In entry Memory.domain_keywords ->
  Memory.domain_score message_lower (snd entry)
  = Spec.computed_score message_lower (fst (snd entry)).
Proof.
  intros Hin. pose proof unit_weights as U. rewrite Forall_forall in U.
  destruct (U entry Hin) as [Hw _].
  unfold Memory.domain_score, Spec.computed_score. rewrite Hw.
  apply keywords_computed.
Qed.

(** A computed score is above 0 exactly when the exact total is. *)
Lemma computed_positive (entry : string * (list string * float)) :
  In entry Memory.domain_keywords ->
  (0 <? Memory.domain_score message_lower (snd entry))%float = true
  <-> (0 < Spec.aggregate message_lower (fst (snd entry)))%Q.
Proof.
  intros Hin. pose proof (domain_score_exact message_lower entry Hin) as L.
  rewrite aggregate_positive. split.
  - intros P.
    destruct (N.eq_dec (total_tenths message_lower (fst (snd entry))) 0)
      as [E | N]; [| lia].
    apply (exact_zero _ _ _ L) in E. rewrite E in P. discriminate P.
  - intros P. apply (exact_order _ _ _ _ _ _ listed_exact_zero L P).
Qed.

(** An item that is not below the items before it nor strictly below the
    items after it has an exact total that none exceeds. *)
Lemma highest_total (earlier later : list (string * float))
      (best entry : string * (list string * float)) :
  In best Memory.domain_keywords -> In entry Memory.domain_keywords ->
  Memory.domain_scores message_lower
  = earlier ++ (fst best, Memory.domain_score message_lower (snd best))
            :: later ->
  Forall (fun p => (snd p <? Memory.domain_score message_lower (snd best))%float
                   = true) earlier ->
  Forall (fun p => (snd p <=? Memory.domain_score message_lower (snd best))%float
                   = true) later ->
  (Spec.aggregate message_lower (fst (snd entry))
   <= Spec.aggregate message_lower (fst (snd best)))%Q.
Proof.
  intros Hb He Hsplit Hpre Hpost. apply aggregate_le.
  destruct (N.le_gt_cases (total_tenths message_lower (fst (snd entry)))
                          (total_tenths message_lower (fst (snd best))))
    as [Hle | Hgt]; [exact Hle | exfalso].
  pose proof (domain_score_exact message_lower best Hb) as Lb.
  pose proof (domain_score_exact message_lower entry He) as Le.
  destruct (exact_order _ _ _ _ _ _ Lb Le Hgt) as (O1 & O2 & O3).
  assert (Hin : In (fst entry, Memory.domain_score message_lower (snd entry))
                   (Memory.domain_scores message_lower)).
  { unfold Memory.domain_scores. apply in_map_iff. exists entry. auto. }
  rewrite Hsplit in Hin. apply in_app_or in Hin.
  rewrite Forall_forall in Hpre, Hpost.
  destruct Hin as [Hin | [Hin | Hin]].
  - specialize (Hpre _ Hin). cbn [snd] in Hpre. congruence.
  - apply (f_equal snd) in Hin. cbn [snd] in Hin. rewrite <- Hin in O1, O3.
    congruence.
  - specialize (Hpost _ Hin). cbn [snd] in Hpost. congruence.
Qed.

End Highest.

Section Answer.

Variable message : string.

Lemma empty_scores :
  message = "" ->
  Forall (fun p => snd p = 0%float)
         (Memory.domain_scores (PyStr.lower message)).
Proof. intros E. rewrite E. vm_compute. repeat constructor. Qed.

Lemma classify_zero :
  Forall (fun p => snd p = 0%float)
         (Memory.domain_scores (PyStr.lower message)) ->
  Memory.classify_message_domain message = "general".
Proof.
  intros Hzero.
  assert (Hne : message = "" \/ message <> "").
  { destruct message; [left; reflexivity | right; discriminate]. }
  destruct Hne as [E | Hne]; [rewrite E; reflexivity |].
  destruct (classify_by_best message Hne) as (first & rest & Hs & Hc).
  rewrite Hc.
  assert (Hb : snd (Memory.max_by_score first rest) = 0%float).
  { rewrite Forall_forall in Hzero. apply Hzero.
    rewrite Hs. apply max_by_score_in. }
  rewrite Hb. reflexivity.
Qed.

(** The answer when some score is above 0: the first of the domains with
    the largest computed score, which has a highest exact total. *)
Lemma classify_positive :
  Exists (fun p => (0 <? snd p)%float = true)
         (Memory.domain_scores (PyStr.lower message)) ->
  exists earlier later entry,
    Memory.domain_scores (PyStr.lower message)
    = earlier
        ++ (fst entry, Memory.domain_score (PyStr.lower message) (snd entry))
        :: later
    /\ Memory.classify_message_domain message = fst entry
    /\ (0 <? Memory.domain_score (PyStr.lower message) (snd entry))%float
       = true
    /\ Forall
         (fun p =>
            (snd p <? Memory.domain_score (PyStr.lower message)
                                          (snd entry))%float = true)
         earlier
    /\ Forall
         (fun p =>
            (snd p <=? Memory.domain_score (PyStr.lower message)
                                           (snd entry))%float = true)
         later
    /\ Spec.top (PyStr.lower message) entry.
Proof.
  intros Hpos. set (message_lower := PyStr.lower message) in *.
  set (scores := Memory.domain_scores message_lower) in *.
  assert (Hne : message <> "").
  { intros E. pose proof (empty_scores E) as Hz. apply Exists_exists in Hpos.
    destruct Hpos as (p & Hp & Hp0). rewrite Forall_forall in Hz.
    rewrite (Hz p Hp) in Hp0. discriminate. }
  pose proof (domain_scores_ranked message_lower) as HR. fold scores in HR.
  destruct (classify_by_best message Hne) as (first & rest & Hs & Hc).
  fold message_lower in Hs. fold scores in Hs.
  rewrite Hs in HR, Hpos.
  pose proof (best_positive first rest HR Hpos) as Hbest.
  rewrite Hbest in Hc.
  destruct (max_by_score_split rest [] first [])
    as (pre & post & Hsplit & Hpre & Hpost);
    [exact HR | constructor | constructor |].
  cbn [app] in Hsplit. rewrite <- Hs in Hsplit.
  set (best := Memory.max_by_score first rest) in *.
  assert (Hin : In best scores) by (rewrite Hsplit; apply in_elt).
  unfold scores, Memory.domain_scores in Hin. apply in_map_iff in Hin.
  destruct Hin as (entry & Ebest & Hin).
  rewrite <- Ebest in Hsplit, Hc, Hbest, Hpre, Hpost.
  cbn [fst snd] in Hc, Hbest, Hpre, Hpost.
  exists pre, post, entry.
  split; [exact Hsplit |]. split; [exact Hc |]. split; [exact Hbest |].
  split; [exact Hpre |]. split; [exact Hpost |].
  split; [exact Hin |].
  split; [apply computed_positive; assumption |].
  apply Forall_forall. intros other Ho.
  apply (highest_total message_lower pre post entry other Hin Ho Hsplit
                       Hpre Hpost).
Qed.

End Answer.

Section FirstHighest.

Lemma first_highest_from_top (items : list (string * Q)) :
  forall best,
    In (Spec.first_highest_from best items) (best :: items)
    /\ Forall (fun p => (snd p <= snd (Spec.first_highest_from best items))%Q)
              (best :: items).
Proof.
  induction items as [| item rest IH]; intros best.
  - cbn. split; [auto |]. constructor; [apply Qle_refl | constructor].
  - cbn [Spec.first_highest_from].
    destruct (Qle_bool (snd item) (snd best)) eqn:E.
    + destruct (IH best) as [Hin Hall]. split.
      * destruct Hin as [Hin | Hin]; [left; exact Hin | right; right; exact Hin].
      * apply Forall_cons_iff in Hall. destruct Hall as [Hb Hrest].
        constructor; [exact Hb |]. constructor; [| exact Hrest].
        apply Qle_bool_iff in E. eapply Qle_trans; eassumption.
    + destruct (IH item) as [Hin Hall]. split.
      * right. exact Hin.
      * constructor; [| exact Hall].
        apply Forall_cons_iff in Hall. destruct Hall as [Hi _].
        assert (Hlt : (snd best < snd item)%Q).
        { apply Qnot_le_lt. intros Hle. apply Qle_bool_iff in Hle. congruence. }
        eapply Qle_trans; [apply Qlt_le_weak, Hlt | exact Hi].
Qed.

(** When one domain only has the highest exact total, or every total is 0,
    the answer is the one the exact totals give. *)
Lemma classify_first_highest (message : string) :
  (forall entry entry',
      Spec.top (PyStr.lower message) entry -> Spec.top (PyStr.lower message) entry' ->
      fst entry = fst entry') ->
  Memory.classify_message_domain message
  = Spec.first_highest (PyStr.lower message).
Proof.
  intros Huniq. set (m := PyStr.lower message) in *.
  assert (Hshape : exists first rest, Spec.aggregates m = first :: rest).
  { unfold Spec.aggregates, Memory.domain_keywords. cbn [map]. eauto. }
  destruct Hshape as (first & rest & Hshape).
  destruct (first_highest_from_top rest first) as [Hin Hall].
  set (h := Spec.first_highest_from first rest) in *.
  rewrite <- Hshape in Hin, Hall.
  unfold Spec.aggregates in Hin. apply in_map_iff in Hin.
  destruct Hin as (eh & Eh & Hin).
  assert (Hh : Forall
                 (fun other =>
                    (Spec.aggregate m (fst (snd other))
                     <= Spec.aggregate m (fst (snd eh)))%Q)
                 Memory.domain_keywords).
  { apply Forall_forall. intros other Ho. rewrite Forall_forall in Hall.
    specialize (Hall (fst other, Spec.aggregate m (fst (snd other)))).
    rewrite <- Eh in Hall. apply Hall.
    unfold Spec.aggregates. apply in_map_iff. exists other. auto. }
  unfold Spec.first_highest. rewrite Hshape. cbv zeta. fold h.
  rewrite <- Eh. cbn [fst snd].
  destruct (zero_or_positive (Memory.domain_scores m)
                             (domain_scores_ranked m)) as [Hz | Hp].
  - rewrite (classify_zero message Hz).
    assert (Hle : (Spec.aggregate m (fst (snd eh)) <= 0)%Q).
    { apply Qnot_lt_le. intros P. apply (computed_positive m eh Hin) in P.
      rewrite Forall_forall in Hz.
      specialize (Hz (fst eh, Memory.domain_score m (snd eh))).
      cbn [snd] in Hz. rewrite Hz in P; [discriminate P |].
      unfold Memory.domain_scores. apply in_map_iff. exists eh. auto. }
    apply Qle_bool_iff in Hle. rewrite Hle. reflexivity.
  - destruct (classify_positive message Hp)
      as (earlier & later & entry & _ & Hc & _ & _ & _ & Htop).
    fold m in Htop.
    assert (Hhtop : Spec.top m eh).
    { split; [exact Hin |]. split; [| exact Hh].
      destruct Htop as (He & Hpos & _).
      rewrite Forall_forall in Hh. specialize (Hh entry He).
      eapply Qlt_le_trans; eassumption. }
    rewrite Hc, (Huniq entry eh Htop Hhtop).
    destruct Hhtop as (_ & Hpos & _).
    destruct (Qle_bool (Spec.aggregate m (fst (snd eh))) 0) eqn:E;
      [| reflexivity].
    apply Qle_bool_iff in E. exfalso. apply (Qlt_not_le _ _ Hpos E).
Qed.

End FirstHighest.

(** C4, amended. The score of a domain is the binary64 sum of its keywords'
    contributions, added in the order of the keyword list; the scores are
    listed in the order work, family, entertainment, health, learning,
    finance. If every score is 0, as for the empty message, the answer is
    [general]. Otherwise the answer is the domain with the largest computed
    score, the first of them in the enumeration order when several domains
    have that same computed score: its score is above 0, strictly above the
    score of every domain before it and not below the score of any domain
    after it. That domain has a highest exact total, so that when one domain
    only has the highest exact total the answer is the domain the exact
    totals give; among domains whose exact totals tie, the rounding of the
    sums decides, and the first of them need not win. *)
Theorem classify_message_domain_highest (message : string) :
  let message_lower := PyStr.lower message in
  let scores := Memory.domain_scores message_lower in
  scores
  = map (fun entry =>
           (fst entry, Spec.computed_score message_lower (fst (snd entry))))
        Memory.domain_keywords
  /\ map fst scores
     = ["work"; "family"; "entertainment"; "health"; "learning"; "finance"]
  /\ Forall
       (fun entry =>
          (0 <? Spec.computed_score message_lower (fst (snd entry)))%float
          = true
          <-> (0 < Spec.aggregate message_lower (fst (snd entry)))%Q)
       Memory.domain_keywords
  /\ (Forall (fun p => snd p = 0%float) scores
      \/ Exists (fun p => (0 <? snd p)%float = true) scores)
  /\ (message = "" -> Forall (fun p => snd p = 0%float) scores)
  /\ (Forall (fun p => snd p = 0%float) scores ->
      Memory.classify_message_domain message = "general")
  /\ (Exists (fun p => (0 <? snd p)%float = true) scores ->
      exists earlier domain score later,
        scores = earlier ++ (domain, score) :: later
        /\ Memory.classify_message_domain message = domain
        /\ (0 <? score)%float = true
        /\ Forall (fun p => (snd p <? score)%float = true) earlier
        /\ Forall (fun p => (snd p <=? score)%float = true) later
        /\ exists keywords weight,
             In (domain, (keywords, weight)) Memory.domain_keywords
             /\ score = Spec.computed_score message_lower keywords
             /\ Spec.top message_lower (domain, (keywords, weight)))
  /\ ((forall entry entry',
          Spec.top message_lower entry -> Spec.top message_lower entry' ->
          fst entry = fst entry') ->
      Memory.classify_message_domain message
      = Spec.first_highest message_lower).
Proof.
  intros message_lower scores.
  split; [apply domain_scores_computed |].
  split; [reflexivity |].
  split.
  { apply Forall_forall. intros entry Hin.
    rewrite <- (domain_score_computed message_lower entry Hin).
    apply computed_positive, Hin. }
  split; [apply zero_or_positive, domain_scores_ranked |].
  split; [apply empty_scores |].
  split; [apply classify_zero |].
  split; [| apply classify_first_highest].
  intros Hpos.
  destruct (classify_positive message Hpos)
    as (earlier & later & entry & Hsplit & Hc & Hbest & Hpre & Hpost & Htop).
  exists earlier, (fst entry),
    (Memory.domain_score message_lower (snd entry)), later.
  split; [exact Hsplit |]. split; [exact Hc |]. split; [exact Hbest |].
  split; [exact Hpre |]. split; [exact Hpost |].
  exists (fst (snd entry)), (snd (snd entry)).
  rewrite <- !surjective_pairing.
  split; [apply Htop |].
  split; [apply domain_score_computed, Htop | exact Htop].
Qed.

(** C4 as first written fails where two domains tie on the exact total:
    for this message work and family both total 17/5, from two substrings
    and two whole words each, and the claim gives the tie to work, the
    earlier domain. The sums the code compares are 0.7 + 0.7 + 1.0 + 1.0 for
    work and 1.0 + 1.0 + 0.7 + 0.7 for family, which binary64 rounds to two
    different numbers, and the code answers family. *)
Lemma exact_tie_goes_to_later_domain :
  let message :=
    "jobs meetings deadline project family kids grandchildren parents" in
  let message_lower := PyStr.lower message in
  map (fun p => (fst p, Qred (snd p))) (Spec.aggregates message_lower)
  = [("work", 17 # 5); ("family", 17 # 5); ("entertainment", 0%Q);
     ("health", 0%Q); ("learning", 0%Q); ("finance", 0%Q)]
  /\ Memory.domain_scores message_lower
     = [("work", 3.4%float); ("family", 3.4000000000000004%float);
        ("entertainment", 0%float); ("health", 0%float);
        ("learning", 0%float); ("finance", 0%float)]
  /\ (3.4 <? 3.4000000000000004)%float = true
  /\ Spec.first_highest message_lower = "work"
  /\ Memory.classify_message_domain message = "family"
  /\ ~ (forall message,
           Memory.classify_message_domain message
           = Spec.first_highest (PyStr.lower message)).
Proof.
  intros message message_lower.
  split; [vm_compute; reflexivity |].
  split; [vm_compute; reflexivity |].
  split; [vm_compute; reflexivity |].
  split; [vm_compute; reflexivity |].
  split; [vm_compute; reflexivity |].
  intros H. specialize (H message). vm_compute in H. discriminate H.
Qed.

(** ** The conversation log *)

Section Dicts.

Lemma dict_get_set (k k' : string) (v : json) (d : dict) :
  dict_get k (dict_set k' v d)
  = if String.eqb k k'
    then Some v
    else dict_get k d.
Proof.
  induction d as [| [k0 v0] d IH]; simpl.
  - destruct (String.eqb k k'); reflexivity.
  - destruct (String.eqb k' k0) eqn:E0; simpl.
    + apply String.eqb_eq in E0. subst k0.
      destruct (String.eqb k k'); reflexivity.
    + destruct (String.eqb k k0) eqn:E1.
      * apply String.eqb_eq in E1. subst k0.
        rewrite String.eqb_sym, E0. reflexivity.
      * exact IH.
Qed.

(** A present field keeps its value and a missing one gets its default. *)
Lemma backfill_get (now : clock) (d : dict) (k : string) :
  dict_get k (Memory.backfill now d)
  = match dict_get k d with
    | Some v => Some v
    | None => Spec.default_field now k
    end.
Proof.
  unfold Memory.backfill, Spec.default_field, dict_has.
  destruct (dict_get "timestamp" d) eqn:T;
    destruct (dict_get "date" d) eqn:D;
    destruct (dict_get "domain" d) eqn:G;
    repeat (rewrite ?dict_get_set, ?T, ?D, ?G; cbn [String.eqb Ascii.eqb Bool.eqb]);
    repeat match goal with
      | |- context [String.eqb k ?s] =>
          let E := fresh "E" in
          destruct (String.eqb k s) eqn:E;
          [ apply String.eqb_eq in E; subst k | ]
      end;
    rewrite ?T, ?D, ?G; try reflexivity;
    destruct (dict_get k d); reflexivity.
Qed.

Lemma backfill_has (now : clock) (d : dict) (k : string) :
  dict_has k (Memory.backfill now d)
  = (dict_has k d
     || String.eqb k "timestamp" || String.eqb k "date"
     || String.eqb k "domain")%bool.
Proof.
  unfold dict_has at 1 2. rewrite backfill_get. unfold Spec.default_field.
  destruct (dict_get k d); [reflexivity |].
  destruct (String.eqb k "timestamp"); [reflexivity |].
  destruct (String.eqb k "date"); [reflexivity |].
  destruct (String.eqb k "domain"); reflexivity.
Qed.

(** A record that has the three fields is left as it is. *)
Lemma backfill_complete (now : clock) (d : dict) :
  dict_has "timestamp" d = true -> dict_has "date" d = true ->
  dict_has "domain" d = true -> Memory.backfill now d = d.
Proof.
  intros T D G. unfold Memory.backfill. rewrite T, D, G. reflexivity.
Qed.

End Dicts.

Section Loading.

Lemma load_loop (now : clock) (data : list json) :
  forall acc,
    fold_left (Memory.load_step now) data acc
    = acc ++ flat_map (Spec.kept now) data.
Proof.
  induction data as [| entry data IH]; intros acc; simpl.
  - rewrite app_nil_r. reflexivity.
  - rewrite IH. unfold Memory.load_step, Memory.valid_entry, Spec.kept.
    destruct entry; try reflexivity.
    destruct (dict_has "user" d && dict_has "assistant" d)%bool.
    + rewrite <- app_assoc. reflexivity.
    + reflexivity.
Qed.

Lemma load_doc (st : fs) (now : clock) :
  Memory.load_conversation_history st now
  = match history_file st with
    | Doc (JArr data) => flat_map (Spec.kept now) data
    | _ => []
    end.
Proof.
  unfold Memory.load_conversation_history.
  destruct (history_file st) as [| | | doc]; try reflexivity.
  destruct doc; try reflexivity. apply load_loop.
Qed.

End Loading.

Section LoadedRecords.

Lemma kept_complete (now : clock) (entry : json) (conv : dict) :
  In conv (Spec.kept now entry) -> Spec.complete conv.
Proof.
  unfold Spec.kept. destruct entry; try contradiction.
  destruct (dict_has "user" d) eqn:U; [| contradiction].
  destruct (dict_has "assistant" d) eqn:A; [| contradiction].
  intros [<- | []]. unfold Spec.complete.
  rewrite !backfill_has, U, A. cbn.
  repeat split;
    repeat match goal with
      | |- context [dict_has ?k d] => destruct (dict_has k d)
      end; reflexivity.
Qed.

Lemma loaded_complete (st : fs) (now : clock) (conv : dict) :
  In conv (Memory.load_conversation_history st now) -> Spec.complete conv.
Proof.
  rewrite load_doc. destruct (history_file st) as [| | | doc]; try contradiction.
  destruct doc; try contradiction.
  intros H. apply in_flat_map in H. destruct H as (entry & _ & H).
  apply (kept_complete now entry), H.
Qed.

Lemma kept_of_complete (now : clock) (conv : dict) :
  Spec.complete conv -> Spec.kept now (JObj conv) = [conv].
Proof.
  intros (U & A & T & D & G). unfold Spec.kept. rewrite U, A. simpl.
  rewrite backfill_complete; auto.
Qed.

(** Records that are complete are read back as they were written. *)
Lemma reload_complete (now : clock) (records : list dict) :
  Forall Spec.complete records ->
  flat_map (Spec.kept now) (map JObj records) = records.
Proof.
  induction 1 as [| conv records Hc _ IH]; [reflexivity |].
  cbn [map flat_map]. rewrite (kept_of_complete now conv Hc), IH. reflexivity.
Qed.

Lemma new_conversation_complete (now : clock) (u a domain : string) :
  Spec.complete (Memory.new_conversation now u a domain).
Proof. repeat split. Qed.

Lemma last_n_suffix {A : Type} (n : Z) (l : list A) :
  exists dropped, l = dropped ++ Memory.last_n n l.
Proof.
  exists (firstn (List.length l - Z.to_nat n) l).
  unfold Memory.last_n. rewrite firstn_skipn. reflexivity.
Qed.

Lemma last_n_length {A : Type} (n : Z) (l : list A) :
  List.length (Memory.last_n n l) = Nat.min (Z.to_nat n) (List.length l).
Proof. unfold Memory.last_n. rewrite length_skipn. lia. Qed.

End LoadedRecords.

(** C8. Loading keeps, in document order, exactly the entries that
    are JSON objects with a [user] and an [assistant] key, whatever those two
    values are, and drops every other entry; a document that is not a list, or
    a file that is absent, unreadable or corrupt, gives the empty log. Every
    kept record has the fields user, assistant, timestamp, date and domain:
    a field the stored record has keeps its value, and a missing timestamp,
    date or domain is the clock's timestamp, the clock's date or [general]. *)
Theorem load_conversation_history_filters (st : fs) (now : clock) :
  Memory.load_conversation_history st now
  = match history_file st with
    | Doc (JArr data) =>
        flat_map
          (fun entry =>
             match entry with
             | JObj d =>
                 if (dict_has "user" d && dict_has "assistant" d)%bool
                 then [Memory.backfill now d] else []
             | _ => []
             end)
          data
    | _ => []
    end
  /\ (forall conv,
         In conv (Memory.load_conversation_history st now) ->
         Spec.complete conv)
  /\ (forall (d : dict) (k : string),
         dict_get k (Memory.backfill now d)
         = match dict_get k d with
           | Some v => Some v
           | None =>
               if String.eqb k "timestamp" then Some (JStr (isoformat now))
               else if String.eqb k "date" then Some (JStr (ymd now))
               else if String.eqb k "domain" then Some (JStr "general")
               else None
           end).
Proof.
  split; [apply load_doc |].
  split; [apply loaded_complete |].
  intros d k. apply backfill_get.
Qed.

(** C8 with non-empty texts required fails: an entry whose user and assistant
    texts are empty strings is loaded as a record. *)
Lemma load_keeps_empty_text :
  let st := mkFs (Doc (JArr [JObj [("user", JStr ""); ("assistant", JStr "")]]))
                 Writable Absent Writable in
  let now := mkClock "2024-01-01T00:00:00" "2024-01-01" in
  Memory.load_conversation_history st now
  = [[("user", JStr ""); ("assistant", JStr "");
      ("timestamp", JStr "2024-01-01T00:00:00"); ("date", JStr "2024-01-01");
      ("domain", JStr "general")]]
  /\ ~ (forall conv,
           In conv (Memory.load_conversation_history st now) ->
           Spec.nonempty_text conv = true).
Proof.
  split; [reflexivity |].
  intros H. specialize (H _ (or_introl eq_refl)). discriminate.
Qed.

Section Saving.

(** What a successful [save_conversation] writes. *)
Lemma save_conversation_written (st : fs) (now : clock)
      (user_message bot_response domain : string) (st' : fs) :
  Memory.save_conversation st now user_message bot_response domain
  = (true, st') ->
  let history :=
    Memory.load_conversation_history st now
    ++ [Memory.new_conversation now user_message bot_response domain] in
  history_file st'
  = Doc (JArr (map JObj (if 100 <? Z.of_nat (List.length history)
                         then Memory.last_n 100 history else history))).
Proof.
  unfold Memory.save_conversation.
  destruct (PyStr.is_empty user_message || PyStr.is_empty bot_response)%bool;
    [discriminate |].
  destruct (history_access st); try discriminate.
  intros H. injection H as <-. reflexivity.
Qed.

Lemma capped_length {A : Type} (history : list A) :
  List.length (if 100 <? Z.of_nat (List.length history)
               then Memory.last_n 100 history else history)
  = Nat.min 100 (List.length history).
Proof.
  destruct (100 <? Z.of_nat (List.length history)) eqn:E.
  - rewrite last_n_length. reflexivity.
  - apply Z.ltb_ge in E. lia.
Qed.

Lemma capped_suffix {A : Type} (history : list A) :
  exists dropped,
    history
    = dropped ++ (if 100 <? Z.of_nat (List.length history)
                  then Memory.last_n 100 history else history).
Proof.
  destruct (100 <? Z.of_nat (List.length history)).
  - apply last_n_suffix.
  - exists []. reflexivity.
Qed.

Lemma capped_keeps_last {A : Type} (old : list A) (x : A) :
  exists earlier,
    (if 100 <? Z.of_nat (List.length (old ++ [x]))
     then Memory.last_n 100 (old ++ [x]) else old ++ [x])
    = earlier ++ [x].
Proof.
  destruct (100 <? Z.of_nat (List.length (old ++ [x]))).
  - unfold Memory.last_n. rewrite length_app.
    assert (Hk : (1 <= Z.to_nat 100)%nat) by lia.
    revert Hk. generalize (Z.to_nat 100). intros k Hk. cbn [List.length].
    exists (skipn (List.length old + 1 - k) old).
    rewrite skipn_app.
    replace (List.length old + 1 - k - List.length old)%nat
      with 0%nat by lia.
    reflexivity.
  - exists old. reflexivity.
Qed.

End Saving.

(** C5. After a successful [save_conversation] the persisted log holds the
    last [min(100, n + 1)] records of the loaded log followed by the new
    record, where [n] is the length of the loaded log: at most 100 records,
    the oldest dropped first, and exactly 100 once the loaded log had 100 or
    more. The log read back afterwards is that sequence. *)
Theorem save_conversation_cap (st : fs) (now : clock)
        (user_message bot_response domain : string) (st' : fs) :
  Memory.save_conversation st now user_message bot_response domain
  = (true, st') ->
  let old := Memory.load_conversation_history st now in
  let conversation :=
    Memory.new_conversation now user_message bot_response domain in
  exists dropped records,
    history_file st' = Doc (JArr (map JObj records))
    /\ old ++ [conversation] = dropped ++ records
    /\ List.length records = Nat.min 100 (List.length old + 1)
    /\ (List.length records <= 100)%nat
    /\ ((100 <= List.length old)%nat -> List.length records = 100%nat)
    /\ forall now', Memory.load_conversation_history st' now' = records.
Proof.
  intros H old conversation.
  pose proof (save_conversation_written _ _ _ _ _ _ H) as W.
  cbv zeta in W.
  pose (history := old ++ [conversation]).
  pose (records := if 100 <? Z.of_nat (List.length history)
                   then Memory.last_n 100 history else history).
  destruct (capped_suffix history) as (dropped & Hd).
  assert (Hlen : List.length records = Nat.min 100 (List.length old + 1)).
  { unfold records. rewrite capped_length. unfold history.
    rewrite length_app. reflexivity. }
  exists dropped, records.
  split; [exact W |]. split; [exact Hd |]. split; [exact Hlen |].
  split; [etransitivity; [apply Nat.eq_le_incl, Hlen | apply Nat.le_min_l] |].
  split; [intros Hold; etransitivity; [exact Hlen | apply Nat.min_l; lia] |].
  intros now'. rewrite load_doc, W. apply reload_complete.
  apply Forall_forall. intros conv Hc.
  assert (Hin : In conv history).
  { rewrite Hd. apply in_or_app. right. exact Hc. }
  unfold history in Hin. apply in_app_or in Hin.
  destruct Hin as [Hin | [<- | []]].
  - apply (loaded_complete st now), Hin.
  - apply new_conversation_complete.
Qed.

(** C6. [get_recent_conversations] returns [min(max(count, 1), len(log))]
    records and they are the end of the loaded log, in its order; a count of
    0 or less gives what a count of 1 gives, and a count of at least the
    length gives the whole log. *)
Theorem get_recent_conversations_tail (st : fs) (now : clock) (count : Z) :
  let log := Memory.load_conversation_history st now in
  let recent := Memory.get_recent_conversations st now count in
  List.length recent = Spec.clamp count (List.length log)
  /\ (exists earlier, log = earlier ++ recent)
  /\ (count <= 0 -> recent = Memory.get_recent_conversations st now 1)
  /\ (Z.of_nat (List.length log) <= count -> recent = log).
Proof.
  intros log recent. subst recent. unfold Memory.get_recent_conversations.
  fold log. unfold Spec.clamp.
  destruct log as [| conv log'] eqn:E.
  - simpl. repeat split; auto; [| exists []; reflexivity].
    destruct (Z.max count 1); reflexivity.
  - set (l := conv :: log') in *.
    assert (Hl : (1 <= List.length l)%nat) by (unfold l; simpl; lia).
    split; [rewrite last_n_length; lia |].
    split; [apply last_n_suffix |].
    split.
    + intros Hc. f_equal. lia.
    + intros Hc. unfold Memory.last_n.
      replace (List.length l
               - Z.to_nat (Z.max 1 (Z.min count (Z.of_nat (List.length l)))))%nat
        with 0%nat by lia.
      reflexivity.
Qed.

(** C9. After a successful [save_conversation] the last record of the
    persisted log has the stripped inputs as its user and assistant texts and
    the numbers of whitespace-separated words of the inputs as given as its
    two word counts. *)
Theorem save_conversation_record (st : fs) (now : clock)
        (user_message bot_response domain : string) (st' : fs) :
  Memory.save_conversation st now user_message bot_response domain
  = (true, st') ->
  exists earlier record,
    history_file st' = Doc (JArr (earlier ++ [JObj record]))
    /\ dict_get "user" record = Some (JStr (PyStr.strip user_message))
    /\ dict_get "assistant" record = Some (JStr (PyStr.strip bot_response))
    /\ dict_get "user_word_count" record
       = Some (JInt (Z.of_nat (List.length (PyStr.split user_message))))
    /\ dict_get "assistant_word_count" record
       = Some (JInt (Z.of_nat (List.length (PyStr.split bot_response)))).
Proof.
  intros H. pose proof (save_conversation_written _ _ _ _ _ _ H) as W.
  cbv zeta in W.
  destruct (capped_keeps_last
              (Memory.load_conversation_history st now)
              (Memory.new_conversation now user_message bot_response domain))
    as (earlier & He).
  exists (map JObj earlier),
    (Memory.new_conversation now user_message bot_response domain).
  split; [| repeat split].
  rewrite W.
  change (map JObj earlier
          ++ [JObj (Memory.new_conversation now user_message bot_response
                                            domain)])
    with (map JObj earlier
          ++ map JObj [Memory.new_conversation now user_message bot_response
                                               domain]).
  rewrite <- map_app.
  exact (f_equal (fun l => Doc (JArr (map JObj l))) He).
Qed.

(** A full log of 100 records: the append drops the oldest one. *)
Lemma save_conversation_cap_witness :
  let now := mkClock "2024-05-01T10:00:00" "2024-05-01" in
  let entry := JObj [("user", JStr "hello"); ("assistant", JStr "hi")] in
  let st := mkFs (Doc (JArr (repeat entry 100))) Writable Absent Writable in
  let st' :=
    snd (Memory.save_conversation st now "what movie should I watch"
                                  "Try a comedy" "entertainment") in
  exists records,
    history_file st' = Doc (JArr (map JObj records))
    /\ List.length records = 100%nat
    /\ Memory.load_conversation_history st' now = records.
Proof.
  intros now entry st st'.
  destruct (save_conversation_cap
              st now "what movie should I watch" "Try a comedy"
              "entertainment" st')
    as (dropped & records & W & _ & _ & _ & L & R).
  - vm_compute. reflexivity.
  - exists records. split; [exact W |]. split; [| apply R].
    apply L. apply Nat.leb_le. vm_compute. reflexivity.
Defined.

(** The stored texts are the stripped ones; the counts are those of the
    inputs. *)
Lemma save_conversation_record_witness :
  let now := mkClock "2024-05-01T10:00:00" "2024-05-01" in
  let st := mkFs Absent Writable Absent Writable in
  let st' :=
    snd (Memory.save_conversation st now "  family dinner plans "
                                  " Sounds nice " "family") in
  exists earlier record,
    history_file st' = Doc (JArr (earlier ++ [JObj record]))
    /\ dict_get "user" record = Some (JStr "family dinner plans")
    /\ dict_get "assistant" record = Some (JStr "Sounds nice")
    /\ dict_get "user_word_count" record = Some (JInt 3)
    /\ dict_get "assistant_word_count" record = Some (JInt 2).
Proof.
  intros now st st'.
  destruct (save_conversation_record
              st now "  family dinner plans " " Sounds nice " "family" st')
    as (earlier & record & W & U & A & UC & AC).
  - vm_compute. reflexivity.
  - exists earlier, record. repeat split; assumption.
Defined.

(** ** Statistics *)

Section Stats.

Lemma tally_incr_total (key : json) (tally : list (json * Z)) :
  Spec.tally_total (Memory.tally_incr key tally) = Spec.tally_total tally + 1.
Proof.
  unfold Spec.tally_total.
  induction tally as [| [k n] tally IH]; simpl.
  - reflexivity.
  - destruct (Memory.key_eqb key k); simpl; lia.
Qed.

Lemma stats_fold_raised (history : list dict) (e : string) :
  fold_left Memory.stats_step history (Raised e) = Raised e.
Proof. induction history; simpl; auto. Qed.

Lemma stats_step_returned (s s' : Memory.stats) (conv : dict) :
  Memory.stats_step (Returned s) conv = Returned s' ->
  Memory.total_conversations s' = Memory.total_conversations s
  /\ Spec.tally_total (Memory.domains s')
     = Spec.tally_total (Memory.domains s) + 1
  /\ Spec.tally_total (Memory.dates s')
     = Spec.tally_total (Memory.dates s) + 1.
Proof.
  unfold Memory.stats_step.
  destruct (Memory.default_word_count "user" conv); [| discriminate].
  destruct (Memory.default_word_count "assistant" conv); [| discriminate].
  destruct (Memory.as_int _); [| discriminate].
  destruct (Memory.as_int _); [| discriminate].
  destruct (negb (Memory.hashable _)); [discriminate |].
  destruct (negb (Memory.hashable _)); [discriminate |].
  intros H. injection H as <-. simpl.
  rewrite !tally_incr_total. auto.
Qed.

Lemma stats_fold_returned (history : list dict) :
  forall s s',
    fold_left Memory.stats_step history (Returned s) = Returned s' ->
    Memory.total_conversations s' = Memory.total_conversations s
    /\ Spec.tally_total (Memory.domains s')
       = Spec.tally_total (Memory.domains s) + Z.of_nat (List.length history)
    /\ Spec.tally_total (Memory.dates s')
       = Spec.tally_total (Memory.dates s) + Z.of_nat (List.length history).
Proof.
  induction history as [| conv history IH]; intros s s' H.
  - simpl in H. injection H as <-. simpl. repeat split; lia.
  - cbn [fold_left] in H.
    destruct (Memory.stats_step (Returned s) conv) as [s1 | e] eqn:E.
    + apply stats_step_returned in E. destruct E as (E1 & E2 & E3).
      apply IH in H. destruct H as (H1 & H2 & H3).
      cbn [List.length]. repeat split; lia.
    + rewrite stats_fold_raised in H. discriminate.
Qed.



End Stats.

(** C10. When [get_conversation_stats] returns, its total is the number of
    loaded records and is also the sum of the per-domain counts and the sum of
    the per-date counts. *)
Theorem get_conversation_stats_consistent (st : fs) (now : clock)
        (s : Memory.stats) :
  Memory.get_conversation_stats st now = Returned s ->
  Memory.total_conversations s
  = Z.of_nat (List.length (Memory.load_conversation_history st now))
  /\ Spec.tally_total (Memory.domains s) = Memory.total_conversations s
  /\ Spec.tally_total (Memory.dates s) = Memory.total_conversations s.
Proof.
  unfold Memory.get_conversation_stats.
  destruct (Memory.load_conversation_history st now) as [| conv log].
  - intros H. injection H as <-. repeat split.
  - intros H. apply stats_fold_returned in H. simpl in H.
    destruct H as (H1 & H2 & H3). rewrite H1, H2, H3. simpl. repeat split.
Qed.

(** Three records over two domains and two dates. *)
Lemma get_conversation_stats_consistent_witness :
  let now := mkClock "2024-05-02T09:00:00" "2024-05-02" in
  let st :=
    mkFs (Doc (JArr
            [JObj [("user", JStr "meeting about project deadline");
                   ("assistant", JStr "Noted"); ("domain", JStr "work");
                   ("date", JStr "2024-05-01")];
             JObj [("user", JStr "family dinner plans");
                   ("assistant", JStr "Sounds nice");
                   ("domain", JStr "family"); ("date", JStr "2024-05-01")];
             JArr [];
             JObj [("user", JStr "project status"); ("assistant", JStr "Fine");
                   ("domain", JStr "work")]]))
         Writable Absent Writable in
  Memory.get_conversation_stats st now
  = Returned
      (Memory.mkStats 3 13
         [(JStr "work", 2); (JStr "family", 1)]
         [(JStr "2024-05-01", 2); (JStr "2024-05-02", 1)])
  /\ Spec.tally_total [(JStr "work", 2); (JStr "family", 1)] = 3
  /\ Spec.tally_total [(JStr "2024-05-01", 2); (JStr "2024-05-02", 1)] = 3.
Proof.
  intros now st.
  assert (E : Memory.get_conversation_stats st now
              = Returned
                  (Memory.mkStats 3 13
                     [(JStr "work", 2); (JStr "family", 1)]
                     [(JStr "2024-05-01", 2); (JStr "2024-05-02", 1)]))
    by (vm_compute; reflexivity).
  split; [exact E |].
  destruct (get_conversation_stats_consistent st now _ E) as (_ & D & T).
  split; [exact D | exact T].
Defined.

(** ** The profile store *)

Lemma missing_field_found (fields : list string) (profile : dict)
      (field : string) :
  In field fields ->
  (forall v, dict_get field profile = Some v -> truthy v = false) ->
  Profiles.missing_field fields profile = true.
Proof.
  intros Hin Hbad. induction fields as [| f fields IH]; [contradiction |].
  simpl. destruct (dict_get f profile) as [v |] eqn:E; [| reflexivity].
  destruct (truthy v) eqn:T; [| reflexivity].
  destruct Hin as [-> | Hin].
  - rewrite (Hbad v E) in T. discriminate.
  - apply IH, Hin.
Qed.

(** C7. A profile record in which one of name, role and communication_style
    is missing or has an empty (false) value is refused: the call returns
    [False] and both files are as they were. *)
Theorem save_user_profile_rejects (st : fs) (profile : dict) (field : string) :
  In field Profiles.required_fields ->
  (forall v, dict_get field profile = Some v -> truthy v = false) ->
  Profiles.save_user_profile st (JObj profile) = (Returned false, st).
Proof.
  intros Hin Hbad. unfold Profiles.save_user_profile.
  destruct (negb (truthy (JObj profile))); [reflexivity |].
  rewrite (missing_field_found _ _ _ Hin Hbad). reflexivity.
Qed.

(** An empty role, with a profile already stored. *)
Lemma save_user_profile_rejects_witness :
  let stored :=
    JObj [("name", JStr "Ann"); ("role", JStr "Engineer");
          ("communication_style", JStr "casual")] in
  let st := mkFs Absent Writable (Doc stored) Writable in
  let profile :=
    [("name", JStr "Ann"); ("role", JStr "");
     ("communication_style", JStr "formal")] in
  Profiles.save_user_profile st (JObj profile) = (Returned false, st)
  /\ profile_file (snd (Profiles.save_user_profile st (JObj profile)))
     = Doc stored.
Proof.
  intros stored st profile.
  assert (E : Profiles.save_user_profile st (JObj profile)
              = (Returned false, st)).
  { apply (save_user_profile_rejects st profile "role").
    - simpl. auto.
    - intros v H. vm_compute in H. injection H as <-. reflexivity. }
  split; [exact E | rewrite E; reflexivity].
Defined.

(** ** Relevance retrieval *)

Section StableSort.

Context {A B : Type}.

Lemma insert_desc_map (f : A -> B) (key : B -> Q) (x : A) (l : list A) :
  Memory.insert_desc key (f x) (map f l)
  = map f (Memory.insert_desc (fun a => key (f a)) x l).
Proof.
  induction l as [| y l IH]; simpl; [reflexivity |].
  destruct (Qle_bool (key (f y)) (key (f x))); simpl; [reflexivity |].
  rewrite IH. reflexivity.
Qed.

Lemma sort_desc_map (f : A -> B) (key : B -> Q) (l : list A) :
  Memory.sort_desc key (map f l)
  = map f (Memory.sort_desc (fun a => key (f a)) l).
Proof.
  unfold Memory.sort_desc. induction l as [| x l IH]; simpl; [reflexivity |].
  rewrite IH. apply insert_desc_map.
Qed.

Lemma insert_desc_perm (key : A -> Q) (x : A) (l : list A) :
  Permutation (Memory.insert_desc key x l) (x :: l).
Proof.
  induction l as [| y l IH]; simpl; [reflexivity |].
  destruct (Qle_bool (key y) (key x)); [reflexivity |].
  rewrite IH. apply perm_swap.
Qed.

Lemma sort_desc_perm (key : A -> Q) (l : list A) :
  Permutation (Memory.sort_desc key l) l.
Proof.
  unfold Memory.sort_desc. induction l as [| x l IH]; simpl; [reflexivity |].
  rewrite insert_desc_perm. apply perm_skip, IH.
Qed.

End StableSort.

Section SortedByRank.

(** Sorting positions that come in increasing order by a key: the result is
    ordered by decreasing key and, for equal keys, by increasing position. *)
Variable key : nat -> Q.

Lemma insert_desc_sorted (x : nat) (l : list nat) :
  Forall (fun j => (x < j)%nat) l ->
  StronglySorted (Spec.before key) l ->
  StronglySorted (Spec.before key) (Memory.insert_desc key x l).
Proof.
  intros Hx Hs. induction Hs as [| y l Hs IH Hy]; simpl.
  - constructor; constructor.
  - inversion Hx as [| ? ? Hxy Hxl]; subst.
    destruct (Qle_bool (key y) (key x)) eqn:E.
    + apply Qle_bool_iff in E.
      assert (Bxy : Spec.before key x y).
      { apply Qle_lt_or_eq in E. destruct E as [E | E].
        - left. exact E.
        - right. split; [symmetry; exact E | exact Hxy]. }
      constructor; [constructor; assumption |].
      constructor; [exact Bxy |].
      rewrite Forall_forall in *. intros z Hz.
      specialize (Hy z Hz). specialize (Hxl z Hz).
      destruct Hy as [Hy | [Hy _]].
      * left. apply (Qlt_le_trans _ (key y)); assumption.
      * apply Qle_lt_or_eq in E. destruct E as [E | E].
        -- left. rewrite <- Hy. exact E.
        -- right. split; [rewrite <- E; exact Hy | exact Hxl].
    + assert (L : (key x < key y)%Q).
      { apply Qnot_le_lt. intros H. apply Qle_bool_iff in H. congruence. }
      constructor; [apply IH, Hxl |].
      rewrite Forall_forall in *. intros z Hz.
      apply (Permutation_in _ (insert_desc_perm key x l)) in Hz.
      destruct Hz as [<- | Hz]; [left; exact L | apply Hy, Hz].
Qed.

Lemma sort_desc_sorted (l : list nat) :
  StronglySorted lt l -> StronglySorted (Spec.before key) (Memory.sort_desc key l).
Proof.
  unfold Memory.sort_desc.
  induction 1 as [| x l Hs IH Hx]; simpl; [constructor |].
  apply insert_desc_sorted; [| exact IH].
  rewrite Forall_forall in *. intros j Hj. apply Hx.
  apply (Permutation_in _ (sort_desc_perm key l)), Hj.
Qed.

End SortedByRank.

Section Positions.

Context {A B : Type}.

Lemma seq_sorted (n : nat) : forall a, StronglySorted lt (seq a n).
Proof.
  induction n as [| n IH]; intros a; simpl; constructor; [apply IH |].
  apply Forall_forall. intros j Hj. apply in_seq in Hj. lia.
Qed.

Lemma filter_sorted (R : nat -> nat -> Prop) (p : nat -> bool) (l : list nat) :
  StronglySorted R l -> StronglySorted R (filter p l).
Proof.
  induction 1 as [| x l Hs IH Hx]; simpl; [constructor |].
  destruct (p x); [| exact IH].
  constructor; [exact IH |].
  rewrite Forall_forall in *. intros j Hj. apply filter_In in Hj.
  apply Hx, Hj.
Qed.

(** Filtering and mapping a list through its positions. *)
Lemma map_filter_positions (g : A -> B) (p : A -> bool) (d : A) (l : list A) :
  forall pre,
    map g (filter p l)
    = map (fun i => g (nth i (pre ++ l) d))
          (filter (fun i => p (nth i (pre ++ l) d))
                  (seq (List.length pre) (List.length l))).
Proof.
  induction l as [| x l IH]; intros pre; [reflexivity |].
  cbn [List.length seq filter]. rewrite nth_middle.
  specialize (IH (pre ++ [x])). rewrite <- app_assoc in IH. simpl in IH.
  rewrite length_app in IH. simpl in IH.
  rewrite Nat.add_1_r in IH.
  destruct (p x); cbn [map]; rewrite ?nth_middle, IH; reflexivity.
Qed.

End Positions.

Section RelevanceLoop.

Variable py_str : json -> string.

Lemma count_matches_fold (cleaned : string) (words : list string) :
  forall acc,
    fold_left
      (fun matches word =>
         if PyStr.contains word cleaned then matches + 1 else matches)
      words acc
    = acc + Z.of_nat
              (List.length
                 (filter (fun word => PyStr.contains word cleaned) words)).
Proof.
  induction words as [| word words IH]; intros acc; simpl; [lia |].
  rewrite IH. destruct (PyStr.contains word cleaned); simpl; lia.
Qed.

Lemma count_matches_matched (words : list string) (conv : dict) :
  Memory.count_matches words (Memory.conv_cleaned py_str conv)
  = Z.of_nat (Spec.matched py_str words conv).
Proof. unfold Memory.count_matches. apply count_matches_fold. Qed.

Lemma relevant_step_matched (words : list string)
      (relevant : list (dict * Q)) (conv : dict) :
  Memory.relevant_step py_str words relevant conv
  = if Nat.ltb 0 (Spec.matched py_str words conv)
    then relevant ++ [(conv, Spec.score py_str words conv)]
    else relevant.
Proof.
  unfold Memory.relevant_step, Spec.score. rewrite count_matches_matched.
  destruct (Spec.matched py_str words conv); reflexivity.
Qed.

Lemma relevant_loop_filter (words : list string) (history : list dict) :
  Memory.relevant_loop py_str words history
  = map (fun conv => (conv, Spec.score py_str words conv))
        (filter (fun conv => Nat.ltb 0 (Spec.matched py_str words conv))
                history).
Proof.
  unfold Memory.relevant_loop.
  change (map (fun conv => (conv, Spec.score py_str words conv))
              (filter (fun conv => Nat.ltb 0 (Spec.matched py_str words conv))
                      history))
    with ([] ++ map (fun conv => (conv, Spec.score py_str words conv))
                    (filter
                       (fun conv =>
                          Nat.ltb 0 (Spec.matched py_str words conv))
                       history)).
  generalize (@nil (dict * Q)).
  induction history as [| conv history IH]; intros acc; simpl.
  - rewrite app_nil_r. reflexivity.
  - rewrite IH, relevant_step_matched.
    destruct (Nat.ltb 0 (Spec.matched py_str words conv)); simpl.
    + rewrite <- app_assoc. reflexivity.
    + reflexivity.
Qed.

Lemma relevant_loop_positions (words : list string) (history : list dict) :
  Memory.relevant_loop py_str words history
  = map (fun i => (Spec.record history i,
                   Spec.score py_str words (Spec.record history i)))
        (Spec.matching py_str words history).
Proof.
  rewrite relevant_loop_filter.
  apply (map_filter_positions
           (fun conv => (conv, Spec.score py_str words conv))
           (fun conv => Nat.ltb 0 (Spec.matched py_str words conv))
           [] history []).
Qed.

Lemma query_words_long (query : string) :
  Forall (fun word => (2 < String.length word)%nat)
         (Memory.query_words query).
Proof.
  unfold Memory.query_words. apply Forall_forall. intros word H.
  apply filter_In in H. destruct H as [_ H]. unfold PyStr.len in H.
  apply Z.ltb_lt in H. lia.
Qed.

Lemma score_positive (words : list string) (conv : dict) :
  (0 < Spec.matched py_str words conv)%nat ->
  (0 < Spec.score py_str words conv)%Q.
Proof.
  intros H. unfold Spec.score, Memory.relevance_score.
  assert (Hw : (0 < List.length words)%nat).
  { unfold Spec.matched in H.
    pose proof (filter_length_le (Spec.occurs py_str conv) words). lia. }
  apply Qlt_shift_div_l.
  - unfold Qlt. simpl. lia.
  - rewrite Qmult_0_l. unfold Qlt. simpl. lia.
Qed.

(** Without repeated tokens the count is the number of distinct tokens. *)
Lemma matched_distinct (words : list string) (conv : dict) :
  NoDup words ->
  Spec.matched py_str words conv = Spec.distinct_matched py_str words conv.
Proof.
  intros H. unfold Spec.matched, Spec.distinct_matched.
  rewrite (nodup_fixed_point string_dec H). reflexivity.
Qed.

(** What [find_relevant_conversations] computes once the guards are passed. *)
Lemma find_relevant_conversations_unfold (st : fs) (now : clock)
      (query : string) (max_results : Z) :
  let history := Memory.load_conversation_history st now in
  let words := Memory.query_words query in
  let relevant :=
    Memory.sort_desc snd (Memory.relevant_loop py_str words history) in
  Memory.find_relevant_conversations py_str st now query max_results
  = if (match history with [] => true | _ => false end
        || PyStr.is_empty query
        || match words with [] => true | _ => false end)%bool
    then []
    else map fst
             (Memory.first_n
                (Z.max 1 (Z.min max_results (Z.of_nat (List.length relevant))))
                relevant).
Proof.
  intros history words relevant.
  unfold Memory.find_relevant_conversations. fold history.
  destruct history; [reflexivity |]. simpl.
  destruct (PyStr.is_empty query); [reflexivity |]. simpl.
  fold words. destruct words; reflexivity.
Qed.

End RelevanceLoop.

Lemma first_n_In {A : Type} (n : Z) (l : list A) (x : A) :
  In x (Memory.first_n n l) -> In x l.
Proof.
  unfold Memory.first_n. intros H.
  rewrite <- (firstn_skipn (Z.to_nat n) l). apply in_or_app. auto.
Qed.

(** C1. The query tokens all have more than two characters. A
    record's match count is the number of query tokens, a token the query
    repeats being counted once for each of its occurrences in the query, that
    occur as substrings of the record's normalized text, however often they
    occur there; its score is that count over the number of query tokens. The
    scored list holds, in log order, exactly the records whose count is
    positive, so every returned record has a positive score. For a query
    without repeated tokens the count is the number of distinct tokens that
    occur. *)
Theorem relevance_scoring (py_str : json -> string) (st : fs) (now : clock)
        (query : string) (max_results : Z) :
  let history := Memory.load_conversation_history st now in
  let words := Memory.query_words query in
  Forall (fun word => (2 < String.length word)%nat) words
  /\ (forall conv,
         Memory.count_matches words (Memory.conv_cleaned py_str conv)
         = Z.of_nat
             (List.length
                (filter
                   (fun word =>
                      PyStr.contains word (Memory.conv_cleaned py_str conv))
                   words)))
  /\ Memory.relevant_loop py_str words history
     = map (fun conv =>
              (conv,
               (inject_Z (Z.of_nat (Spec.matched py_str words conv))
                / inject_Z (Z.of_nat (List.length words)))%Q))
           (filter (fun conv => Nat.ltb 0 (Spec.matched py_str words conv))
                   history)
  /\ (NoDup words ->
      forall conv,
        Spec.matched py_str words conv
        = Spec.distinct_matched py_str words conv)
  /\ (forall conv,
         In conv (Memory.find_relevant_conversations py_str st now query
                                                     max_results) ->
         In conv history
         /\ (0 < Spec.matched py_str words conv)%nat
         /\ (0 < Spec.score py_str words conv)%Q).
Proof.
  intros history words.
  split; [apply query_words_long |].
  split; [intros conv; apply count_matches_matched |].
  split; [apply relevant_loop_filter |].
  split; [intros H conv; apply matched_distinct, H |].
  intros conv H.
  rewrite find_relevant_conversations_unfold in H. cbv zeta in H.
  fold history words in H.
  destruct (_ || _ || _)%bool; [contradiction |].
  apply in_map_iff in H. destruct H as ([conv' s] & E & H).
  simpl in E. subst conv'.
  apply first_n_In in H.
  apply (Permutation_in _ (sort_desc_perm snd _)) in H.
  rewrite relevant_loop_filter in H. apply in_map_iff in H.
  destruct H as (conv' & E & H). injection E as -> _.
  apply filter_In in H. destruct H as [Hin Hm]. apply Nat.ltb_lt in Hm.
  split; [exact Hin |]. split; [exact Hm |].
  apply score_positive, Hm.
Qed.

(** C1 with the count of distinct tokens fails on a query that repeats a
    token: the record is scored 2/2 where the distinct count gives 1/2. The
    difference shows in the result: for the query "cat cat dog" the later
    record about the cat is returned before the earlier one about the dog,
    which the distinct count scores the same. *)
Lemma repeated_token_counted_twice :
  let py_str := fun _ : json => "" in
  let now := mkClock "2024-05-01T10:00:00" "2024-05-01" in
  let dog := [("user", JStr "walk the dog"); ("assistant", JStr "ok")] in
  let cat := [("user", JStr "feed the cat"); ("assistant", JStr "ok")] in
  let st := mkFs (Doc (JArr [JObj dog; JObj cat])) Writable Absent Writable in
  Memory.query_words "cat cat" = ["cat"; "cat"]
  /\ (exists s,
         Memory.relevant_loop py_str (Memory.query_words "cat cat") [cat]
         = [(cat, s)]
         /\ (s == 1)%Q
         /\ (Spec.distinct_score py_str (Memory.query_words "cat cat") cat
             == 1 # 2)%Q
         /\ ~ (s == Spec.distinct_score py_str (Memory.query_words "cat cat")
                                        cat)%Q)
  /\ map (dict_get "user")
         (Memory.find_relevant_conversations py_str st now "cat cat dog" 1)
     = [Some (JStr "feed the cat")]
  /\ (Spec.distinct_score py_str (Memory.query_words "cat cat dog") dog
      == Spec.distinct_score py_str (Memory.query_words "cat cat dog") cat)%Q.
Proof.
  intros py_str now dog cat st.
  split; [reflexivity |].
  split.
  - eexists. split; [vm_compute; reflexivity |].
    repeat split; try (vm_compute; reflexivity).
    vm_compute. discriminate.
  - split; vm_compute; reflexivity.
Qed.

Section Ranked.

Variable py_str : json -> string.

Lemma matching_sorted (words : list string) (history : list dict) :
  StronglySorted lt (Spec.matching py_str words history).
Proof. apply filter_sorted, seq_sorted. Qed.

(** A matching position means a non-empty log and a query with tokens. *)
Lemma matching_guards (words : list string) (history : list dict) :
  Spec.matching py_str words history <> [] ->
  history <> [] /\ words <> [].
Proof.
  intros H. destruct (Spec.matching py_str words history) as [| i l] eqn:E;
    [congruence |].
  assert (Hi : In i (Spec.matching py_str words history))
    by (rewrite E; left; reflexivity).
  apply filter_In in Hi. destruct Hi as [Hs Hm].
  apply in_seq in Hs. apply Nat.ltb_lt in Hm. split.
  - intros ->. simpl in Hs. lia.
  - intros ->. unfold Spec.matched in Hm. simpl in Hm. lia.
Qed.

End Ranked.

Lemma find_relevant_conversations_passed (py_str : json -> string)
      (st : fs) (now : clock) (query : string) (max_results : Z) :
  Memory.load_conversation_history st now <> [] ->
  Memory.query_words query <> [] ->
  Memory.find_relevant_conversations py_str st now query max_results
  = map fst
        (Memory.first_n
           (Z.max 1
              (Z.min max_results
                 (Z.of_nat
                    (List.length
                       (Memory.sort_desc
                          snd
                          (Memory.relevant_loop
                             py_str (Memory.query_words query)
                             (Memory.load_conversation_history st now)))))))
           (Memory.sort_desc
              snd
              (Memory.relevant_loop
                 py_str (Memory.query_words query)
                 (Memory.load_conversation_history st now)))).
Proof.
  intros Hh Hw. unfold Memory.find_relevant_conversations.
  destruct (Memory.load_conversation_history st now); [congruence |].
  destruct query; [exfalso; apply Hw; reflexivity |].
  cbn [PyStr.is_empty].
  destruct (Memory.query_words _); [congruence | reflexivity].
Qed.

(** C2. When some record matches, the result lists the records at the first
    [clamp(max_results, 1, matchCount)] positions of the ranking of the
    matching positions, where the ranking puts a position before another when
    its score is higher, or the scores are equal and it was appended earlier;
    only the records are returned. *)
Theorem find_relevant_conversations_ranked (py_str : json -> string)
        (st : fs) (now : clock) (query : string) (max_results : Z) :
  let history := Memory.load_conversation_history st now in
  let words := Memory.query_words query in
  let matching := Spec.matching py_str words history in
  matching <> [] ->
  exists ranked,
    Permutation ranked matching
    /\ StronglySorted (Spec.precedes py_str words history) ranked
    /\ Memory.find_relevant_conversations py_str st now query max_results
       = map (Spec.record history)
             (firstn (Spec.clamp max_results (List.length matching)) ranked).
Proof.
  intros history words matching Hm.
  destruct (matching_guards py_str words history Hm) as [Hh Hw].
  assert (Hl : (1 <= List.length matching)%nat).
  { destruct matching; [congruence | simpl; lia]. }
  subst history words matching.
  set (history := Memory.load_conversation_history st now) in *.
  set (words := Memory.query_words query) in *.
  set (matching := Spec.matching py_str words history) in *.
  set (key := fun i => Spec.score py_str words (Spec.record history i)).
  exists (Memory.sort_desc key matching).
  split; [apply sort_desc_perm |].
  split; [apply (sort_desc_sorted key), matching_sorted |].
  rewrite (find_relevant_conversations_passed py_str st now query
                                                max_results Hh Hw).
  fold history words.
  rewrite relevant_loop_positions. fold matching.
  rewrite (sort_desc_map
             (fun i => (Spec.record history i,
                        Spec.score py_str words (Spec.record history i)))
             snd).
  cbn [snd]. fold key.
  unfold Memory.first_n. rewrite firstn_map, map_map. cbn [fst].
  rewrite length_map, (Permutation_length (sort_desc_perm key matching)).
  f_equal. f_equal. unfold Spec.clamp. lia.
Qed.

(** Four records, three of which match the query to different degrees. *)
Lemma find_relevant_conversations_ranked_witness :
  let py_str := fun _ : json => "" in
  let now := mkClock "2024-05-01T10:00:00" "2024-05-01" in
  let a := [("user", JStr "meeting about project deadline");
            ("assistant", JStr "Noted.")] in
  let b := [("user", JStr "family dinner plans");
            ("assistant", JStr "Sounds nice!")] in
  let c := [("user", JStr "what movie should I watch");
            ("assistant", JStr "A comedy?")] in
  let d := [("user", JStr "Project dinner after the meeting");
            ("assistant", JStr "Booked.")] in
  let st :=
    mkFs (Doc (JArr [JObj a; JObj b; JObj c; JObj d]))
         Writable Absent Writable in
  let history := Memory.load_conversation_history st now in
  exists ranked,
    Permutation ranked [0; 1; 3]%nat
    /\ Memory.find_relevant_conversations py_str st now
                                          "project, meeting & dinner?" 2
       = map (Spec.record history) (firstn 2 ranked)
    /\ map (dict_get "user")
           (Memory.find_relevant_conversations py_str st now
                                               "project, meeting & dinner?" 2)
       = [Some (JStr "Project dinner after the meeting");
          Some (JStr "meeting about project deadline")].
Proof.
  intros py_str now a b c d st history.
  destruct (find_relevant_conversations_ranked
              py_str st now "project, meeting & dinner?" 2)
    as (ranked & P & _ & E).
  - vm_compute. discriminate.
  - exists ranked. split; [exact P |]. split; [exact E |].
    vm_compute. reflexivity.
Defined.

(** ** Scenarios

    The embedding run on the inputs of the repository's own checks
    ([test_system.py]) and on a few others. *)

Example split_runs :
  PyStr.split "  meeting   about
 project " = ["meeting"; "about"; "project"].
Proof. reflexivity. Qed.

Example strip_both_ends : PyStr.strip "  family dinner  " = "family dinner".
Proof. reflexivity. Qed.

Example query_words_normalized :
  Memory.query_words "Is the PROJECT-meeting on?" = ["the"; "projectmeeting"].
Proof. reflexivity. Qed.

Example classify_meeting :
  Memory.classify_message_domain "I have a meeting tomorrow" = "work".
Proof. vm_compute. reflexivity. Qed.

(** A whole word outweighs a substring: "workout" holds "work". *)
Example classify_workout :
  Memory.domain_scores "my workout"
  = [("work", 0.7%float); ("family", 0%float); ("entertainment", 0%float);
     ("health", 1.0%float); ("learning", 0%float); ("finance", 0%float)]
  /\ Memory.classify_message_domain "My workout" = "health".
Proof. split; vm_compute; reflexivity. Qed.

Example classify_tie_first :
  Memory.classify_message_domain "family business" = "work".
Proof. vm_compute. reflexivity. Qed.

Example classify_nothing :
  Memory.classify_message_domain "hello there" = "general".
Proof. vm_compute. reflexivity. Qed.

(** The scores are binary64 sums: ten substring matches add up to more than
    seven whole words, so the later domain wins here. *)
Example classify_binary64_sum :
  let message :=
    "work job meeting deadline project career office familyx kidsx childrenx spousex parentx homex dinnerx birthdayx vacationx husbandx" in
  Memory.domain_scores message
  = [("work", 7%float); ("family", 7.000000000000001%float);
     ("entertainment", 0%float); ("health", 0%float); ("learning", 0%float);
     ("finance", 0%float)]
  /\ Memory.classify_message_domain message = "family".
Proof. split; vm_compute; reflexivity. Qed.

(** [test_memory_system]: the saved exchange is the last record loaded. *)
Example save_then_load :
  let now := mkClock "2024-05-01T10:00:00" "2024-05-01" in
  let st := mkFs Absent Writable Absent Writable in
  let saved :=
    Memory.save_conversation st now "Hello, I need help with work tasks"
                             "I'd be happy to help you with work tasks!"
                             "work" in
  fst saved = true
  /\ Memory.load_conversation_history (snd saved) now
     = [[("user", JStr "Hello, I need help with work tasks");
         ("assistant", JStr "I'd be happy to help you with work tasks!");
         ("domain", JStr "work");
         ("timestamp", JStr "2024-05-01T10:00:00");
         ("date", JStr "2024-05-01");
         ("user_word_count", JInt 7);
         ("assistant_word_count", JInt 9)]].
Proof. split; vm_compute; reflexivity. Qed.

(** Three appended exchanges, then the two queries. *)
Example three_exchanges :
  let now := mkClock "2024-05-01T10:00:00" "2024-05-01" in
  let st0 := mkFs Absent Writable Absent Writable in
  let st1 :=
    snd (Memory.save_conversation st0 now "meeting about project deadline"
                                  "Noted" "work") in
  let st2 :=
    snd (Memory.save_conversation st1 now "family dinner plans" "Nice"
                                  "family") in
  let st3 :=
    snd (Memory.save_conversation st2 now "what movie should I watch"
                                  "A comedy" "entertainment") in
  map (dict_get "user")
      (Memory.find_relevant_conversations (fun _ => "") st3 now
                                          "project meeting" 2)
  = [Some (JStr "meeting about project deadline")]
  /\ map (dict_get "user") (Memory.get_recent_conversations st3 now 2)
     = [Some (JStr "family dinner plans");
        Some (JStr "what movie should I watch")]
  /\ map (dict_get "user") (Memory.get_recent_conversations st3 now 0)
     = [Some (JStr "what movie should I watch")].
Proof. repeat split; vm_compute; reflexivity. Qed.

(** A text of blanks passes the emptiness guard and is stored stripped. *)
Example save_blank_text :
  let now := mkClock "2024-05-01T10:00:00" "2024-05-01" in
  let st := mkFs Absent Writable Absent Writable in
  let saved := Memory.save_conversation st now "   " "ok" "general" in
  fst saved = true
  /\ map (dict_get "user") (Memory.load_conversation_history (snd saved) now)
     = [Some (JStr "")].
Proof. split; vm_compute; reflexivity. Qed.

(** Entries that are not records are dropped, the others are completed. *)
Example load_partial_document :
  let now := mkClock "2024-05-01T10:00:00" "2024-05-01" in
  let st :=
    mkFs (Doc (JArr [JStr "noise";
                     JObj [("user", JStr "hi")];
                     JObj [("user", JStr "hi"); ("assistant", JStr "hello");
                           ("date", JStr "2023-12-31")];
                     JInt 4]))
         Writable Absent Writable in
  Memory.load_conversation_history st now
  = [[("user", JStr "hi"); ("assistant", JStr "hello");
      ("date", JStr "2023-12-31");
      ("timestamp", JStr "2024-05-01T10:00:00");
      ("domain", JStr "general")]]
  /\ Memory.load_conversation_history
       (mkFs (Doc (JObj [])) Writable Absent Writable) now = []
  /\ Memory.load_conversation_history
       (mkFs Corrupt Writable Absent Writable) now = [].
Proof. repeat split. Qed.

(** A record whose text is not a string passes the loader and makes the
    statistics raise. *)
Example stats_raise :
  let now := mkClock "2024-05-01T10:00:00" "2024-05-01" in
  let st :=
    mkFs (Doc (JArr [JObj [("user", JInt 5); ("assistant", JStr "hello")]]))
         Writable Absent Writable in
  Memory.get_conversation_stats st now = Raised "AttributeError".
Proof. reflexivity. Qed.

Example save_profile_outcomes :
  let profile :=
    JObj [("name", JStr "Ann"); ("role", JStr "Engineer");
          ("communication_style", JStr "casual")] in
  Profiles.save_user_profile (mkFs Absent Writable Absent Writable) profile
  = (Returned true, mkFs Absent Writable (Doc profile) Writable)
  /\ fst (Profiles.save_user_profile
            (mkFs Absent Writable Absent PermissionDenied) profile)
     = Returned false
  /\ fst (Profiles.save_user_profile
            (mkFs Absent Writable Absent Writable) (JObj []))
     = Returned false.
Proof. repeat split. Qed.

(** A write that breaks off after the history file was opened: the save
    returns [False] and the record that was in the log is lost. *)
Example save_breaks_off :
  let now := mkClock "2024-05-01T10:00:00" "2024-05-01" in
  let st :=
    mkFs (Doc (JArr [JObj [("user", JStr "hi"); ("assistant", JStr "hello")]]))
         DumpFails Absent Writable in
  let saved := Memory.save_conversation st now "plan my day" "Sure" "general" in
  List.length (Memory.load_conversation_history st now) = 1%nat
  /\ fst saved = false
  /\ history_file (snd saved) = Corrupt
  /\ Memory.load_conversation_history (snd saved) now = [].
Proof. repeat split. Qed.

(** The same for the profile: the call raises and the stored profile is
    lost. *)
Example save_profile_breaks_off :
  let stored := [("name", JStr "Ann")] in
  let profile :=
    JObj [("name", JStr "Ann"); ("role", JStr "Engineer");
          ("communication_style", JStr "casual")] in
  let st := mkFs Absent Writable (Doc (JObj stored)) DumpFails in
  Profiles.load_user_profile st = Some stored
  /\ fst (Profiles.save_user_profile st profile) = Raised "AttributeError"
  /\ Profiles.load_user_profile (snd (Profiles.save_user_profile st profile))
     = None.
Proof. repeat split. Qed.

(** * Further properties *)

(** ** Saving and reading back *)

Section SaveOutcome.

Lemma is_empty_false (s : string) : PyStr.is_empty s = false <-> s <> "".
Proof. destruct s; simpl; split; congruence. Qed.

(** A save that passes the guards writes the capped log. *)
Lemma save_conversation_passed (st : fs) (now : clock)
      (u b domain : string) :
  u <> "" -> b <> "" -> history_access st = Writable ->
  Memory.save_conversation st now u b domain
  = (true,
     mkFs (Doc (JArr (map JObj
                          (Spec.cap
                             (Memory.load_conversation_history st now
                              ++ [Memory.new_conversation now u b domain])))))
          (history_access st) (profile_file st) (profile_access st)).
Proof.
  intros Hu Hb Hw. unfold Memory.save_conversation, Spec.cap.
  apply is_empty_false in Hu. apply is_empty_false in Hb.
  rewrite Hu, Hb, Hw. reflexivity.
Qed.

(** A save returns [True] only for non-empty texts whose write went
    through. *)
Lemma save_conversation_true (st : fs) (now : clock) (u b domain : string) :
  fst (Memory.save_conversation st now u b domain) = true ->
  u <> "" /\ b <> "" /\ history_access st = Writable.
Proof.
  unfold Memory.save_conversation.
  destruct (PyStr.is_empty u) eqn:Eu; [discriminate |].
  destruct (PyStr.is_empty b) eqn:Eb; [discriminate |].
  cbn [orb]. apply is_empty_false in Eu. apply is_empty_false in Eb.
  destruct (history_access st); try discriminate. auto.
Qed.

Lemma cap_complete (st : fs) (now : clock) (conversation : dict) :
  Spec.complete conversation ->
  Forall Spec.complete
         (Spec.cap (Memory.load_conversation_history st now ++ [conversation])).
Proof.
  intros Hc. apply Forall_forall. intros conv Hin.
  destruct (capped_suffix
              (Memory.load_conversation_history st now ++ [conversation]))
    as (dropped & Hd).
  assert (H : In conv (Memory.load_conversation_history st now
                       ++ [conversation])).
  { rewrite Hd. apply in_or_app. right. exact Hin. }
  apply in_app_or in H. destruct H as [H | [<- | []]].
  - apply (loaded_complete st now), H.
  - exact Hc.
Qed.

(** The log read after such a save, at any later time. *)
Lemma load_after_save (st : fs) (now now' : clock) (u b domain : string) :
  u <> "" -> b <> "" -> history_access st = Writable ->
  Memory.load_conversation_history
    (snd (Memory.save_conversation st now u b domain)) now'
  = Spec.cap (Memory.load_conversation_history st now
              ++ [Memory.new_conversation now u b domain]).
Proof.
  intros Hu Hb Hw. rewrite (save_conversation_passed _ _ _ _ _ Hu Hb Hw).
  rewrite load_doc. cbn [snd history_file].
  apply reload_complete, cap_complete, new_conversation_complete.
Qed.

Lemma get_recent_conversations_last_n (st : fs) (now : clock) (count : Z) :
  Memory.get_recent_conversations st now count
  = Memory.last_n
      (Z.max 1 (Z.min count
                      (Z.of_nat
                         (List.length
                            (Memory.load_conversation_history st now)))))
      (Memory.load_conversation_history st now).
Proof.
  unfold Memory.get_recent_conversations.
  destruct (Memory.load_conversation_history st now); [| reflexivity].
  unfold Memory.last_n. rewrite skipn_nil. reflexivity.
Qed.

End SaveOutcome.

(** X1. [save_conversation] returns [True] only for two non-empty texts;
    with an empty text it returns [False] before any file is read or
    written. A save that returns [False] has either left the files as they
    were or, when the write broke off after the history file had been opened,
    left a file that loads as the empty log: the records it held are lost.
    The profile file is never touched. *)
Theorem save_conversation_outcome (st : fs) (now : clock)
        (u b domain : string) :
  let result := Memory.save_conversation st now u b domain in
  (fst result = true -> u <> "" /\ b <> "")
  /\ (u = "" \/ b = "" -> result = (false, st))
  /\ (fst result = false ->
      snd result = st
      \/ forall now', Memory.load_conversation_history (snd result) now' = [])
  /\ profile_file (snd result) = profile_file st.
Proof.
  unfold Memory.save_conversation.
  destruct u as [| c u]; [| destruct b as [| c' b]];
    cbn [PyStr.is_empty orb negb fst snd];
    [ | | destruct (history_access st) eqn:E;
          cbn [fst snd history_access profile_file profile_access] ];
    repeat split; intros; try discriminate; try reflexivity;
    try (left; reflexivity); try (right; intros; reflexivity);
    try (exfalso; intuition congruence).
Qed.

(** X2. After a successful save the most recent record is the saved one:
    whatever the count and the time of the call,
    [get_recent_conversations] ends with it, and a count of 1 returns it
    alone. *)
Theorem saved_record_is_most_recent (st : fs) (now : clock)
        (u b domain : string) (st' : fs) :
  Memory.save_conversation st now u b domain = (true, st') ->
  forall (now' : clock) (count : Z),
    (exists earlier,
        Memory.get_recent_conversations st' now' count
        = earlier ++ [Memory.new_conversation now u b domain])
    /\ Memory.get_recent_conversations st' now' 1
       = [Memory.new_conversation now u b domain].
Proof.
  intros H now' count.
  assert (G : fst (Memory.save_conversation st now u b domain) = true)
    by (rewrite H; reflexivity).
  unfold Memory.save_conversation in G.
  destruct (PyStr.is_empty u) eqn:Eu; [discriminate |].
  destruct (PyStr.is_empty b) eqn:Eb; [discriminate |].
  cbn [orb] in G.
  destruct (history_access st) eqn:Ew; try discriminate.
  apply is_empty_false in Eu. apply is_empty_false in Eb.
  pose proof (load_after_save st now now' u b domain Eu Eb Ew) as L.
  rewrite H in L. cbn [snd] in L.
  destruct (capped_keeps_last
              (Memory.load_conversation_history st now)
              (Memory.new_conversation now u b domain)) as (older & Ho).
  assert (L' : Memory.load_conversation_history st' now'
               = older ++ [Memory.new_conversation now u b domain]).
  { rewrite L. exact Ho. }
  clear L Ho. rewrite !get_recent_conversations_last_n, L'.
  set (new := Memory.new_conversation now u b domain).
  unfold Memory.last_n. rewrite length_app. cbn [List.length]. split.
  - set (k := Z.to_nat
                (Z.max 1 (Z.min count (Z.of_nat (List.length older + 1))))).
    assert (Hk : (1 <= k)%nat) by (unfold k; lia).
    exists (skipn (List.length older + 1 - k) older).
    rewrite skipn_app.
    replace (List.length older + 1 - k - List.length older)%nat
      with 0%nat by lia.
    reflexivity.
  - replace (List.length older + 1
             - Z.to_nat
                 (Z.max 1 (Z.min 1 (Z.of_nat (List.length older + 1)))))%nat
      with (List.length older) by lia.
    rewrite skipn_app, skipn_all, Nat.sub_diag. reflexivity.
Qed.

(** The exchange saved into a log of one record. *)
Lemma saved_record_is_most_recent_witness :
  let now := mkClock "2024-05-01T10:00:00" "2024-05-01" in
  let later := mkClock "2024-05-03T08:00:00" "2024-05-03" in
  let st :=
    mkFs (Doc (JArr [JObj [("user", JStr "hi"); ("assistant", JStr "hello")]]))
         Writable Absent Writable in
  let st' := snd (Memory.save_conversation st now " budget plan " "Sure"
                                           "finance") in
  Memory.get_recent_conversations st' later 1
  = [Memory.new_conversation now " budget plan " "Sure" "finance"].
Proof.
  intros now later st st'.
  apply (saved_record_is_most_recent st now " budget plan " "Sure" "finance"
                                     st' eq_refl later 1).
Defined.

(** ** A run of saves *)

Section Runs.

Lemma cap_last_n (history : list dict) :
  Spec.cap history = Memory.last_n 100 history.
Proof.
  unfold Spec.cap, Memory.last_n.
  destruct (100 <? Z.of_nat (List.length history)) eqn:E; [reflexivity |].
  apply Z.ltb_ge in E.
  replace (List.length history - Z.to_nat 100)%nat with 0%nat by lia.
  reflexivity.
Qed.

Lemma last_n_app_skip {A : Type} (n : Z) (dropped l : list A) :
  (Z.to_nat n <= List.length l)%nat ->
  Memory.last_n n (dropped ++ l) = Memory.last_n n l.
Proof.
  intros H. unfold Memory.last_n. rewrite length_app, skipn_app.
  replace (List.length dropped + List.length l - Z.to_nat n)%nat
    with (List.length dropped + (List.length l - Z.to_nat n))%nat by lia.
  rewrite skipn_all2 by lia.
  replace (List.length dropped + (List.length l - Z.to_nat n)
           - List.length dropped)%nat
    with (List.length l - Z.to_nat n)%nat by lia.
  reflexivity.
Qed.

(** Cutting before an append does not change the cut after it. *)
Lemma last_n_absorb {A : Type} (n : Z) (l m : list A) :
  Memory.last_n n (Memory.last_n n l ++ m) = Memory.last_n n (l ++ m).
Proof.
  destruct (Nat.le_gt_cases (List.length l) (Z.to_nat n)) as [H | H].
  - unfold Memory.last_n at 2.
    replace (List.length l - Z.to_nat n)%nat with 0%nat by lia.
    reflexivity.
  - destruct (last_n_suffix n l) as (dropped & Hd).
    rewrite Hd at 2. rewrite <- app_assoc.
    symmetry. apply last_n_app_skip.
    rewrite length_app, last_n_length. lia.
Qed.

Lemma save_conversation_access (st : fs) (now : clock)
      (u b domain : string) :
  history_access (snd (Memory.save_conversation st now u b domain))
  = history_access st.
Proof.
  unfold Memory.save_conversation.
  destruct (PyStr.is_empty u || PyStr.is_empty b)%bool; [reflexivity |].
  destruct (history_access st) eqn:E; cbn [snd history_access]; congruence.
Qed.

Lemma save_all_access (exchanges : list Spec.exchange) :
  forall st,
    history_access (Spec.save_all st exchanges) = history_access st.
Proof.
  unfold Spec.save_all.
  induction exchanges as [| e rest IH]; intros st; [reflexivity |].
  cbn [fold_left]. rewrite IH. apply save_conversation_access.
Qed.

End Runs.

Section RunLog.

(** From a state whose log reads the same at any time, a run of saves
    appends its records and keeps the last 100. *)
Lemma save_all_from_stable (rest : list Spec.exchange) :
  forall (st : fs) (log : list dict) (e : Spec.exchange),
    history_access st = Writable ->
    (forall now, Memory.load_conversation_history st now = log) ->
    forallb Spec.nonblank (e :: rest) = true ->
    forall now',
      Memory.load_conversation_history (Spec.save_all st (e :: rest)) now'
      = Memory.last_n 100 (log ++ map Spec.saved_record (e :: rest)).
Proof.
  induction rest as [| e2 rest IH]; intros st log e Hw Hlog Hnb now';
    cbn [forallb] in Hnb; apply andb_true_iff in Hnb; destruct Hnb as [He Hnb];
    unfold Spec.nonblank in He; apply andb_true_iff in He;
    destruct He as [Hu Hb]; apply negb_true_iff in Hu, Hb;
    apply is_empty_false in Hu; apply is_empty_false in Hb.
  - cbn [Spec.save_all fold_left map].
    rewrite (load_after_save _ _ _ _ _ _ Hu Hb Hw), Hlog.
    apply cap_last_n.
  - change (Spec.save_all st (e :: e2 :: rest))
      with (Spec.save_all
              (snd (Memory.save_conversation
                      st (Spec.asked_at e) (Spec.user_message e)
                      (Spec.bot_response e) (Spec.domain e)))
              (e2 :: rest)).
    rewrite (IH _ (Spec.cap (log ++ [Spec.saved_record e]))).
    + rewrite cap_last_n, last_n_absorb, <- app_assoc. reflexivity.
    + rewrite save_conversation_access. exact Hw.
    + intros now. rewrite (load_after_save _ _ _ _ _ _ Hu Hb Hw), Hlog.
      reflexivity.
    + exact Hnb.
Qed.

End RunLog.

(** A run in which every save returned [True] was a run of non-empty texts
    into a file whose writes went through. *)
Lemma all_saved_passed (exchanges : list Spec.exchange) :
  forall st,
    Spec.all_saved st exchanges = true ->
    forallb Spec.nonblank exchanges = true
    /\ (exchanges = [] \/ history_access st = Writable).
Proof.
  induction exchanges as [| e rest IH]; intros st H; [auto |].
  cbn [Spec.all_saved] in H. apply andb_true_iff in H. destruct H as [H1 H2].
  destruct (save_conversation_true _ _ _ _ _ H1) as (Hu & Hb & Hw).
  destruct (IH _ H2) as [Hnb _].
  split; [| right; exact Hw].
  cbn [forallb]. rewrite Hnb. unfold Spec.nonblank.
  apply is_empty_false in Hu. apply is_empty_false in Hb.
  rewrite Hu, Hb. reflexivity.
Qed.

Lemma save_all_loaded (st : fs) (first : Spec.exchange)
      (rest : list Spec.exchange) (now' : clock) :
  Spec.all_saved st (first :: rest) = true ->
  Memory.load_conversation_history (Spec.save_all st (first :: rest)) now'
  = Memory.last_n
      100
      (Memory.load_conversation_history st (Spec.asked_at first)
       ++ map Spec.saved_record (first :: rest)).
Proof.
  intros Hs. destruct (all_saved_passed _ _ Hs) as [Hnb [Hw | Hw]];
    [discriminate |].
  set (old := Memory.load_conversation_history st (Spec.asked_at first)).
  pose proof Hnb as Hnb'.
  cbn [forallb] in Hnb'. apply andb_true_iff in Hnb'.
  destruct Hnb' as [He Hrest].
  unfold Spec.nonblank in He. apply andb_true_iff in He.
  destruct He as [Hu Hb]. apply negb_true_iff in Hu, Hb.
  apply is_empty_false in Hu. apply is_empty_false in Hb.
  destruct rest as [| e2 rest].
  - cbn [Spec.save_all fold_left map].
    rewrite (load_after_save _ _ _ _ _ _ Hu Hb Hw). apply cap_last_n.
  - change (Spec.save_all st (first :: e2 :: rest))
      with (Spec.save_all
              (snd (Memory.save_conversation
                      st (Spec.asked_at first) (Spec.user_message first)
                      (Spec.bot_response first) (Spec.domain first)))
              (e2 :: rest)).
    rewrite (save_all_from_stable
               rest _ (Spec.cap (old ++ [Spec.saved_record first]))).
    + rewrite cap_last_n, last_n_absorb, <- app_assoc. reflexivity.
    + rewrite save_conversation_access. exact Hw.
    + intros now. apply (load_after_save _ _ _ _ _ _ Hu Hb Hw).
    + exact Hrest.
Qed.

(** X3. A run of saves that all returned [True]: the log read afterwards is
    the log loaded by the first save followed by the records of the run, cut
    to its last 100 records; so it has [min(100, n + k)] records. *)
Theorem save_all_log (st : fs) (first : Spec.exchange)
        (rest : list Spec.exchange) :
  Spec.all_saved st (first :: rest) = true ->
  forall now',
    let old := Memory.load_conversation_history st (Spec.asked_at first) in
    let after :=
      Memory.load_conversation_history (Spec.save_all st (first :: rest)) now'
    in
    after = Memory.last_n 100 (old ++ map Spec.saved_record (first :: rest))
    /\ List.length after
       = Nat.min 100 (List.length old + S (List.length rest)).
Proof.
  intros Hs now' old after.
  assert (E : after
              = Memory.last_n 100 (old ++ map Spec.saved_record
                                              (first :: rest)))
    by (apply save_all_loaded; assumption).
  split; [exact E |].
  rewrite E, last_n_length, length_app, length_map. cbn [List.length]. lia.
Qed.

(** Two saves into a missing file. *)
Lemma save_all_log_witness :
  let t1 := mkClock "2024-05-01T10:00:00" "2024-05-01" in
  let t2 := mkClock "2024-05-01T10:05:00" "2024-05-01" in
  let e1 := Spec.mkExchange t1 "family dinner plans" "Nice" "family" in
  let e2 := Spec.mkExchange t2 "what movie should I watch" "A comedy"
                            "entertainment" in
  let st := mkFs Absent Writable Absent Writable in
  Spec.all_saved st [e1; e2] = true
  /\ Memory.load_conversation_history (Spec.save_all st [e1; e2]) t2
     = [Spec.saved_record e1; Spec.saved_record e2].
Proof.
  intros t1 t2 e1 e2 st. split; [reflexivity |].
  destruct (save_all_log st e1 [e2] eq_refl t2) as [E _].
  exact E.
Defined.

(** ** Words, blanks and letter case *)

Section Words.

Import PyStr.

Lemma split_from_cons (cur : string) (c : ascii) (t : string) :
  split_from cur (String c t)
  = if isspace c
    then (if is_empty cur then split_from "" t else cur :: split_from "" t)
    else split_from (cur ++ String c "") t.
Proof. reflexivity. Qed.

Lemma split_lstrip (s : string) : split (lstrip s) = split s.
Proof.
  unfold split. induction s as [| c t IH]; [reflexivity |].
  cbn [lstrip]. rewrite (split_from_cons "" c t).
  destruct (isspace c) eqn:Sp; [exact IH |].
  rewrite split_from_cons, Sp. reflexivity.
Qed.

Lemma split_from_rstrip (s : string) :
  forall cur, split_from cur (rstrip s) = split_from cur s.
Proof.
  induction s as [| c t IH]; intros cur; [reflexivity |].
  cbn [rstrip]. destruct (rstrip t) as [| c' r] eqn:R.
  - destruct (isspace c) eqn:Sp.
    + rewrite split_from_cons, Sp, <- IH. cbn [split_from].
      destruct (is_empty cur); reflexivity.
    + rewrite !split_from_cons, Sp. apply IH.
  - rewrite (split_from_cons cur c (String c' r)), (split_from_cons cur c t).
    rewrite !IH. reflexivity.
Qed.

(** Stripping a text does not change its words. *)
Lemma split_strip (s : string) : split (strip s) = split s.
Proof.
  unfold strip, split at 1. rewrite split_from_rstrip. apply split_lstrip.
Qed.

Lemma lower_char_idempotent (c : ascii) :
  lower_char (lower_char c) = lower_char c.
Proof.
  destruct c as [[] [] [] [] [] [] [] []]; vm_compute; reflexivity.
Qed.

Lemma lower_idempotent (s : string) : lower (lower s) = lower s.
Proof.
  induction s as [| c t IH]; [reflexivity |].
  cbn [lower]. rewrite lower_char_idempotent, IH. reflexivity.
Qed.

Lemma lower_is_empty (s : string) : is_empty (lower s) = is_empty s.
Proof. destruct s; reflexivity. Qed.

End Words.

(** X4. The word counts that [save_conversation] stores with a record are
    the counts the statistics would recompute from the stored, stripped
    texts. *)
Theorem stored_word_counts_agree (now : clock) (u b domain : string) :
  let record := Memory.new_conversation now u b domain in
  Memory.default_word_count "user" record
  = dict_get "user_word_count" record
  /\ Memory.default_word_count "assistant" record
     = dict_get "assistant_word_count" record.
Proof.
  unfold Memory.default_word_count, Memory.new_conversation.
  cbn [dict_get dict_get_default String.eqb Ascii.eqb Bool.eqb].
  rewrite !split_strip. split; reflexivity.
Qed.

(** X5. Letter case does not matter to the classifier nor, in the query, to
    the retrieval: the lower-cased message gives the same result. *)
Theorem lower_case_irrelevant (py_str : json -> string) (st : fs)
        (now : clock) (message : string) (max_results : Z) :
  Memory.classify_message_domain (PyStr.lower message)
  = Memory.classify_message_domain message
  /\ Memory.find_relevant_conversations py_str st now (PyStr.lower message)
                                        max_results
     = Memory.find_relevant_conversations py_str st now message max_results.
Proof.
  unfold Memory.classify_message_domain, Memory.find_relevant_conversations,
    Memory.query_words.
  rewrite !lower_is_empty, !lower_idempotent. split; reflexivity.
Qed.

(** ** How many records the retrieval returns *)

Section Retrieved.

Variable py_str : json -> string.

Lemma filter_none {A : Type} (p : A -> bool) (l : list A) :
  (forall x, In x l -> p x = false) -> filter p l = [].
Proof.
  induction l as [| x l IH]; intros H; [reflexivity |].
  simpl. rewrite (H x (or_introl eq_refl)). apply IH.
  intros y Hy. apply H. right. exact Hy.
Qed.

Lemma matching_no_words (history : list dict) :
  Spec.matching py_str [] history = [].
Proof. apply filter_none. intros i _. reflexivity. Qed.

Lemma matching_no_history (words : list string) :
  Spec.matching py_str words [] = [].
Proof. reflexivity. Qed.

(** The result, whatever the guards decide. *)
Lemma find_relevant_conversations_positions (st : fs) (now : clock)
      (query : string) (max_results : Z) :
  let history := Memory.load_conversation_history st now in
  let words := Memory.query_words query in
  let matching := Spec.matching py_str words history in
  Memory.find_relevant_conversations py_str st now query max_results
  = map (Spec.record history)
        (firstn
           (Z.to_nat
              (Z.max 1 (Z.min max_results
                              (Z.of_nat (List.length matching)))))
           (Memory.sort_desc
              (fun i => Spec.score py_str words (Spec.record history i))
              matching)).
Proof.
  intros history words matching.
  destruct matching as [| i l] eqn:Em.
  - (* nothing matches *)
    cbn [Memory.sort_desc fold_right]. rewrite firstn_nil. cbn [map].
    rewrite find_relevant_conversations_unfold. cbv zeta.
    fold history words.
    destruct (_ || _ || _)%bool; [reflexivity |].
    rewrite relevant_loop_positions. fold matching. rewrite Em.
    cbn [map Memory.sort_desc fold_right]. unfold Memory.first_n.
    rewrite firstn_nil. reflexivity.
  - assert (Hm : Spec.matching py_str words history <> []).
    { fold matching. rewrite Em. discriminate. }
    destruct (matching_guards py_str words history Hm) as [Hh Hw].
    rewrite <- Em. clear Em i l.
    set (key := fun i => Spec.score py_str words (Spec.record history i)).
    subst history words matching.
    set (history := Memory.load_conversation_history st now) in *.
    set (words := Memory.query_words query) in *.
    set (matching := Spec.matching py_str words history) in *.
    rewrite (find_relevant_conversations_passed py_str st now query
                                                  max_results Hh Hw).
    fold history words.
    rewrite relevant_loop_positions. fold matching.
    rewrite (sort_desc_map
               (fun i => (Spec.record history i,
                          Spec.score py_str words (Spec.record history i)))
               snd).
    cbn [snd]. fold key.
    unfold Memory.first_n. rewrite firstn_map, map_map. cbn [fst].
    rewrite length_map, (Permutation_length (sort_desc_perm key matching)).
    reflexivity.
Qed.

End Retrieved.

(** X6. [find_relevant_conversations] returns [min(max(1, max_results), m)]
    records, where [m] is the number of loaded records in which some query
    token occurs; it returns nothing exactly when no record matches (an empty
    log, an empty query and a query without a token of more than two
    characters are such cases), and a [max_results] of 0 or less gives what 1
    gives. *)
Theorem find_relevant_conversations_count (py_str : json -> string)
        (st : fs) (now : clock) (query : string) (max_results : Z) :
  let history := Memory.load_conversation_history st now in
  let matching := Spec.matching py_str (Memory.query_words query) history in
  let result :=
    Memory.find_relevant_conversations py_str st now query max_results in
  List.length result
  = Nat.min (Z.to_nat (Z.max 1 max_results)) (List.length matching)
  /\ (result = [] <-> matching = [])
  /\ (history = [] \/ Memory.query_words query = [] -> result = [])
  /\ (max_results <= 0 ->
      result = Memory.find_relevant_conversations py_str st now query 1).
Proof.
  intros history matching result.
  pose proof (find_relevant_conversations_positions
                py_str st now query max_results) as E.
  pose proof (find_relevant_conversations_positions
                py_str st now query 1) as E1.
  cbv zeta in E, E1. fold history matching result in E, E1.
  assert (Hlen : List.length result
                 = Nat.min (Z.to_nat (Z.max 1 max_results))
                           (List.length matching)).
  { rewrite E, length_map, length_firstn.
    rewrite (Permutation_length (sort_desc_perm _ matching)). lia. }
  assert (Hnil : result = [] <-> matching = []).
  { split; intros H.
    - rewrite H in Hlen. simpl in Hlen.
      destruct matching; [reflexivity | simpl in Hlen; lia].
    - rewrite H in Hlen. simpl in Hlen. rewrite Nat.min_0_r in Hlen.
      destruct result; [reflexivity | discriminate]. }
  split; [exact Hlen |]. split; [exact Hnil |]. split.
  - intros [H | H]; apply Hnil; unfold matching; rewrite H.
    + apply matching_no_history.
    + apply matching_no_words.
  - intros Hm. rewrite E, E1. do 2 f_equal. lia.
Qed.

(** ** A record matches the messages it was made from *)

Section OwnWords.

Import PyStr.

Lemma prefix_app_self (w q : string) : prefix w (w ++ q) = true.
Proof.
  induction w as [| c w IH]; simpl; [destruct q; reflexivity |].
  destruct (ascii_dec c c); [exact IH | congruence].
Qed.

Lemma prefix_app_right (w s q : string) :
  prefix w s = true -> prefix w (s ++ q) = true.
Proof.
  revert s. induction w as [| c w IH]; intros s H.
  - destruct (s ++ q)%string; reflexivity.
  - destruct s as [| d s]; [discriminate |].
    apply prefix_cons in H. destruct H as [-> H]. simpl.
    destruct (ascii_dec d d); [apply IH, H | congruence].
Qed.

Lemma contains_app_right (w s q : string) :
  contains w s = true -> contains w (s ++ q) = true.
Proof.
  induction s as [| c s IH]; intros H.
  - apply contains_cases in H. destruct H as [H | (c & t & E & _)].
    + apply prefix_contains, (prefix_app_right w "" q), H.
    + discriminate.
  - apply contains_cases in H. destruct H as [H | (c' & t & E & H)].
    + apply prefix_contains, prefix_app_right, H.
    + injection E as <- <-. simpl. apply contains_tail, IH, H.
Qed.

Lemma contains_app_left (w p s : string) :
  contains w s = true -> contains w (p ++ s) = true.
Proof.
  intros H. induction p as [| c p IH]; [exact H |].
  simpl. apply contains_tail, IH.
Qed.

Lemma append_assoc (a b c : string) :
  ((a ++ b) ++ c = a ++ (b ++ c))%string.
Proof. induction a as [| x a IH]; simpl; [reflexivity | rewrite IH; reflexivity]. Qed.

Lemma append_nil_r (a : string) : (a ++ "" = a)%string.
Proof. induction a as [| x a IH]; simpl; [reflexivity | rewrite IH; reflexivity]. Qed.

(** Every word of a text occurs in it. *)
Lemma split_from_contains (s : string) :
  forall cur w,
    In w (split_from cur s) -> contains w (cur ++ s) = true.
Proof.
  induction s as [| c t IH]; intros cur w H.
  - cbn [split_from] in H. destruct (is_empty cur); [contradiction |].
    destruct H as [<- | []]. apply prefix_contains, prefix_app_self.
  - rewrite split_from_cons in H. destruct (isspace c).
    + assert (Ht : In w (split_from "" t) -> contains w (cur ++ String c t) = true).
      { intros Hw. apply contains_app_left. apply contains_tail.
        apply (IH "" w Hw). }
      destruct (is_empty cur); [apply Ht, H |].
      destruct H as [<- | H]; [| apply Ht, H].
      apply prefix_contains, prefix_app_self.
    + apply IH in H. rewrite append_assoc in H. exact H.
Qed.

Lemma clean_cons (c : ascii) (t : string) :
  Spec.clean (String c t)
  = if (isword (lower_char c) || isspace (lower_char c))%bool
    then String (lower_char c) (Spec.clean t) else Spec.clean t.
Proof. reflexivity. Qed.

Lemma clean_app (a b : string) : (Spec.clean (a ++ b) = Spec.clean a ++ Spec.clean b)%string.
Proof.
  induction a as [| c a IH]; [reflexivity |].
  cbn [append]. rewrite !clean_cons, IH.
  destruct (isword (lower_char c) || isspace (lower_char c))%bool; reflexivity.
Qed.

Lemma lower_char_space (c : ascii) :
  isspace (lower_char c) = isspace c
  /\ (isspace c = true -> lower_char c = c).
Proof.
  destruct c as [[] [] [] [] [] [] [] []]; vm_compute; split;
    solve [reflexivity | discriminate].
Qed.

Lemma split_clean_lstrip (s : string) :
  split (Spec.clean (lstrip s)) = split (Spec.clean s).
Proof.
  unfold split. induction s as [| c t IH]; [reflexivity |].
  cbn [lstrip]. destruct (isspace c) eqn:Sp; [| reflexivity].
  rewrite clean_cons. destruct (lower_char_space c) as [E1 E2].
  rewrite E1, Sp, orb_true_r, (E2 Sp), split_from_cons, Sp. exact IH.
Qed.

Lemma split_from_clean_rstrip (s : string) :
  forall cur,
    split_from cur (Spec.clean (rstrip s)) = split_from cur (Spec.clean s).
Proof.
  induction s as [| c t IH]; intros cur; [reflexivity |].
  cbn [rstrip]. destruct (lower_char_space c) as [E1 E2].
  destruct (rstrip t) as [| c' r] eqn:R.
  - destruct (isspace c) eqn:Sp.
    + rewrite clean_cons, E1, orb_true_r, split_from_cons, E1.
      rewrite <- IH. destruct cur; reflexivity.
    + rewrite !clean_cons.
      destruct (isword (lower_char c) || isspace (lower_char c))%bool.
      * rewrite !split_from_cons, E1. apply IH.
      * apply IH.
  - rewrite (clean_cons c (String c' r)), (clean_cons c t).
    destruct (isword (lower_char c) || isspace (lower_char c))%bool.
    + rewrite !split_from_cons, !IH. reflexivity.
    + apply IH.
Qed.

Lemma split_clean_strip (s : string) :
  split (Spec.clean (strip s)) = split (Spec.clean s).
Proof.
  unfold strip, split at 1. rewrite split_from_clean_rstrip.
  apply split_clean_lstrip.
Qed.

(** A query token of a text occurs in the cleaned, stripped text. *)
Lemma query_word_occurs (s word : string) :
  In word (Memory.query_words s) -> contains word (Spec.clean (strip s)) = true.
Proof.
  unfold Memory.query_words. intros H. apply filter_In in H.
  destruct H as [H _]. fold (Spec.clean s) in H.
  rewrite <- split_clean_strip in H.
  apply (split_from_contains _ "" word), H.
Qed.

Lemma filter_all {A : Type} (p : A -> bool) (l : list A) :
  (forall x, In x l -> p x = true) -> filter p l = l.
Proof.
  induction l as [| x l IH]; intros H; [reflexivity |].
  simpl. rewrite (H x (or_introl eq_refl)). f_equal. apply IH.
  intros y Hy. apply H. right. exact Hy.
Qed.

Lemma new_conversation_cleaned (py_str : json -> string) (now : clock)
      (u b domain : string) :
  Memory.conv_cleaned py_str (Memory.new_conversation now u b domain)
  = (Spec.clean (strip u) ++ Spec.clean " " ++ Spec.clean (strip b))%string.
Proof.
  unfold Memory.conv_cleaned, Memory.new_conversation.
  cbn [dict_get_default dict_get String.eqb Ascii.eqb Bool.eqb
       Memory.format_value].
  fold (Spec.clean (strip u ++ " " ++ strip b)). rewrite !clean_app. reflexivity.
Qed.

Lemma full_score (words : list string) :
  words <> [] ->
  (Memory.relevance_score (Z.of_nat (List.length words)) words == 1)%Q.
Proof.
  intros H. unfold Memory.relevance_score.
  apply Qmult_inv_r. unfold Qeq. simpl.
  destruct words; [congruence | simpl; lia].
Qed.

End OwnWords.

(** X7. The record made from an exchange matches every query token of the
    user message and every query token of the reply: queried with either
    text, its match count is the number of tokens and, when there is a token,
    its score is 1. *)
Theorem own_messages_match (py_str : json -> string) (now : clock)
        (u b domain : string) :
  let record := Memory.new_conversation now u b domain in
  forall query,
    query = u \/ query = b ->
    let words := Memory.query_words query in
    Spec.matched py_str words record = List.length words
    /\ (words <> [] -> (Spec.score py_str words record == 1)%Q).
Proof.
  intros record query Hq words.
  assert (M : Spec.matched py_str words record = List.length words).
  { unfold Spec.matched. f_equal. apply filter_all. intros word Hw.
    unfold Spec.occurs, record. rewrite new_conversation_cleaned.
    destruct Hq as [-> | ->].
    - apply contains_app_right, query_word_occurs, Hw.
    - apply contains_app_left, contains_app_left, query_word_occurs, Hw. }
  split; [exact M |].
  intros Hne. unfold Spec.score. rewrite M. apply full_score, Hne.
Qed.

(** The tokens of a stored question, found again in its record. *)
Lemma own_messages_match_witness :
  let now := mkClock "2024-05-01T10:00:00" "2024-05-01" in
  let record :=
    Memory.new_conversation now "  What about the PROJECT deadline?! "
                            "It is on Friday." "work" in
  Memory.query_words "  What about the PROJECT deadline?! "
  = ["what"; "about"; "the"; "project"; "deadline"]
  /\ Spec.matched (fun _ => "")
                  (Memory.query_words "  What about the PROJECT deadline?! ")
                  record = 5%nat.
Proof.
  intros now record. split; [reflexivity |].
  apply (own_messages_match (fun _ => "") now
           "  What about the PROJECT deadline?! " "It is on Friday." "work"
           "  What about the PROJECT deadline?! " (or_introl eq_refl)).
Defined.

(** ** What the classifier answers *)

(** X8. The classifier answers [general] exactly when no keyword of any
    domain occurs in the lower-cased message; otherwise it answers one of the
    six domains, and some keyword of the domain it answers occurs in the
    message. *)
Theorem classify_general_iff (message : string) :
  let message_lower := PyStr.lower message in
  (Memory.classify_message_domain message = "general"
   <-> Spec.mentions message_lower = false)
  /\ (Spec.mentions message_lower = true ->
      exists keywords weight keyword,
        In (Memory.classify_message_domain message, (keywords, weight))
           Memory.domain_keywords
        /\ In keyword keywords
        /\ PyStr.contains keyword message_lower = true).
Proof.
  intros message_lower. subst message_lower.
  set (message_lower := PyStr.lower message).
  assert (Hyes : Spec.mentions message_lower = true ->
                 exists keywords weight keyword,
                   In (Memory.classify_message_domain message,
                       (keywords, weight)) Memory.domain_keywords
                   /\ In keyword keywords
                   /\ PyStr.contains keyword message_lower = true).
  { intros M.
    assert (Hne : message <> "").
    { intros ->. vm_compute in M. discriminate. }
    destruct (classify_by_best message Hne) as (first & rest & Hs & Hc).
    fold message_lower in Hs.
    pose proof (domain_scores_ranked message_lower) as HR. rewrite Hs in HR.
    apply mentions_exists in M. rewrite Hs in M.
    pose proof (best_positive first rest HR M) as Hb.
    rewrite Hb in Hc.
    pose proof (max_by_score_in rest first) as Hin. rewrite <- Hs in Hin.
    unfold Memory.domain_scores in Hin. apply in_map_iff in Hin.
    destruct Hin as (entry & Ebest & Hin).
    destruct (domain_score_positive message_lower entry Hin) as [E _].
    rewrite <- Ebest in Hb. cbn [snd] in Hb. rewrite Hb in E. symmetry in E.
    apply existsb_exists in E. destruct E as (keyword & Hk & Ck).
    exists (fst (snd entry)), (snd (snd entry)), keyword.
    rewrite Hc, <- Ebest. cbn [fst].
    rewrite <- !surjective_pairing. auto. }
  split; [| exact Hyes].
  split.
  - intros Hg. destruct (Spec.mentions message_lower) eqn:M; [| reflexivity].
    exfalso. destruct (Hyes eq_refl) as (keywords & weight & _ & Hin & _).
    rewrite Hg in Hin. unfold Memory.domain_keywords in Hin.
    repeat (destruct Hin as [Hin | Hin]; [discriminate |]). contradiction.
  - intros M.
    assert (Hne : message = "" \/ message <> "").
    { destruct message; [left; reflexivity | right; discriminate]. }
    destruct Hne as [-> | Hne]; [reflexivity |].
    destruct (classify_by_best message Hne) as (first & rest & Hs & Hc).
    fold message_lower in Hs. rewrite Hc.
    destruct (0 <? snd (Memory.max_by_score first rest))%float eqn:P;
      [| reflexivity].
    exfalso.
    assert (X : Spec.mentions message_lower = true).
    { apply mentions_exists. rewrite Hs. apply Exists_exists.
      exists (Memory.max_by_score first rest).
      split; [apply max_by_score_in | exact P]. }
    congruence.
Qed.

(** ** The statistics, record by record *)

Section Tallies.

Ltac key_facts :=
  repeat match goal with
    | H : (_ =? _) = true |- _ => apply Z.eqb_eq in H
    | H : String.eqb _ _ = true |- _ => apply String.eqb_eq in H
    | H : Bool.eqb _ _ = true |- _ => apply eqb_prop in H
    end.

Lemma key_eqb_sym (a b : json) :
  Memory.key_eqb a b = true -> Memory.key_eqb b a = true.
Proof.
  destruct a, b; simpl; intros H; try discriminate; try reflexivity;
    key_facts; subst;
    first [ apply Z.eqb_refl | apply String.eqb_refl | apply eqb_reflx ].
Qed.

Lemma key_eqb_trans (a b c : json) :
  Memory.key_eqb a b = true -> Memory.key_eqb b c = true ->
  Memory.key_eqb a c = true.
Proof.
  destruct a, b, c; simpl; intros H1 H2; try discriminate; try reflexivity;
    key_facts; subst;
    try first [ apply Z.eqb_refl | apply String.eqb_refl | apply eqb_reflx ];
    repeat match goal with b : bool |- _ => destruct b end;
    try reflexivity; try discriminate; try (apply Z.eqb_eq; lia); try lia.
Qed.

(** One more record Spec.under [key'] adds one to the count read Spec.under an equal
    key and leaves the other counts alone. *)
Lemma tally_get_incr (key key' : json) (tally : list (json * Z)) :
  Spec.tally_get key (Memory.tally_incr key' tally)
  = Spec.tally_get key tally + (if Memory.key_eqb key key' then 1 else 0).
Proof.
  induction tally as [| [k n] tally IH]; simpl.
  - destruct (Memory.key_eqb key key'); reflexivity.
  - destruct (Memory.key_eqb key' k) eqn:E'; simpl.
    + destruct (Memory.key_eqb key k) eqn:E.
      * rewrite (key_eqb_trans _ _ _ E (key_eqb_sym _ _ E')). reflexivity.
      * destruct (Memory.key_eqb key key') eqn:E2; [| lia].
        rewrite (key_eqb_trans _ _ _ E2 E') in E. discriminate.
    + destruct (Memory.key_eqb key k) eqn:E; [| exact IH].
      destruct (Memory.key_eqb key key') eqn:E2; [| lia].
      rewrite (key_eqb_trans _ _ _ (key_eqb_sym _ _ E2) E) in E'.
      discriminate.
Qed.

Lemma stats_step_counts (s s' : Memory.stats) (conv : dict) (key : json) :
  Memory.stats_step (Returned s) conv = Returned s' ->
  Spec.countable conv = true
  /\ Spec.tally_get key (Memory.domains s')
     = Spec.tally_get key (Memory.domains s)
       + (if Spec.under "domain" (JStr "general") key conv then 1 else 0)
  /\ Spec.tally_get key (Memory.dates s')
     = Spec.tally_get key (Memory.dates s)
       + (if Spec.under "date" (JStr "unknown") key conv then 1 else 0).
Proof.
  unfold Memory.stats_step, Spec.countable, Spec.under.
  destruct (Memory.default_word_count "user" conv); [| discriminate].
  destruct (Memory.default_word_count "assistant" conv); [| discriminate].
  destruct (Memory.as_int _); [| discriminate].
  destruct (Memory.as_int _); [| discriminate].
  destruct (Memory.hashable (dict_get_default "domain" _ conv));
    [| discriminate].
  destruct (Memory.hashable (dict_get_default "date" _ conv));
    [| discriminate].
  cbn [negb andb]. intros H. injection H as <-. cbn [Memory.domains Memory.dates].
  rewrite !tally_get_incr. auto.
Qed.

Lemma stats_fold_counts (history : list dict) (key : json) :
  forall s s',
    fold_left Memory.stats_step history (Returned s) = Returned s' ->
    forallb Spec.countable history = true
    /\ Spec.tally_get key (Memory.domains s')
       = Spec.tally_get key (Memory.domains s)
         + Z.of_nat
             (List.length (filter (Spec.under "domain" (JStr "general") key)
                                  history))
    /\ Spec.tally_get key (Memory.dates s')
       = Spec.tally_get key (Memory.dates s)
         + Z.of_nat
             (List.length (filter (Spec.under "date" (JStr "unknown") key)
                                  history)).
Proof.
  induction history as [| conv history IH]; intros s s' H.
  - simpl in H. injection H as <-. simpl. repeat split; lia.
  - cbn [fold_left] in H.
    destruct (Memory.stats_step (Returned s) conv) as [s1 | e] eqn:E.
    + destruct (stats_step_counts s s1 conv key E) as (C & D & T).
      destruct (IH _ _ H) as (C' & D' & T').
      cbn [forallb filter]. rewrite C, C', D', T', D, T.
      destruct (Spec.under "domain" (JStr "general") key conv);
        destruct (Spec.under "date" (JStr "unknown") key conv);
        cbn [List.length]; repeat split; lia.
    + rewrite stats_fold_raised in H. discriminate.
Qed.

End Tallies.


(** X10. In the statistics returned, the count read under a key in the
    domain tally is the number of loaded records whose domain equals that
    key, and likewise for the dates. *)
Theorem get_conversation_stats_per_key (st : fs) (now : clock)
        (s : Memory.stats) (key : json) :
  Memory.get_conversation_stats st now = Returned s ->
  let log := Memory.load_conversation_history st now in
  Spec.tally_get key (Memory.domains s)
  = Z.of_nat
      (List.length (filter (Spec.under "domain" (JStr "general") key) log))
  /\ Spec.tally_get key (Memory.dates s)
     = Z.of_nat
         (List.length (filter (Spec.under "date" (JStr "unknown") key) log)).
Proof.
  intros H log. subst log. unfold Memory.get_conversation_stats in H.
  destruct (Memory.load_conversation_history st now) as [| conv history].
  - injection H as <-. split; reflexivity.
  - apply (stats_fold_counts _ key) in H. destruct H as (_ & D & T).
    rewrite D, T. split; reflexivity.
Qed.

(** Two work records, one of them keyed by a date of its own. *)
Lemma get_conversation_stats_per_key_witness :
  let now := mkClock "2024-05-02T09:00:00" "2024-05-02" in
  let st :=
    mkFs (Doc (JArr
            [JObj [("user", JStr "meeting notes"); ("assistant", JStr "ok");
                   ("domain", JStr "work"); ("date", JStr "2024-05-01")];
             JObj [("user", JStr "dinner"); ("assistant", JStr "ok");
                   ("domain", JStr "family")];
             JObj [("user", JStr "deadline"); ("assistant", JStr "ok");
                   ("domain", JStr "work")]]))
         Writable Absent Writable in
  exists s,
    Memory.get_conversation_stats st now = Returned s
    /\ Spec.tally_get (JStr "work") (Memory.domains s) = 2
    /\ Spec.tally_get (JStr "2024-05-02") (Memory.dates s) = 2.
Proof.
  intros now st.
  eexists. split; [vm_compute; reflexivity |].
  split.
  - apply (get_conversation_stats_per_key st now _ (JStr "work") eq_refl).
  - apply (get_conversation_stats_per_key st now _ (JStr "2024-05-02")
                                          eq_refl).
Defined.

(** ** Statistics after a run of saves *)

Section RunStats.

Lemma stats_step_saved (s : Memory.stats) (e : Spec.exchange) :
  Memory.stats_step (Returned s) (Spec.saved_record e)
  = Returned
      (Memory.mkStats
         (Memory.total_conversations s)
         (Memory.total_words s + Spec.words_of e)
         (Memory.tally_incr (JStr (Spec.domain e)) (Memory.domains s))
         (Memory.tally_incr (JStr (ymd (Spec.asked_at e))) (Memory.dates s))).
Proof. reflexivity. Qed.

Lemma stats_fold_saved (exchanges : list Spec.exchange) :
  forall s,
    exists s',
      fold_left Memory.stats_step (map Spec.saved_record exchanges)
                (Returned s) = Returned s'
      /\ Memory.total_conversations s' = Memory.total_conversations s
      /\ Memory.total_words s'
         = Memory.total_words s
           + fold_right (fun e acc => Spec.words_of e + acc) 0 exchanges.
Proof.
  induction exchanges as [| e rest IH]; intros s.
  - exists s. simpl. repeat split; lia.
  - cbn [map fold_left]. rewrite stats_step_saved.
    destruct (IH (Memory.mkStats
                    (Memory.total_conversations s)
                    (Memory.total_words s + Spec.words_of e)
                    (Memory.tally_incr (JStr (Spec.domain e))
                                       (Memory.domains s))
                    (Memory.tally_incr (JStr (ymd (Spec.asked_at e)))
                                       (Memory.dates s))))
      as (s' & F & C & W).
    exists s'. split; [exact F |]. split; [exact C |].
    rewrite W. cbn [Memory.total_words fold_right]. lia.
Qed.

End RunStats.

(** X11. After a run of at most 100 saves that all returned [True],
    started on an empty log, the statistics are returned: the total is the
    length of the run and the word total is the sum, over the run, of the
    words of the two messages as they were given. *)
Theorem stats_after_run (st : fs) (first : Spec.exchange)
        (rest : list Spec.exchange) (now' : clock) :
  Spec.all_saved st (first :: rest) = true ->
  Memory.load_conversation_history st (Spec.asked_at first) = [] ->
  (List.length (first :: rest) <= 100)%nat ->
  exists s,
    Memory.get_conversation_stats (Spec.save_all st (first :: rest)) now'
    = Returned s
    /\ Memory.total_conversations s = Z.of_nat (List.length (first :: rest))
    /\ Memory.total_words s
       = fold_right (fun e acc => Spec.words_of e + acc) 0 (first :: rest).
Proof.
  intros Hs Hold Hlen.
  unfold Memory.get_conversation_stats.
  rewrite (save_all_loaded st first rest now' Hs), Hold.
  cbn [app]. unfold Memory.last_n. rewrite length_map.
  replace (List.length (first :: rest) - Z.to_nat 100)%nat with 0%nat by lia.
  cbn [skipn]. cbn [map].
  destruct (stats_fold_saved
              (first :: rest)
              (Memory.mkStats
                 (Z.of_nat (List.length
                              (Spec.saved_record first
                               :: map Spec.saved_record rest)))
                 0 [] []))
    as (s & F & C & W).
  exists s. split; [exact F |]. split.
  - rewrite C. cbn [Memory.total_conversations List.length].
    rewrite length_map. reflexivity.
  - rewrite W. cbn [Memory.total_words]. lia.
Qed.

(** Two saves: 3 + 1 and 5 + 2 words. *)
Lemma stats_after_run_witness :
  let t1 := mkClock "2024-05-01T10:00:00" "2024-05-01" in
  let t2 := mkClock "2024-05-02T10:05:00" "2024-05-02" in
  let e1 := Spec.mkExchange t1 "family dinner plans" "Nice" "family" in
  let e2 := Spec.mkExchange t2 " what movie should I watch " "A comedy"
                            "entertainment" in
  let st := mkFs Absent Writable Absent Writable in
  exists s,
    Memory.get_conversation_stats (Spec.save_all st [e1; e2]) t2 = Returned s
    /\ Memory.total_conversations s = 2
    /\ Memory.total_words s = 11.
Proof.
  intros t1 t2 e1 e2 st.
  destruct (stats_after_run st e1 [e2] t2) as (s & F & C & W);
    [reflexivity | reflexivity | simpl; lia |].
  exists s. split; [exact F |]. split; [exact C | exact W].
Defined.

(** ** The profile store, both ways *)

Section ProfileStore.

Lemma missing_field_false (fields : list string) (profile : dict) :
  Profiles.missing_field fields profile = false
  <-> forall field,
        In field fields ->
        exists v, dict_get field profile = Some v /\ truthy v = true.
Proof.
  induction fields as [| f fields IH]; simpl.
  - split; [intros _ field [] | reflexivity].
  - destruct (dict_get f profile) as [v |] eqn:E.
    + destruct (truthy v) eqn:T.
      * rewrite IH. split.
        -- intros H field [<- | Hin]; [eauto | apply H, Hin].
        -- intros H field Hin. apply H. right. exact Hin.
      * split; [discriminate |]. intros H.
        destruct (H f (or_introl eq_refl)) as (v' & E' & T'). congruence.
    + split; [discriminate |]. intros H.
      destruct (H f (or_introl eq_refl)) as (v' & E' & _). congruence.
Qed.

End ProfileStore.

(** X12. When [save_user_profile] returns [True], the profile is a dict in
    which name, role and communication_style are present and non-empty, and
    [load_user_profile] afterwards returns that dict. Whatever it returns or
    raises, the history file is not touched. *)
Theorem save_user_profile_outcome (st : fs) (profile_data : json) :
  let result := Profiles.save_user_profile st profile_data in
  (fst result = Returned true ->
   exists profile,
     profile_data = JObj profile
     /\ (forall field,
            In field Profiles.required_fields ->
            exists v, dict_get field profile = Some v /\ truthy v = true)
     /\ Profiles.load_user_profile (snd result) = Some profile)
  /\ history_file (snd result) = history_file st.
Proof.
  unfold Profiles.save_user_profile.
  destruct (negb (truthy profile_data));
    [cbn [fst snd]; split; [discriminate | reflexivity] |].
  destruct profile_data as [| | | | | d];
    try (cbn [fst snd]; split; [discriminate | reflexivity]).
  destruct (Profiles.missing_field Profiles.required_fields d) eqn:M;
    [cbn [fst snd]; split; [discriminate | reflexivity] |].
  pose proof (proj1 (missing_field_false _ d) M) as M'.
  destruct (profile_access st); cbn [fst snd history_file];
    (split; [| reflexivity]); try discriminate.
  intros _. exists d. repeat split. exact M'.
Qed.

(** A profile with the three fields, saved and read back. *)
Lemma save_user_profile_outcome_witness :
  let profile :=
    [("name", JStr "Ann"); ("role", JStr "Student");
     ("communication_style", JStr "Professional")] in
  let st := mkFs Absent Writable Absent Writable in
  Profiles.load_user_profile
    (snd (Profiles.save_user_profile st (JObj profile)))
  = Some profile.
Proof.
  intros profile st.
  destruct (save_user_profile_outcome st (JObj profile)) as [H _].
  destruct (H eq_refl) as (p & E & _ & L).
  injection E as <-. exact L.
Defined.

(** ** The memory context of a prompt *)

Section Context.

Variable py_str : json -> string.
Variable error_text : Server.fault -> string.

Lemma length_append (a b : string) :
  String.length (a ++ b) = (String.length a + String.length b)%nat.
Proof. induction a as [| c a IH]; simpl; [reflexivity | rewrite IH; reflexivity]. Qed.

Lemma take_length (n : nat) (s : string) :
  (String.length (Server.take n s) <= n)%nat.
Proof.
  revert s. induction n as [| n IH]; intros s; [simpl; lia |].
  destruct s as [| c s]; simpl; [lia |]. specialize (IH s). lia.
Qed.

Lemma relevant_line_text (conv : dict) :
  Spec.text_record conv = true ->
  exists text,
    Server.relevant_line py_str error_text conv = Returned text
    /\ (String.length text <= 94)%nat.
Proof.
  unfold Spec.text_record, Server.relevant_line, Server.item.
  destruct (dict_get "user" conv) as [[| | | u | |] |]; try discriminate.
  intros _. cbn [Server.bind Server.slice_to Server.fmt Memory.format_value].
  eexists. split; [reflexivity |].
  pose proof (take_length 60 u) as Hu. revert Hu.
  generalize (Server.take 60 u). intros shown Hu.
  rewrite !length_append. simpl. lia.
Qed.

Lemma recent_line_text (conv : dict) :
  Spec.text_record conv = true ->
  exists text,
    Server.recent_line py_str error_text conv = Returned text
    /\ (String.length text <= 101)%nat.
Proof.
  unfold Spec.text_record, Server.recent_line, Server.item.
  destruct (dict_get "user" conv) as [[| | | u | |] |]; try discriminate.
  destruct (dict_get "assistant" conv) as [[| | | a | |] |]; try discriminate.
  intros _. cbn [Server.bind Server.slice_to Server.fmt Memory.format_value].
  eexists. split; [reflexivity |].
  pose proof (take_length 40 u) as Hu. pose proof (take_length 40 a) as Ha.
  revert Hu Ha. generalize (Server.take 40 u), (Server.take 40 a).
  intros user_shown assistant_shown Hu Ha.
  rewrite !length_append. simpl. lia.
Qed.

Lemma add_lines_text (line : dict -> outcome string) (bound : nat)
      (convs : list dict) :
  (forall conv,
      In conv convs ->
      exists text,
        line conv = Returned text /\ (String.length text <= bound)%nat) ->
  forall context,
    exists context',
      Server.add_lines line convs context = Returned context'
      /\ (String.length context'
          <= String.length context + bound * List.length convs)%nat.
Proof.
  unfold Server.add_lines.
  induction convs as [| conv convs IH]; intros Hline context.
  - exists context. simpl. split; [reflexivity | lia].
  - cbn [fold_left Server.bind].
    destruct (Hline conv (or_introl eq_refl)) as (text & E & L).
    rewrite E. cbn [Server.bind].
    destruct (IH (fun c Hc => Hline c (or_intror Hc)) (context ++ text)%string)
      as (context' & F & L').
    exists context'. split; [exact F |].
    rewrite length_append in L'. cbn [List.length]. lia.
Qed.

Lemma find_relevant_conversations_loaded (st : fs) (now : clock)
      (query : string) (max_results : Z) (conv : dict) :
  In conv (Memory.find_relevant_conversations py_str st now query
                                              max_results) ->
  In conv (Memory.load_conversation_history st now).
Proof.
  intros H. rewrite find_relevant_conversations_unfold in H. cbv zeta in H.
  destruct (_ || _ || _)%bool; [contradiction |].
  apply in_map_iff in H. destruct H as ([conv' s] & E & H).
  simpl in E. subst conv'. apply first_n_In in H.
  apply (Permutation_in _ (sort_desc_perm snd _)) in H.
  rewrite relevant_loop_filter in H. apply in_map_iff in H.
  destruct H as (conv' & E & H). injection E as -> _.
  apply filter_In in H. apply H.
Qed.

Lemma find_relevant_conversations_at_most (st : fs) (now : clock)
      (query : string) (max_results : Z) :
  (List.length (Memory.find_relevant_conversations py_str st now query
                                                   max_results)
   <= Z.to_nat (Z.max 1 max_results))%nat.
Proof.
  rewrite find_relevant_conversations_positions. cbv zeta.
  rewrite length_map, length_firstn. lia.
Qed.

Lemma last_n_In {A : Type} (n : Z) (l : list A) (x : A) :
  In x (Memory.last_n n l) -> In x l.
Proof.
  intros H. destruct (last_n_suffix n l) as (dropped & E).
  rewrite E. apply in_or_app. right. exact H.
Qed.

Lemma get_recent_conversations_loaded (st : fs) (now : clock) (count : Z)
      (conv : dict) :
  In conv (Memory.get_recent_conversations st now count) ->
  In conv (Memory.load_conversation_history st now).
Proof. rewrite get_recent_conversations_last_n. apply last_n_In. Qed.

End Context.

(** X13. When the user and assistant values of the loaded records are
    strings, the memory context of a prompt is built without an error and has
    at most 440 characters, however long the log and its texts are: two
    relevant records cut to 60 characters and two recent ones cut to 40. *)
Theorem memory_context_bounded (py_str : json -> string)
        (error_text : Server.fault -> string) (st : fs) (now : clock)
        (message : string) :
  forallb Spec.text_record (Memory.load_conversation_history st now) = true ->
  exists context,
    Server.memory_context py_str error_text st now message = Returned context
    /\ (String.length context <= 440)%nat.
Proof.
  intros Htext. rewrite forallb_forall in Htext.
  unfold Server.memory_context.
  set (relevant := Memory.find_relevant_conversations py_str st now message 2).
  set (recent := Memory.get_recent_conversations st now 3).
  assert (Hrel : forall conv, In conv relevant ->
                   exists text,
                     Server.relevant_line py_str error_text conv
                     = Returned text /\ (String.length text <= 94)%nat).
  { intros conv H. apply relevant_line_text, Htext.
    apply (find_relevant_conversations_loaded py_str st now message 2), H. }
  assert (Hrec : forall conv, In conv (Memory.last_n 2 recent) ->
                   exists text,
                     Server.recent_line py_str error_text conv
                     = Returned text /\ (String.length text <= 101)%nat).
  { intros conv H. apply recent_line_text, Htext.
    apply (get_recent_conversations_loaded st now 3), (last_n_In 2), H. }
  assert (Lrel : (List.length relevant <= 2)%nat).
  { pose proof (find_relevant_conversations_at_most py_str st now message 2).
    unfold relevant. lia. }
  assert (Lrec : (List.length (Memory.last_n 2 recent) <= 2)%nat).
  { rewrite last_n_length. lia. }
  assert (Hfirst : exists context,
             match relevant with
             | [] => Returned ""
             | _ :: _ =>
                 Server.add_lines
                   (Server.relevant_line py_str error_text) relevant
                   ("" ++ "Previous relevant conversations:" ++ Server.nl)
             end = Returned context
             /\ (String.length context <= 33 + 94 * 2)%nat).
  { destruct relevant as [| c r] eqn:E.
    - exists "". split; [reflexivity | simpl; lia].
    - rewrite <- E in *.
      destruct (add_lines_text _ 94 relevant Hrel
                  ("" ++ "Previous relevant conversations:" ++ Server.nl))
        as (context & F & L).
      exists context. split; [exact F |]. simpl in L. nia. }
  destruct Hfirst as (context & F & L). rewrite F. cbn [Server.bind].
  destruct recent as [| c r] eqn:E.
  - exists context. split; [reflexivity | lia].
  - rewrite <- E in *.
    destruct (add_lines_text _ 101 (Memory.last_n 2 recent) Hrec
                (context ++ Server.nl ++ "Recent context:" ++ Server.nl))
      as (context' & F' & L').
    exists context'. split; [exact F' |].
    rewrite !length_append in L'. simpl in L'. nia.
Qed.

(** A log of one long exchange. *)
Lemma memory_context_bounded_witness :
  let now := mkClock "2024-05-01T10:00:00" "2024-05-01" in
  let long :=
    "project meeting about the deadline of the quarterly report and the budget of the next one" in
  let st :=
    mkFs (Doc (JArr [JObj [("user", JStr long); ("assistant", JStr long)]]))
         Writable Absent Writable in
  exists context,
    Server.memory_context (fun _ => "") (fun _ => "") st now "the project"
    = Returned context
    /\ (String.length context <= 440)%nat.
Proof.
  intros now long st.
  apply (memory_context_bounded (fun _ => "") (fun _ => "") st now
                                "the project").
  reflexivity.
Defined.

(** ** The chat and profile handlers *)

Section Handlers.

Variable py_str : json -> string.
Variable error_text : Server.fault -> string.
Variable make_client : outcome unit.
Variable create : string -> string -> outcome (option string).

Lemma chat_on_text (st : fs) (now : clock) (d : dict) (text : string) :
  dict_get "message" d = Some (JStr text) -> text <> "" ->
  Server.chat py_str error_text make_client create st now (JObj d)
  = ((200,
      JObj [("response",
             Server.reply_json
               (Server.get_smart_response
                  py_str error_text make_client create st now text
                  (dict_get_default "profile" JNull d)));
            ("domain", JStr (Memory.classify_message_domain text));
            ("timestamp", JStr (isoformat now))]),
     Server.save_reply
       st now text
       (Server.get_smart_response
          py_str error_text make_client create st now text
          (dict_get_default "profile" JNull d))
       (Memory.classify_message_domain text)).
Proof.
  intros Hm Hne. unfold Server.chat, dict_get_default. rewrite Hm.
  destruct text; [congruence | reflexivity].
Qed.

Lemma save_reply_profile (st : fs) (now : clock) (text : string)
      (response : option string) (domain : string) :
  profile_file (Server.save_reply st now text response domain)
  = profile_file st.
Proof.
  unfold Server.save_reply, Memory.save_conversation.
  destruct response as [r |]; [| reflexivity].
  destruct (PyStr.is_empty text || PyStr.is_empty r)%bool; [reflexivity |].
  destruct (history_access st); reflexivity.
Qed.

(** When the completion cannot be had, the response is the error text. *)
Lemma respond_error (st : fs) (now : clock) (text : string) (profile : json) :
  (forall prompt, exists e, create prompt text = Raised e) ->
  exists e,
    Server.get_smart_response py_str error_text make_client create st now
                              text profile
    = Some ("Error: " ++ e)%string.
Proof.
  intros Hdown. unfold Server.get_smart_response.
  destruct make_client as [[] | e0]; cbn [Server.bind]; [| eauto].
  destruct (Server.memory_context py_str error_text st now text)
    as [context | e1]; cbn [Server.bind]; [| eauto].
  destruct (Server.system_prompt py_str error_text profile context)
    as [prompt | e2]; cbn [Server.bind]; [| eauto].
  destruct (Hdown prompt) as (e & E). rewrite E. eauto.
Qed.

End Handlers.

(** X14. The chat handler answers 200 exactly when the body is an object
    whose message is a non-empty string; otherwise it answers 400 or 500 and
    leaves the files as they were. It never touches the profile file. *)
Theorem chat_answers (py_str : json -> string)
        (error_text : Server.fault -> string) (make_client : outcome unit)
        (create : string -> string -> outcome (option string))
        (st : fs) (now : clock) (data : json) :
  let result := Server.chat py_str error_text make_client create st now data in
  let status := fst (fst result) in
  (status = 200
   <-> exists d text,
         data = JObj d /\ dict_get "message" d = Some (JStr text)
         /\ text <> "")
  /\ (status = 200 \/ status = 400 \/ status = 500)
  /\ (status <> 200 -> snd result = st)
  /\ profile_file (snd result) = profile_file st.
Proof.
  intros result status. subst status result.
  destruct data as [| | | | | d];
    try (cbn [Server.chat fst snd]; repeat split; intros; auto;
         try discriminate;
         match goal with
         | H : exists _ _, _ |- _ => destruct H as (? & ? & ? & _); discriminate
         end).
  destruct (dict_get "message" d) as [message |] eqn:Hm.
  - destruct message as [| | | text | |];
      try (unfold Server.chat, dict_get_default; rewrite Hm;
           match goal with
           | |- context [negb (truthy ?v)] => destruct (negb (truthy v))
           end;
           cbn [fst snd]; repeat split; intros; auto; try discriminate;
           match goal with
           | H : exists _ _, _ |- _ =>
               destruct H as (? & ? & E1 & E2 & _);
               injection E1 as <-; congruence
           end).
    destruct text as [| c text].
    + unfold Server.chat, dict_get_default. rewrite Hm.
      cbn [truthy negb PyStr.is_empty fst snd].
      repeat split; intros; auto; try discriminate.
      destruct H as (? & ? & E1 & E2 & Hne). injection E1 as <-.
      rewrite Hm in E2. injection E2 as <-. congruence.
    + rewrite (chat_on_text _ _ _ _ _ _ _ _ Hm) by discriminate.
      cbn [fst snd]. repeat split; intros; auto; try congruence.
      * exists d, (String c text). repeat split; [exact Hm | discriminate].
      * apply save_reply_profile.
  - unfold Server.chat, dict_get_default. rewrite Hm.
    cbn [truthy negb PyStr.is_empty fst snd].
    repeat split; intros; auto; try discriminate.
    destruct H as (? & ? & E1 & E2 & _). injection E1 as <-. congruence.
Qed.

(** X15. When the save the chat handler makes returns [True], the message
    and the response it got are appended to the log with the stripped
    message, the stripped response and the domain the classifier gives the
    message; the log keeps its last 100 records. *)
Theorem chat_saves_exchange (py_str : json -> string)
        (error_text : Server.fault -> string) (make_client : outcome unit)
        (create : string -> string -> outcome (option string))
        (st : fs) (now : clock) (d : dict) (text reply : string) :
  dict_get "message" d = Some (JStr text) ->
  Server.get_smart_response py_str error_text make_client create st now text
                            (dict_get_default "profile" JNull d)
  = Some reply ->
  fst (Memory.save_conversation st now text reply
                                (Memory.classify_message_domain text))
  = true ->
  forall now',
    Memory.load_conversation_history
      (snd (Server.chat py_str error_text make_client create st now (JObj d)))
      now'
    = Spec.cap (Memory.load_conversation_history st now
                ++ [Memory.new_conversation
                      now text reply (Memory.classify_message_domain text)]).
Proof.
  intros Hm Hr Hs now'.
  destruct (save_conversation_true _ _ _ _ _ Hs) as (Hne & Hre & Hw).
  rewrite (chat_on_text _ _ _ _ _ _ _ _ Hm Hne), Hr.
  cbn [snd Server.save_reply]. apply load_after_save; assumption.
Qed.

(** A completion that answers. *)
Lemma chat_saves_exchange_witness :
  let now := mkClock "2024-05-01T10:00:00" "2024-05-01" in
  let st := mkFs Absent Writable Absent Writable in
  let create := fun _ _ : string => Returned (Some " Try a walk. ") in
  let data := JObj [("message", JStr "How can I improve my health?")] in
  Memory.load_conversation_history
    (snd (Server.chat (fun _ => "") (fun _ => "") (Returned tt) create st now
                      data)) now
  = [Memory.new_conversation now "How can I improve my health?"
                             " Try a walk. " "health"].
Proof.
  intros now st create data.
  apply (chat_saves_exchange
           (fun _ => "") (fun _ => "") (Returned tt) create st now
           [("message", JStr "How can I improve my health?")]
           "How can I improve my health?" " Try a walk. ");
    solve [reflexivity | discriminate].
Defined.

(** X16. When the completion call raises, the chat handler still answers
    200: the response is the text of an error, and when the save the handler
    makes returns [True], that text is appended to the log as the assistant's
    reply. *)
Theorem chat_saves_error (py_str : json -> string)
        (error_text : Server.fault -> string) (make_client : outcome unit)
        (create : string -> string -> outcome (option string))
        (st : fs) (now : clock) (d : dict) (text : string) :
  dict_get "message" d = Some (JStr text) -> text <> "" ->
  (forall prompt, exists e, create prompt text = Raised e) ->
  exists e,
    fst (Server.chat py_str error_text make_client create st now (JObj d))
    = (200,
       JObj [("response", JStr ("Error: " ++ e));
             ("domain", JStr (Memory.classify_message_domain text));
             ("timestamp", JStr (isoformat now))])
    /\ (fst (Memory.save_conversation st now text ("Error: " ++ e)
                                      (Memory.classify_message_domain text))
        = true ->
        forall now',
          Memory.load_conversation_history
            (snd (Server.chat py_str error_text make_client create st now
                              (JObj d))) now'
          = Spec.cap (Memory.load_conversation_history st now
                      ++ [Memory.new_conversation
                            now text ("Error: " ++ e)
                            (Memory.classify_message_domain text)])).
Proof.
  intros Hm Hne Hdown.
  destruct (respond_error py_str error_text make_client create st now text
                          (dict_get_default "profile" JNull d) Hdown)
    as (e & E).
  exists e. rewrite (chat_on_text _ _ _ _ _ _ _ _ Hm Hne), E.
  cbn [fst snd Server.save_reply Server.reply_json].
  split; [reflexivity |].
  intros Hs now'.
  destruct (save_conversation_true _ _ _ _ _ Hs) as (_ & _ & Hw).
  apply load_after_save; [exact Hne | discriminate | exact Hw].
Qed.

(** The endpoint is unreachable. *)
Lemma chat_saves_error_witness :
  let now := mkClock "2024-05-01T10:00:00" "2024-05-01" in
  let st := mkFs Absent Writable Absent Writable in
  let create := fun _ _ : string => @Raised (option string) "Connection error." in
  let data := JObj [("message", JStr "plan my day")] in
  exists e,
    Memory.load_conversation_history
      (snd (Server.chat (fun _ => "") (fun _ => "") (Returned tt) create st now
                        data)) now
    = [Memory.new_conversation now "plan my day" ("Error: " ++ e) "general"].
Proof.
  intros now st create data.
  destruct (chat_saves_error
              (fun _ => "") (fun _ => "") (Returned tt) create st now
              [("message", JStr "plan my day")] "plan my day")
    as (e & A & L);
    try solve [reflexivity | discriminate].
  - intros prompt. exists "Connection error.". reflexivity.
  - exists e. apply L.
    vm_compute in A. injection A as A. subst e. reflexivity.
Defined.

(** X17. Posting a profile answers 200 or 500, and 200 exactly when
    [save_user_profile] returns [True]. After a 200 the profile read back by
    a GET is the posted body. After a 500 a GET answers what it answered
    before or, when the write broke off after the profile file had been
    opened, null. The history file is not touched. *)
Theorem profile_post_then_get (st : fs) (profile_data : json) :
  let result := Server.profile_post st profile_data in
  let status := fst (fst result) in
  (status = 200 \/ status = 500)
  /\ (status = 200
      <-> fst (Profiles.save_user_profile st profile_data) = Returned true)
  /\ (status = 200 -> Server.profile_get (snd result) = (200, profile_data))
  /\ (status = 500 ->
      Server.profile_get (snd result) = Server.profile_get st
      \/ Server.profile_get (snd result) = (200, JNull))
  /\ history_file (snd result) = history_file st.
Proof.
  unfold Server.profile_post, Server.profile_get, Profiles.save_user_profile,
    Profiles.load_user_profile.
  destruct (negb (truthy profile_data)).
  - cbn [fst snd]. repeat split; auto; discriminate.
  - destruct profile_data as [| | | | | d];
      try (cbn [fst snd]; repeat split; auto; discriminate).
    destruct (Profiles.missing_field Profiles.required_fields d).
    + cbn [fst snd]. repeat split; auto; discriminate.
    + destruct (profile_access st); cbn [fst snd profile_file history_file];
        repeat split; auto; discriminate.
Qed.

(** ** Profiles the prompt cannot be built from *)

Section PromptFields.

Variable py_str : json -> string.
Variable error_text : Server.fault -> string.

Lemma system_prompt_missing (d : dict) (k : string) :
  d <> [] -> In k Spec.prompt_fields -> dict_get k d = None ->
  exists k',
    In k' Spec.prompt_fields /\ dict_get k' d = None
    /\ forall context,
         Server.system_prompt py_str error_text (JObj d) context
         = Raised (error_text (Server.KeyMissing k')).
Proof.
  intros Hd Hin Hk.
  assert (T : truthy (JObj d) = true) by (destruct d; [congruence | reflexivity]).
  unfold Server.system_prompt. rewrite T.
  unfold Server.subscript, Server.item, Spec.prompt_fields in *.
  destruct (dict_get "name" d) eqn:E1;
    [| exists "name"; cbn; auto 10].
  destruct (dict_get "role" d) eqn:E2;
    [| exists "role"; cbn; auto 10].
  destruct (dict_get "work_area" d) eqn:E3;
    [| exists "work_area"; cbn; auto 10].
  destruct (dict_get "communication_style" d) eqn:E4;
    [| exists "communication_style"; cbn; auto 10].
  destruct (dict_get "work_hours" d) eqn:E5;
    [| exists "work_hours"; cbn; auto 10].
  destruct (dict_get "interests" d) eqn:E6;
    [| exists "interests"; cbn; auto 10].
  destruct (dict_get "help_areas" d) eqn:E7;
    [| exists "help_areas"; cbn; auto 10].
  exfalso. simpl in Hin.
  repeat (destruct Hin as [<- | Hin]; [congruence |]). contradiction.
Qed.

End PromptFields.

(** X18. A profile dict that lacks one of the fields name, role, work_area,
    communication_style, work_hours, interests and help_areas makes
    [get_smart_response] answer with the text of an error, whatever the
    completion endpoint would have answered: the prompt cannot be built. The
    fields [save_user_profile] requires are only three of these. *)
Theorem profile_fields_needed (py_str : json -> string)
        (error_text : Server.fault -> string) (make_client : outcome unit)
        (st : fs) (now : clock) (message : string) (d : dict) (k : string) :
  d <> [] -> In k Spec.prompt_fields -> dict_get k d = None ->
  exists e,
    forall create,
      Server.get_smart_response py_str error_text make_client create st now
                                message (JObj d)
      = Some ("Error: " ++ e)%string.
Proof.
  intros Hd Hin Hk.
  destruct (system_prompt_missing py_str error_text d k Hd Hin Hk)
    as (k' & _ & _ & P).
  unfold Server.get_smart_response.
  destruct make_client as [[] | e0]; cbn [Server.bind]; [| eauto].
  destruct (Server.memory_context py_str error_text st now message)
    as [context | e1]; cbn [Server.bind]; [| eauto].
  rewrite P. cbn [Server.bind]. eauto.
Qed.

(** The profile of the repository's own check is saved, and no prompt can
    be built from it: it has no work_area. *)
Lemma profile_fields_needed_witness :
  let profile :=
    [("name", JStr "Test User"); ("role", JStr "Student");
     ("communication_style", JStr "Casual and friendly");
     ("help_areas", JArr [JStr "Learning new things"]);
     ("work_hours", JStr "Flexible schedule");
     ("created_date", JStr "2024-05-01T10:00:00")] in
  let st := mkFs Absent Writable Absent Writable in
  let now := mkClock "2024-05-01T10:00:00" "2024-05-01" in
  fst (Profiles.save_user_profile st (JObj profile)) = Returned true
  /\ exists e,
       forall create,
         Server.get_smart_response (fun _ => "") (fun _ => "missing key")
                                   (Returned tt) create st now "hello"
                                   (JObj profile)
         = Some ("Error: " ++ e)%string.
Proof.
  intros profile st now. split; [reflexivity |].
  apply (profile_fields_needed
           (fun _ => "") (fun _ => "missing key") (Returned tt) st now "hello"
           profile "work_area").
  - discriminate.
  - simpl. auto.
  - reflexivity.
Defined.

(** ** More scenarios *)

(** The prompt built for a stored profile and a log of three exchanges. *)
Example prompt_with_profile :
  let now := mkClock "2024-05-01T10:00:00" "2024-05-01" in
  let st :=
    mkFs (Doc (JArr
            [JObj [("user", JStr "meeting about project deadline");
                   ("assistant", JStr "Noted")];
             JObj [("user", JStr "family dinner");
                   ("assistant", JStr "Nice")];
             JObj [("user", JStr "movie"); ("assistant", JStr "Comedy")]]))
         Writable Absent Writable in
  let profile :=
    JObj [("name", JStr "Ann"); ("role", JStr "Student");
          ("work_area", JStr "Math");
          ("communication_style", JStr "Casual and friendly");
          ("work_hours", JStr "Night owl"); ("interests", JStr "chess");
          ("help_areas", JArr [JStr "Work tasks"; JStr "Learning new things"])]
  in
  Server.get_smart_response
    (fun _ => "") (fun _ => "") (Returned tt)
    (fun system_prompt _ => Returned (Some system_prompt)) st now "project"
    profile
  = Some "You are a personalized assistant for Ann.
            
About them:
- Role: Student
- Work/Study: Math
- Communication style: Casual and friendly
- Work schedule: Night owl
- Interests: chess
- Family: Not specified
- Areas they want help with: Work tasks, Learning new things

Previous relevant conversations:
- You previously discussed: 'meeting about project deadline...'

Recent context:
- Recent: family dinner... -> Nice...
- Recent: movie... -> Comedy...


Respond in a casual and friendly way, considering their background and previous conversations.
Reference their interests and past discussions when relevant.".
Proof. vm_compute. reflexivity. Qed.

Example chat_without_message :
  let now := mkClock "2024-05-01T10:00:00" "2024-05-01" in
  let st := mkFs Absent Writable Absent Writable in
  Server.chat (fun _ => "") (fun _ => "") (Returned tt)
              (fun _ _ => Returned (Some "hi")) st now
              (JObj [("profile", JNull)])
  = ((400, JObj [("error", JStr "No message provided")]), st).
Proof. reflexivity. Qed.

(** The handler answers 200 whether the save went through or not: here the
    write breaks off, and the log is lost. *)
Example chat_answers_without_saving :
  let now := mkClock "2024-05-01T10:00:00" "2024-05-01" in
  let st :=
    mkFs (Doc (JArr [JObj [("user", JStr "hi"); ("assistant", JStr "hello")]]))
         DumpFails Absent Writable in
  let result :=
    Server.chat (fun _ => "") (fun _ => "") (Returned tt)
                (fun _ _ => Returned (Some "Sure")) st now
                (JObj [("message", JStr "plan my day")]) in
  fst result
  = (200, JObj [("response", JStr "Sure"); ("domain", JStr "general");
                ("timestamp", JStr "2024-05-01T10:00:00")])
  /\ Memory.load_conversation_history (snd result) now = [].
Proof. split; vm_compute; reflexivity. Qed.

Example profile_post_refused :
  let st := mkFs Absent Writable Absent Writable in
  Server.profile_post st (JObj [("name", JStr "Ann")])
  = ((500, JObj [("error", JStr "Failed to save profile")]), st)
  /\ Server.profile_get st = (200, JNull).
Proof. split; reflexivity. Qed.
